(** * unrardll: the wrapper around the UnRAR library (src/unrardll/wrapper.cpp)

    A shallow embedding of the C++ extension module: the operation context
    [UnrarOperation], the error translator, the integer recombination, the
    callback bridge with its write loop, the capsule teardown, the header
    reader and the file processor, followed by the properties proved of them.

    Data model: LP64 (as on the Debian amd64 build): [unsigned int] is 32 bits,
    [unsigned long], [size_t], [ssize_t] and [LPARAM] are 64 bits.  Integers are
    [Z] with the wrap-around written out where the C types wrap.  Memory reached
    through a pointer argument is a [list Z] of its cells ([char] or [wchar_t]
    according to the use).  The host runtime's heap holds objects by identity
    ([nat]); the C heap holds the [UnrarOperation] blocks by address ([nat]).

    The environment: a call into the UnRAR library is a tree of callback
    invocations ending in the library's result ([NativeCall]); write(2) answers
    from a script of results; a method of a host object is given by what it
    returns or raises on its arguments; the allocations of the host runtime
    are taken to succeed. *)

From stdpp Require Import base option list gmap strings pretty.
From Stdlib Require Import ZArith Lia.
From Stdlib Require HexString.

Local Open Scope Z_scope.

(** ** What the included headers provide

    [unrar/dll.hpp], [errno.h] and [string.h] are not part of the sources: the
    constants the wrapper takes from them are parameters.  A C [switch] needs
    pairwise different case labels, so that much is known of them. *)

Class Headers := {
  ERAR_SUCCESS : Z;
  ERAR_END_ARCHIVE : Z;
  ERAR_NO_MEMORY : Z;
  ERAR_BAD_DATA : Z;
  ERAR_BAD_ARCHIVE : Z;
  ERAR_UNKNOWN_FORMAT : Z;
  ERAR_EOPEN : Z;
  ERAR_ECREATE : Z;
  ERAR_ECLOSE : Z;
  ERAR_EREAD : Z;
  ERAR_EWRITE : Z;
  ERAR_SMALL_BUF : Z;
  ERAR_UNKNOWN : Z;
  ERAR_MISSING_PASSWORD : Z;
  ERAR_EREFERENCE : Z;
  ERAR_BAD_PASSWORD : Z;
  UCM_CHANGEVOLUME : Z;
  UCM_PROCESSDATA : Z;
  UCM_NEEDPASSWORD : Z;
  UCM_CHANGEVOLUMEW : Z;
  UCM_NEEDPASSWORDW : Z;
  RAR_VOL_NOTIFY : Z;
  RHDF_DIRECTORY : Z;
  EINTR : Z;
  EAGAIN : Z;
  EWOULDBLOCK : Z;
  strerror : Z → string;
  (* the case labels of the switch in convert_rar_error *)
  erar_labels_distinct :
    NoDup [ERAR_SUCCESS; ERAR_END_ARCHIVE; ERAR_BAD_DATA; ERAR_BAD_ARCHIVE;
           ERAR_UNKNOWN_FORMAT; ERAR_EOPEN; ERAR_ECREATE; ERAR_ECLOSE;
           ERAR_EREAD; ERAR_EWRITE; ERAR_SMALL_BUF; ERAR_UNKNOWN;
           ERAR_MISSING_PASSWORD; ERAR_EREFERENCE; ERAR_BAD_PASSWORD;
           ERAR_NO_MEMORY];
  (* the case labels of the switch in unrar_callback *)
  ucm_labels_distinct :
    NoDup [UCM_CHANGEVOLUME; UCM_CHANGEVOLUMEW; UCM_NEEDPASSWORD;
           UCM_NEEDPASSWORDW; UCM_PROCESSDATA]
}.

(** The values UnRAR's dll.hpp and Linux give them; used to run the code on
    concrete inputs. *)
#[export] Instance unrar_linux : Headers := {|
  ERAR_SUCCESS := 0; ERAR_END_ARCHIVE := 10; ERAR_NO_MEMORY := 11;
  ERAR_BAD_DATA := 12; ERAR_BAD_ARCHIVE := 13; ERAR_UNKNOWN_FORMAT := 14;
  ERAR_EOPEN := 15; ERAR_ECREATE := 16; ERAR_ECLOSE := 17; ERAR_EREAD := 18;
  ERAR_EWRITE := 19; ERAR_SMALL_BUF := 20; ERAR_UNKNOWN := 21;
  ERAR_MISSING_PASSWORD := 22; ERAR_EREFERENCE := 23; ERAR_BAD_PASSWORD := 24;
  UCM_CHANGEVOLUME := 0; UCM_PROCESSDATA := 1; UCM_NEEDPASSWORD := 2;
  UCM_CHANGEVOLUMEW := 3; UCM_NEEDPASSWORDW := 4;
  RAR_VOL_NOTIFY := 1; RHDF_DIRECTORY := 32;
  EINTR := 4; EAGAIN := 11; EWOULDBLOCK := 11;
  strerror := λ e, "errno " +:+ pretty e;
  erar_labels_distinct := ltac:(by apply (bool_decide_unpack _));
  ucm_labels_distinct := ltac:(by apply (bool_decide_unpack _))
|}.

(** ** Host-runtime values *)

#[warnings="-register-all"] Inductive PyObject :=
| Py_None
| Py_Bool (b : bool)
| Py_Long (n : Z)
| Py_Unicode (s : list Z)
| Py_Bytes (d : list Z)
| Py_Dict (d : gmap string PyObject)
(* any other object: its truth test gives a boolean or raises *)
| Py_Opaque (truth : option bool).

Inductive PyExcType :=
| UNRARError
| PyExc_MemoryError
| PyExc_TypeError
| PyExc_ValueError
| PyExc_AttributeError
| PyExc_Other (name : string).

(** What calling a method of a host object does: return a value or raise. *)
Inductive PyCallResult :=
| CallReturn (v : PyObject)
| CallRaise (ty : PyExcType) (msg : string).

Inductive HeapObject :=
(* PyCapsule: its pointer (None is NULL) and its name (None is NULL) *)
| ObjCapsule (pointer : option nat) (name : option string)
(* an instance, given by what its methods do on their arguments *)
| ObjInstance (methods : string → list PyObject → PyCallResult)
(* a plain value object, such as None *)
| ObjValue (v : PyObject).

(** ** The operation context (wrapper.cpp, lines 22-30) *)

Definition CALLBACK_ERROR_SZ : nat := 256.

Inductive PyGILState_STATE := PyGILState_LOCKED | PyGILState_UNLOCKED.

Record UnrarOperation := mkUnrarOperation {
  unrar_data : Z;                    (* HANDLE; 0 is NULL *)
  callback_object : option nat;      (* PyObject*; None is NULL *)
  thread_state : PyGILState_STATE;
  has_callback_error : bool;
  callback_error : string;
  output_fd : Z
}.

Definition with_thread_state (v : PyGILState_STATE) (uo : UnrarOperation) :=
  mkUnrarOperation (unrar_data uo) (callback_object uo) v
    (has_callback_error uo) (callback_error uo) (output_fd uo).
Definition with_has_callback_error (v : bool) (uo : UnrarOperation) :=
  mkUnrarOperation (unrar_data uo) (callback_object uo) (thread_state uo)
    v (callback_error uo) (output_fd uo).
Definition with_callback_error (v : string) (uo : UnrarOperation) :=
  mkUnrarOperation (unrar_data uo) (callback_object uo) (thread_state uo)
    (has_callback_error uo) v (output_fd uo).
Definition with_output_fd (v : Z) (uo : UnrarOperation) :=
  mkUnrarOperation (unrar_data uo) (callback_object uo) (thread_state uo)
    (has_callback_error uo) (callback_error uo) v.

(** ** The world the wrapper runs in *)

(** Releases of resources, in the order they happen. *)
Inductive Event :=
| EvRARCloseArchive (h : Z)
| EvPy_DECREF (o : nat)
| EvFree (p : nat).

Record World := mkWorld {
  objects : gmap nat HeapObject;          (* host heap *)
  contexts : gmap nat UnrarOperation;     (* C heap: the calloc'ed contexts *)
  py_error : option (PyExcType * string); (* the host error indicator *)
  gil_held : bool;
  (* results (return value, errno) of the coming calls of write(2); once the
     script is used up, a write completes in full *)
  write_script : list (Z * Z);
  errno : Z;
  files : gmap Z (list Z);                (* bytes written so far, per fd *)
  trace : list Event
}.

Definition with_objects (v : gmap nat HeapObject) (w : World) :=
  mkWorld v (contexts w) (py_error w) (gil_held w) (write_script w) (errno w)
    (files w) (trace w).
Definition with_contexts (v : gmap nat UnrarOperation) (w : World) :=
  mkWorld (objects w) v (py_error w) (gil_held w) (write_script w) (errno w)
    (files w) (trace w).
Definition with_py_error (v : option (PyExcType * string)) (w : World) :=
  mkWorld (objects w) (contexts w) v (gil_held w) (write_script w) (errno w)
    (files w) (trace w).
Definition with_gil_held (v : bool) (w : World) :=
  mkWorld (objects w) (contexts w) (py_error w) v (write_script w) (errno w)
    (files w) (trace w).
Definition with_os (script : list (Z * Z)) (e : Z) (fs : gmap Z (list Z))
    (w : World) :=
  mkWorld (objects w) (contexts w) (py_error w) (gil_held w) script e fs
    (trace w).
Definition with_trace (v : list Event) (w : World) :=
  mkWorld (objects w) (contexts w) (py_error w) (gil_held w) (write_script w)
    (errno w) (files w) v.

(** State passing with failure: [None] is a step C gives no meaning to (a
    context read through a dangling pointer). *)
Definition M (A : Type) : Type := World → option (A * World).

#[export] Instance M_ret : MRet M := λ A x w, Some (x, w).
#[export] Instance M_bind : MBind M := λ A B f m w,
  match m w with
  | Some (a, w') => f a w'
  | None => None
  end.

Definition get_world : M World := λ w, Some (w, w).
Definition update_world (f : World → World) : M unit := λ w, Some (tt, f w).

(** [uo->field] and [uo->field = v] *)
Definition load (p : nat) : M UnrarOperation := λ w,
  match contexts w !! p with
  | Some uo => Some (uo, w)
  | None => None
  end.
Definition store (p : nat) (f : UnrarOperation → UnrarOperation) : M unit :=
  uo ← load p;
  update_world (λ w, with_contexts (<[p := f uo]> (contexts w)) w).

Definition emit (e : Event) : M unit :=
  update_world (λ w, with_trace (trace w ++ [e]) w).

(** A C switch: the body of the first matching label, else the default. *)
Fixpoint switch {A : Type} (code : Z) (cases : list (Z * A)) (default : A) : A :=
  match cases with
  | [] => default
  | (label, body) :: rest =>
      if code =? label then body else switch code rest default
  end.

(** ** Host-runtime API used by the wrapper *)

Definition PyErr_SetString (ty : PyExcType) (msg : string) : M unit :=
  update_world (with_py_error (Some (ty, msg))).
Definition PyErr_Clear : M unit := update_world (with_py_error None).
Definition PyErr_Occurred : M bool :=
  w ← get_world; mret (bool_decide (is_Some (py_error w))).

(** wrapper.cpp, line 37; the macro is used on line 67 *)
Definition NOMEM (line : Z) : M unit :=
  PyErr_SetString PyExc_MemoryError ("Out of memory at line number: " +:+ pretty line).

(** ** Error translator (wrapper.cpp, lines 46-75) *)

Definition CASE (x : Z) (name : string) : Z * M unit :=
  (x, PyErr_SetString UNRARError name).

Definition convert_rar_error `{Headers} (code : Z) : M unit :=
  switch code
    [ CASE ERAR_SUCCESS "ERAR_SUCCESS";
      CASE ERAR_END_ARCHIVE "ERAR_END_ARCHIVE";
      CASE ERAR_BAD_DATA "ERAR_BAD_DATA";
      CASE ERAR_BAD_ARCHIVE "ERAR_BAD_ARCHIVE";
      CASE ERAR_UNKNOWN_FORMAT "ERAR_UNKNOWN_FORMAT";
      CASE ERAR_EOPEN "ERAR_EOPEN";
      CASE ERAR_ECREATE "ERAR_ECREATE";
      CASE ERAR_ECLOSE "ERAR_ECLOSE";
      CASE ERAR_EREAD "ERAR_EREAD";
      CASE ERAR_EWRITE "ERAR_EWRITE";
      CASE ERAR_SMALL_BUF "ERAR_SMALL_BUF";
      CASE ERAR_UNKNOWN "ERAR_UNKNOWN";
      CASE ERAR_MISSING_PASSWORD "ERAR_MISSING_PASSWORD";
      CASE ERAR_EREFERENCE "ERAR_EREFERENCE";
      CASE ERAR_BAD_PASSWORD "ERAR_BAD_PASSWORD";
      (ERAR_NO_MEMORY, NOMEM 67) ]
    (PyErr_SetString UNRARError "Unknown error").

(** ** Split-integer recombination (wrapper.cpp, lines 303-307) *)

Definition ULONG_BITS : Z := 64.
Definition to_ulong (z : Z) : Z := z mod 2 ^ ULONG_BITS.

Definition combine (h l : Z) : Z :=
  let ans := to_ulong h in
  Z.lor (to_ulong (Z.shiftl ans 32)) (to_ulong l).

(** ** Host-runtime API, continued *)

Definition PyGILState_Ensure : M PyGILState_STATE := λ w,
  Some (if gil_held w then PyGILState_LOCKED else PyGILState_UNLOCKED,
        with_gil_held true w).
Definition PyGILState_Release (st : PyGILState_STATE) : M unit :=
  match st with
  | PyGILState_LOCKED => mret tt
  | PyGILState_UNLOCKED => update_world (with_gil_held false)
  end.

(** wrapper.cpp, lines 32-33 *)
Definition ALLOW_THREADS (uo : nat) : M unit :=
  st ← PyGILState_Ensure; store uo (with_thread_state st).
Definition BLOCK_THREADS (uo : nat) : M unit :=
  o ← load uo; PyGILState_Release (thread_state o).

(** Calling a method: the result, or NULL with the error indicator set. *)
Definition PyObject_CallMethod (o : nat) (name : string) (args : list PyObject)
    : M (option PyObject) :=
  w ← get_world;
  match objects w !! o with
  | Some (ObjInstance methods) =>
      match methods name args with
      | CallReturn v => mret (Some v)
      | CallRaise ty msg => PyErr_SetString ty msg;; mret None
      end
  | _ => PyErr_SetString PyExc_AttributeError name;; mret None
  end.

(** 1 for true, 0 for false, -1 with the error indicator set on failure. *)
Definition PyObject_IsTrue (v : PyObject) : M Z :=
  match v with
  | Py_None => mret 0
  | Py_Bool b => mret (if b then 1 else 0)
  | Py_Long n => mret (if n =? 0 then 0 else 1)
  | Py_Unicode s => mret (if s is [] then 0 else 1)
  | Py_Bytes d => mret (if d is [] then 0 else 1)
  | Py_Dict d => mret (if bool_decide (size d = 0%nat) then 0 else 1)
  | Py_Opaque (Some b) => mret (if b then 1 else 0)
  | Py_Opaque None =>
      PyErr_SetString (PyExc_Other "Exception") "__bool__ raised";; mret (-1)
  end.

Definition is_Py_None (v : PyObject) : bool :=
  match v with Py_None => true | _ => false end.

(** Capsules: a capsule is valid under a name when its pointer is not NULL and
    its name matches, two NULL names matching each other only. *)
Definition name_matches (name1 name2 : option string) : bool :=
  bool_decide (name1 = name2).

Definition PyCapsule_IsValid (o : nat) (name : option string) : M bool :=
  w ← get_world;
  mret (match objects w !! o with
        | Some (ObjCapsule (Some _) nm) => name_matches nm name
        | _ => false
        end).

Definition PyCapsule_GetPointer (o : nat) (name : option string)
    : M (option nat) :=
  w ← get_world;
  match objects w !! o with
  | Some (ObjCapsule (Some p) nm) =>
      if name_matches nm name then mret (Some p)
      else PyErr_SetString PyExc_ValueError
             "PyCapsule_GetPointer called with incorrect name";;
           mret None
  | _ => PyErr_SetString PyExc_ValueError
           "PyCapsule_GetPointer called with invalid PyCapsule object";;
         mret None
  end.

Definition PyCapsule_SetName (o : nat) (name : option string) : M Z :=
  w ← get_world;
  match objects w !! o with
  | Some (ObjCapsule (Some p) _) =>
      update_world (with_objects (<[o := ObjCapsule (Some p) name]> (objects w)));;
      mret 0
  | _ => PyErr_SetString PyExc_ValueError
           "PyCapsule_SetName called with invalid PyCapsule object";;
         mret (-1)
  end.

(** No object of the model is freed by a reference count reaching zero; a
    release is recorded. *)
Definition Py_XDECREF (o : option nat) : M unit :=
  match o with
  | Some o => emit (EvPy_DECREF o)
  | None => mret tt
  end.

Definition RARCloseArchive (h : Z) : M unit := emit (EvRARCloseArchive h).

Definition free (p : nat) : M unit :=
  _ ← load p;
  update_world (λ w, with_contexts (delete p (contexts w)) w);;
  emit (EvFree p).

(** ** Value marshaling (wrapper.cpp, lines 77-95) *)

(** PyUnicode_AsWideChar: at most [sz] cells are written, the terminator
    among them when it fits; the number of characters copied is returned. *)
Definition PyUnicode_AsWideChar (s : list Z) (buf : list Z) (sz : Z)
    : Z * list Z :=
  let copied := take (Z.to_nat sz) (s ++ [0]) in
  (Z.min (Z.of_nat (length s)) sz, copied ++ drop (length copied) buf).

Definition unicode_to_wchar (o : PyObject) (buf : list Z) (sz : Z)
    : M (Z * list Z) :=
  match o with
  | Py_Unicode s => mret (PyUnicode_AsWideChar s buf sz)
  | _ => PyErr_SetString PyExc_TypeError
           "The python object must be a unicode object";;
         mret (-1, buf)
  end.

(** The code points: wchar_t has 32 bits, and a cell is a character when,
    read as unsigned, it is at most MAX_UNICODE. *)
Definition MAX_UNICODE : Z := 0x10ffff.
Definition is_code_point (ch : Z) : bool := (0 <=? ch) && (ch <=? MAX_UNICODE).

(** printf's %x of an unsigned int *)
Definition hex (z : Z) : string :=
  match z mod 2 ^ 32 with
  | Zpos p => HexString.Raw.of_pos p EmptyString
  | _ => "0"
  end.

(** PyUnicode_FromWideChar reads [sz] cells, and C gives no meaning to the
    call when the buffer holds fewer.  It returns the text of the cells, or
    NULL with a ValueError set when a cell is no code point. *)
Definition PyUnicode_FromWideChar (o : list Z) (sz : Z) : M (option PyObject) :=
  if bool_decide (0 ≤ sz ≤ Z.of_nat (length o)) then
    let text := take (Z.to_nat sz) o in
    match filter (λ ch, is_code_point ch = false) text with
    | [] => mret (Some (Py_Unicode text))
    | ch :: _ =>
        PyErr_SetString PyExc_ValueError
          ("character U+" +:+ hex ch +:+ " is not in range [U+0000; U+10ffff]");;
        mret None
    end
  else λ _, None.

(** wrapper.cpp, lines 88-95 *)
Definition wchar_to_unicode (o : option (list Z)) (sz : Z)
    : M (option PyObject) :=
  match o with
  | None => mret None
  | Some cells =>
      ans ← PyUnicode_FromWideChar cells sz;
      match ans with
      | None => NOMEM 93;; mret None
      | Some v => mret (Some v)
      end
  end.

Definition NAME : string := "RARFileHandle".

(** ** Teardown (wrapper.cpp, lines 99-108) *)

Definition close_encapsulated_file (capsule : nat) : M unit :=
  valid ← PyCapsule_IsValid capsule (Some NAME);
  if valid : bool then
    ptr ← PyCapsule_GetPointer capsule (Some NAME);
    match ptr with
    | Some uo =>
        o ← load uo;
        (if unrar_data o =? 0 then mret tt else RARCloseArchive (unrar_data o));;
        Py_XDECREF (callback_object o);;
        free uo;;
        PyCapsule_SetName capsule None;;
        mret tt
    | None => λ _, None
    end
  else mret tt.

(** ** The write loop (wrapper.cpp, lines 124-145) *)

Definition SIZE_BITS : Z := 64.
Definition to_size_t (z : Z) : Z := z mod 2 ^ SIZE_BITS.

(** write(2): the next scripted result, or the whole range once the script is
    used up.  A positive result appends that many bytes, taken from the start
    of [data], to the file. *)
Definition write (fd : Z) (data : list Z) (sz : Z) : M Z := λ w,
  let '(r, e, rest) :=
    match write_script w with
    | [] => (sz, errno w, [])
    | (r, e) :: rest => (r, e, rest)
    end in
  let fs :=
    if 0 <? r
    then <[fd := default [] (files w !! fd) ++ take (Z.to_nat r) data]> (files w)
    else files w in
  Some (r, with_os rest e fs w).

Definition set_errno (e : Z) : M unit :=
  update_world (λ w, with_os (write_script w) e (files w) w).
Definition get_errno : M Z := w ← get_world; mret (errno w).

(** One unfolding of the [while] per unit of fuel; [write_all] gives it more
    fuel than the script has entries, which is as many rounds as the loop can
    make (lemma [write_all_loop_returns]).  [written] is an [ssize_t] and [sz] a
    [size_t]: their comparison converts [written] to [size_t]. *)
Fixpoint write_all_loop `{Headers} (fuel : nat) (data : list Z) (sz : Z) (fd : Z)
    : M bool :=
  match fuel with
  | O => λ _, None
  | S fuel' =>
      if 0 <? sz then
        set_errno 0;;
        written ← write fd data sz;
        err ← get_errno;
        if to_size_t written >=? sz then mret true
        else if written <? 0 then
          (* if (err == EINTR || err == EAGAIN || err == EWOULDBLOCK); continue; *)
          let _ := (err =? EINTR) || (err =? EAGAIN) || (err =? EWOULDBLOCK) in
          write_all_loop fuel' data sz fd
        else if (written =? 0) && negb (err =? 0) then mret false
        else write_all_loop fuel' data (to_size_t (sz - written)) fd
      else mret true
  end.

Definition write_all `{Headers} (data : list Z) (sz : Z) (fd : Z) : M bool :=
  w ← get_world;
  write_all_loop (S (length (write_script w))) data sz fd.

(** ** The callback bridge (wrapper.cpp, lines 147-233) *)

Definition _get_password : string := "_get_password".
Definition _process_data : string := "_process_data".

(** snprintf(uo->callback_error, CALLBACK_ERROR_SZ, ...) *)
Definition snprintf (size : nat) (text : string) : string :=
  String.substring 0 (size - 1) text.

Definition set_callback_error (uo : nat) (text : string) : M unit :=
  store uo (with_callback_error (snprintf CALLBACK_ERROR_SZ text));;
  store uo (with_has_callback_error true).

(** The callback returns its [int] and leaves the buffer at [p1] as it is or,
    for a password request, filled in. *)
Definition unrar_callback `{Headers} (msg : Z) (user_data : nat) (p1 : list Z)
    (p2 : Z) : M (Z * list Z) :=
  let uo := user_data in
  o ← load uo;
  let callback := callback_object o in
  let length := Z.land p2 0xffffffff in
  r ← switch msg
    [ (UCM_CHANGEVOLUME,
        if p2 =? RAR_VOL_NOTIFY then mret (0, p1)
        else set_callback_error uo
               "Could not find next part of a multi-part archive";;
             mret (-1, p1));
      (UCM_CHANGEVOLUMEW,
        if p2 =? RAR_VOL_NOTIFY then mret (0, p1)
        else set_callback_error uo
               "Could not find next part of a multi-part archive";;
             mret (-1, p1));
      (UCM_NEEDPASSWORD, mret (-1, p1));
      (UCM_NEEDPASSWORDW,
        if p2 <=? 0 then
          set_callback_error uo
            ("Invalid password buffer length sent to callback: " +:+ pretty p2);;
          mret (-1, p1)
        else match callback with
        | Some cb =>
            BLOCK_THREADS uo;;
            pw ← PyObject_CallMethod cb _get_password [];
            occurred ← PyErr_Occurred;
            (if occurred : bool then
               set_callback_error uo
                 "An exception occurred in the password callback handler"
             else mret tt);;
            r ← match pw with
                | Some v =>
                    if is_Py_None v then mret (-1, p1)
                    else
                      '(sz, buf) ← unicode_to_wchar v p1 length;
                      if 0 <? sz then mret (0, buf)
                      else
                        set_callback_error uo
                          "The password callback handler did not return a unicode object";;
                        mret (-1, buf)
                | None => mret (-1, p1)
                end;
            PyErr_Clear;;
            ALLOW_THREADS uo;;
            mret r
        | None =>
            set_callback_error uo "No callback provided";; mret (-1, p1)
        end);
      (UCM_PROCESSDATA,
        if p2 <? 0 then
          set_callback_error uo
            ("Invalid buffer length sent to callback: " +:+ pretty p2);;
          mret (-1, p1)
        else match callback with
        | Some cb =>
            if -1 <? output_fd o then
              ok ← write_all p1 length (output_fd o);
              if ok : bool then mret (0, p1)
              else
                e ← get_errno;
                set_callback_error uo
                  ("Failed to write all bytes to output file. Error: "
                   +:+ strerror e);;
                mret (-1, p1)
            else
              BLOCK_THREADS uo;;
              pw ← PyObject_CallMethod cb _process_data
                     [Py_Bytes (take (Z.to_nat length) p1)];
              occurred ← PyErr_Occurred;
              ret ← (if occurred : bool then
                       set_callback_error uo
                         "An exception occurred in the password callback handler";;
                       mret (-1)
                     else
                       (* ret = (pw && PyObject_IsTrue(pw)) ? 0 : -1; *)
                       truth ← match pw with
                               | Some v => PyObject_IsTrue v
                               | None => mret 0
                               end;
                       let ret := if truth =? 0 then -1 else 0 in
                       (if ret =? 0 then mret tt
                        else set_callback_error uo
                               "Processing canceled by the callback");;
                       mret ret);
              ALLOW_THREADS uo;;
              mret (ret, p1)
        | None =>
            set_callback_error uo "No callback provided";; mret (-1, p1)
        end) ]
    (mret (-1, p1));
  PyErr_Clear;;
  mret r.

(** ** The native library

    One call into the UnRAR library: it returns, or it invokes the registered
    callback with the registered user data and goes on from what the callback
    answered. *)
Inductive NativeCall (R : Type) : Type :=
| NReturn (r : R)
| NCallback (msg : Z) (p1 : list Z) (p2 : Z) (k : Z * list Z → NativeCall R).
Arguments NReturn {R} r.
Arguments NCallback {R} msg p1 p2 k.

Fixpoint run_native `{Headers} {R : Type} (call : NativeCall R) (user_data : nat)
    : M R :=
  match call with
  | NReturn r => mret r
  | NCallback msg p1 p2 k =>
      reply ← unrar_callback msg user_data p1 p2;
      run_native (k reply) user_data
  end.

(** ** Explicit close and capsule access (wrapper.cpp, lines 285-301) *)

Definition close_archive (capsule : nat) : M (option PyObject) :=
  close_encapsulated_file capsule;;
  mret (Some Py_None).

Definition from_capsule (file_capsule : nat) : M (option nat) :=
  data ← PyCapsule_GetPointer file_capsule (Some NAME);
  match data with
  | None =>
      PyErr_SetString PyExc_TypeError ("Not a valid " +:+ NAME +:+ " capsule");;
      mret None
  | Some p => mret (Some p)
  end.

(** ** Header decoding (wrapper.cpp, lines 309-341) *)

(** The fields of RARHeaderDataEx the wrapper reads. *)
Record RARHeaderDataEx := mkRARHeaderDataEx {
  FileNameW : list Z;             (* wchar_t[1024] *)
  Flags : Z;
  PackSize : Z;
  PackSizeHigh : Z;
  UnpSize : Z;
  UnpSizeHigh : Z;
  HostOS : Z;
  FileCRC : Z;
  FileTime : Z;
  UnpVer : Z;
  Method : Z;
  FileAttr : Z;
  RedirType : Z;
  RedirName : option (list Z);    (* wchar_t*; None is NULL *)
  RedirNameSize : Z
}.

(** RARHeaderDataEx header = {0}; *)
Definition header_zero : RARHeaderDataEx :=
  mkRARHeaderDataEx (replicate 1024 0) 0 0 0 0 0 0 0 0 0 0 0 0 None 0.

Fixpoint wcslen (cells : list Z) : Z :=
  match cells with
  | [] => 0
  | c :: rest => if c =? 0 then 0 else 1 + wcslen rest
  end.

Definition to_uint (z : Z) : Z := z mod 2 ^ 32.
Definition to_int (z : Z) : Z := (z + 2 ^ 31) mod 2 ^ 32 - 2 ^ 31.

(** Py_BuildValue with a one-letter format: N (an object, handed over), H and I
    (read as unsigned int), k (unsigned long), b (read as int). *)
Definition Py_BuildValue_N (v : PyObject) : PyObject := v.
Definition Py_BuildValue_H (v : Z) : PyObject := Py_Long (to_uint v).
Definition Py_BuildValue_I (v : Z) : PyObject := Py_Long (to_uint v).
Definition Py_BuildValue_k (v : Z) : PyObject := Py_Long (to_ulong v).
Definition Py_BuildValue_b (v : Z) : PyObject := Py_Long (to_int v).

Definition Py_True : PyObject := Py_Bool true.
Definition Py_False : PyObject := Py_Bool false.

(** AVAL(name, code, val): build the value, set the item.  The allocations of
    the host runtime are taken to succeed. *)
Definition AVAL (name : string) (val : PyObject) (ans : gmap string PyObject)
    : gmap string PyObject :=
  <[name := val]> ans.

(** wrapper.cpp, lines 309-341; [mret None] is [goto error]. *)
Definition header_to_python `{Headers} (fh : RARHeaderDataEx)
    : M (option PyObject) :=
  let ans : gmap string PyObject := ∅ in
  filename ← wchar_to_unicode (Some (FileNameW fh)) (wcslen (FileNameW fh));
  match filename with
  | None => mret None
  | Some filename =>
  let ans := AVAL "filename" (Py_BuildValue_N filename) ans in
  let ans := AVAL "flags" (Py_BuildValue_H (Flags fh)) ans in
  let ans := AVAL "pack_size"
               (Py_BuildValue_k (combine (PackSizeHigh fh) (PackSize fh))) ans in
  let ans := AVAL "unpack_size"
               (Py_BuildValue_k (combine (UnpSizeHigh fh) (UnpSize fh))) ans in
  let ans := AVAL "host_os" (Py_BuildValue_b (HostOS fh)) ans in
  let ans := AVAL "file_crc" (Py_BuildValue_I (FileCRC fh)) ans in
  let ans := AVAL "file_time" (Py_BuildValue_I (FileTime fh)) ans in
  let ans := AVAL "unpack_ver" (Py_BuildValue_b (UnpVer fh)) ans in
  let ans := AVAL "method" (Py_BuildValue_b (Method fh)) ans in
  let ans := AVAL "file_attr" (Py_BuildValue_I (FileAttr fh)) ans in
  let ans := AVAL "is_dir"
               (if Z.land (Flags fh) RHDF_DIRECTORY =? 0 then Py_False
                else Py_True) ans in
  let ans := AVAL "redir_type" (Py_BuildValue_I (RedirType fh)) ans in
  if 0 <? RedirNameSize fh then
    filename ← wchar_to_unicode (RedirName fh) (RedirNameSize fh);
    match filename with
    | None => mret None
    | Some filename =>
        mret (Some (Py_Dict (AVAL "redir_name" (Py_BuildValue_N filename) ans)))
    end
  else mret (Some (Py_Dict ans))
  end.

(** ** Header reader (wrapper.cpp, lines 344-365)

    [RARReadHeaderEx handle header] is what the library does on this call: it
    is given the zeroed header and returns its status with the header filled
    in. *)
Definition read_next_header `{Headers}
    (RARReadHeaderEx : Z → RARHeaderDataEx → NativeCall (Z * RARHeaderDataEx))
    (file_capsule : nat) : M (option PyObject) :=
  ptr ← from_capsule file_capsule;
  match ptr with
  | None => mret None
  | Some uo =>
      o ← load uo;
      let data := unrar_data o in
      ALLOW_THREADS uo;;
      '(retval, header) ← run_native (RARReadHeaderEx data header_zero) uo;
      BLOCK_THREADS uo;;
      switch retval
        [ (ERAR_END_ARCHIVE, mret (Some Py_None));
          (ERAR_SUCCESS, header_to_python header) ]
        (convert_rar_error retval;; mret None)
  end.

(** ** File processor (wrapper.cpp, lines 368-385)

    The arguments are those PyArg_ParseTuple has parsed; [RARProcessFile handle
    operation] is what the library does on this call. *)
Definition process_file `{Headers} (RARProcessFile : Z → Z → NativeCall Z)
    (file_capsule : nat) (operation output_fd : Z) : M (option PyObject) :=
  ptr ← from_capsule file_capsule;
  match ptr with
  | None => mret None
  | Some uo =>
      store uo (with_output_fd output_fd);;
      o ← load uo;
      let data := unrar_data o in
      ALLOW_THREADS uo;;
      retval ← run_native (RARProcessFile data operation) uo;
      BLOCK_THREADS uo;;
      if retval =? ERAR_SUCCESS then mret (Some Py_None)
      else
        o ← load uo;
        (if (retval =? ERAR_UNKNOWN) && has_callback_error o
         then PyErr_SetString UNRARError (callback_error o)
         else convert_rar_error retval);;
        mret None
  end.

(** ** Opening an archive (wrapper.cpp, lines 111-118 and 235-283) *)

Definition MAX_COMMENT_LENGTH : Z := 512 * 1024.

(** The fields of RAROpenArchiveDataEx the wrapper sets or reads; Callback
    and UserData are the bridge and the context, see [run_native]. *)
Record RAROpenArchiveDataEx := mkRAROpenArchiveDataEx {
  ArcNameW : list Z;              (* wchar_t*: pathbuf *)
  OpenMode : Z;
  OpenResult : Z;
  CmtBuf : option (list Z);       (* char*; None is NULL *)
  CmtBufSize : Z;
  CmtSize : Z
}.

Definition with_unrar_data (v : Z) (uo : UnrarOperation) :=
  mkUnrarOperation v (callback_object uo) (thread_state uo)
    (has_callback_error uo) (callback_error uo) (output_fd uo).
Definition with_callback_object (v : option nat) (uo : UnrarOperation) :=
  mkUnrarOperation (unrar_data uo) v (thread_state uo)
    (has_callback_error uo) (callback_error uo) (output_fd uo).

(** calloc(1, sizeof(UnrarOperation)): [result] is what the allocator
    answers, the address of a block of zeros or NULL. *)
Definition zeroed_context : UnrarOperation :=
  mkUnrarOperation 0 None PyGILState_LOCKED false "" 0.
Definition calloc (result : option nat) : M (option nat) :=
  match result with
  | Some p =>
      update_world (λ w, with_contexts (<[p := zeroed_context]> (contexts w)) w);;
      mret (Some p)
  | None => mret None
  end.

(** PyCapsule_New: [result] is what the host allocator answers, the new
    object or NULL with the memory error set. *)
Definition PyCapsule_New (result : option nat) (pointer : nat) (name : string)
    : M (option nat) :=
  match result with
  | Some c =>
      update_world
        (λ w, with_objects
                (<[c := ObjCapsule (Some pointer) (Some name)]> (objects w)) w);;
      mret (Some c)
  | None => PyErr_SetString PyExc_MemoryError "";; mret None
  end.

(** The model records the releases of references, not their acquisitions. *)
Definition Py_INCREF (o : nat) : M unit := mret tt.

(** Py_BuildValue with the format y#: the bytes at the pointer, or None for
    NULL. *)
Definition Py_BuildValue_y (buf : option (list Z)) (n : Z) : PyObject :=
  match buf with
  | Some cells => Py_Bytes (take (Z.to_nat n) cells)
  | None => Py_None
  end.

(** wrapper.cpp, lines 111-118 *)
Definition encapsulate (capsule_result : option nat) (file : option nat)
    : M (option nat) :=
  match file with
  | None => mret None
  | Some f =>
      ans ← PyCapsule_New capsule_result f NAME;
      match ans with
      | None =>
          o ← load f;
          RARCloseArchive (unrar_data o);;
          Py_XDECREF (callback_object o);;
          free f;;
          mret None
      | Some c => mret (Some c)
      end
  end.

(** What open_archive returns: the capsule, or the pair of the capsule and
    the comment. *)
Inductive OpenValue :=
| OpenedCapsule (c : nat)
| OpenedWithComment (c : nat) (comment : PyObject).

(** wrapper.cpp, lines 238-283.  The arguments are those PyArg_ParseTuple has
    parsed, [path] being the text of the unicode object it has checked.
    [calloc_result] and [capsule_result] are the answers of the two
    allocators, [comment_buf] is what the uninitialised array holds, and
    [RAROpenArchiveEx open_info] is what the library does on this call: it
    returns the handle and the open data as it leaves them. *)
Definition open_archive `{Headers}
    (RAROpenArchiveEx : RAROpenArchiveDataEx
                        → NativeCall (Z * RAROpenArchiveDataEx))
    (calloc_result capsule_result : option nat) (comment_buf : list Z)
    (path : list Z) (callback : nat) (mode : Z) (get_comment : PyObject)
    : M (option OpenValue) :=
  '(n, pathbuf) ← unicode_to_wchar (Py_Unicode path) (replicate 4096 0) 4096;
  if n <? 0 then mret None
  else
    uo ← calloc calloc_result;
    match uo with
    | None => NOMEM 253;; mret None
    | Some uo =>
        Py_INCREF callback;;
        store uo (with_callback_object (Some callback));;
        truth ← PyObject_IsTrue get_comment;
        let get_comments := negb (truth =? 0) in
        let open_info :=
          mkRAROpenArchiveDataEx pathbuf mode 0
            (if get_comments then Some comment_buf else None)
            (if get_comments then MAX_COMMENT_LENGTH else 0) 0 in
        ALLOW_THREADS uo;;
        '(handle, open_info) ← run_native (RAROpenArchiveEx open_info) uo;
        store uo (with_unrar_data handle);;
        BLOCK_THREADS uo;;
        o ← load uo;
        if unrar_data o =? 0 then
          Py_XDECREF (callback_object o);;
          free uo;;
          convert_rar_error (OpenResult open_info);;
          mret None
        else if negb (OpenResult open_info =? ERAR_SUCCESS) then
          RARCloseArchive (unrar_data o);;
          Py_XDECREF (callback_object o);;
          free uo;;
          convert_rar_error (OpenResult open_info);;
          mret None
        else
          ans ← encapsulate capsule_result (Some uo);
          match ans with
          | None => mret None
          | Some c =>
              if get_comments then
                mret (Some (OpenedWithComment c
                              (Py_BuildValue_y (CmtBuf open_info)
                                 (if CmtSize open_info =? 0 then 0
                                  else CmtSize open_info - 1))))
              else mret (Some (OpenedCapsule c))
          end
    end.

(** * Vocabulary of the statements

    Predicates, observations and sample inputs the properties below are
    stated with. *)

(** [wp m Q w]: run from [w], [m] returns, with a result and a world that
    satisfy [Q]. *)
Definition wp {A : Type} (m : M A) (Q : A → World → Prop) (w : World) : Prop :=
  match m w with
  | Some (a, w') => Q a w'
  | None => False
  end.

(** The enumerated codes with the failure each is given: the archive error
    category with the code's name. *)
Definition erar_names `{Headers} : list (Z * string) :=
  [ (ERAR_SUCCESS, "ERAR_SUCCESS"); (ERAR_END_ARCHIVE, "ERAR_END_ARCHIVE");
    (ERAR_BAD_DATA, "ERAR_BAD_DATA"); (ERAR_BAD_ARCHIVE, "ERAR_BAD_ARCHIVE");
    (ERAR_UNKNOWN_FORMAT, "ERAR_UNKNOWN_FORMAT"); (ERAR_EOPEN, "ERAR_EOPEN");
    (ERAR_ECREATE, "ERAR_ECREATE"); (ERAR_ECLOSE, "ERAR_ECLOSE");
    (ERAR_EREAD, "ERAR_EREAD"); (ERAR_EWRITE, "ERAR_EWRITE");
    (ERAR_SMALL_BUF, "ERAR_SMALL_BUF"); (ERAR_UNKNOWN, "ERAR_UNKNOWN");
    (ERAR_MISSING_PASSWORD, "ERAR_MISSING_PASSWORD");
    (ERAR_EREFERENCE, "ERAR_EREFERENCE");
    (ERAR_BAD_PASSWORD, "ERAR_BAD_PASSWORD") ].

(** A header as the library could fill it in: a directory "d" (flags 0x20)
    with a redirection buffer "tgt" of which two cells count. *)
Definition header_dir_link : RARHeaderDataEx :=
  mkRARHeaderDataEx [100; 0] 32 0 0 0 0 0 0 0 0 0 0 1 (Some [116; 103; 116]) 2.

(** [c] is a live archive handle: a capsule named NAME whose pointer is the
    context [uo] at address [p]. *)
Definition live_handle (w : World) (c p : nat) (uo : UnrarOperation) : Prop :=
  objects w !! c = Some (ObjCapsule (Some p) (Some NAME)) ∧
  contexts w !! p = Some uo.

(** The test PyCapsule_IsValid makes for the name NAME. *)
Definition valid_capsule (w : World) (c : nat) : bool :=
  match objects w !! c with
  | Some (ObjCapsule (Some _) nm) => name_matches nm (Some NAME)
  | _ => false
  end.

(** The error from_capsule sets. *)
Definition not_a_capsule_error : option (PyExcType * string) :=
  Some (PyExc_TypeError, "Not a valid RARFileHandle capsule").

(** The releases a teardown of the context [uo] at [p] performs. *)
Definition teardown_events (p : nat) (uo : UnrarOperation) : list Event :=
  (if unrar_data uo =? 0 then [] else [EvRARCloseArchive (unrar_data uo)])
  ++ (match callback_object uo with Some o => [EvPy_DECREF o] | None => [] end)
  ++ [EvFree p].

(** A data consumer: an instance whose _process_data does [r]. *)
Definition consumer (r : PyCallResult) : HeapObject :=
  ObjInstance (λ name _, if String.eqb name _process_data then r
                         else CallRaise PyExc_AttributeError name).

(** A freshly opened handle: capsule 0 holds the context at address 5, whose
    callback object is object 1. *)
Definition opened_context : UnrarOperation :=
  mkUnrarOperation 77 (Some 1%nat) PyGILState_LOCKED false "" (-1).
Definition opened_world (r : PyCallResult) : World :=
  mkWorld (<[0%nat := ObjCapsule (Some 5%nat) (Some NAME)]>
             (<[1%nat := consumer r]> ∅))
          (<[5%nat := opened_context]> ∅) None true [] 0 ∅ [].

(** Everything but the operating-system part of the world is the same. *)
Definition same_but_os (w w' : World) : Prop :=
  objects w' = objects w ∧ contexts w' = contexts w ∧
  py_error w' = py_error w ∧ gil_held w' = gil_held w ∧ trace w' = trace w.

(** From [w0] to [w]: the host heap, the trace, every context but the one at
    [p], and in that one the native handle, the callback reference and the
    output descriptor are the same. *)
Definition frame (p : nat) (w0 w : World) : Prop :=
  objects w = objects w0 ∧ trace w = trace w0 ∧
  (∀ q, q ≠ p → contexts w !! q = contexts w0 !! q) ∧
  ∃ uo0 uo, contexts w0 !! p = Some uo0 ∧ contexts w !! p = Some uo ∧
    unrar_data uo = unrar_data uo0 ∧
    callback_object uo = callback_object uo0 ∧
    output_fd uo = output_fd uo0.

(** The fields of the context the bridge and the GIL macros write. *)
Definition keeps_frame (f : UnrarOperation → UnrarOperation) : Prop :=
  ∀ uo, unrar_data (f uo) = unrar_data uo ∧
        callback_object (f uo) = callback_object uo ∧
        output_fd (f uo) = output_fd uo.

(** The part of process_file up to the return of the native call: the
    status the library returned. *)
Definition process_file_native `{Headers} (RARProcessFile : Z → Z → NativeCall Z)
    (uo : nat) (operation output_fd : Z) : M Z :=
  store uo (with_output_fd output_fd);;
  o ← load uo;
  ALLOW_THREADS uo;;
  run_native (RARProcessFile (unrar_data o) operation) uo.

(** The part after it. *)
Definition process_file_finish `{Headers} (uo : nat) (retval : Z)
    : M (option PyObject) :=
  BLOCK_THREADS uo;;
  if retval =? ERAR_SUCCESS then mret (Some Py_None)
  else
    o ← load uo;
    (if (retval =? ERAR_UNKNOWN) && has_callback_error o
     then PyErr_SetString UNRARError (callback_error o)
     else convert_rar_error retval);;
    mret None.

(** The context at [p] after a run, if the run returned. *)
Definition context_after {A} (r : option (A * World)) (p : nat)
    : option UnrarOperation :=
  match r with
  | Some (_, w) => contexts w !! p
  | None => None
  end.

(** The error indicator after a run, if the run returned. *)
Definition error_after {A} (r : option (A * World))
    : option (PyExcType * string) :=
  match r with
  | Some (_, w) => py_error w
  | None => None
  end.

(** The library delivers one chunk of four bytes and returns success, or the
    unknown-error status when the callback aborts. *)
Definition one_chunk : Z → Z → NativeCall Z := λ _ _,
  NCallback UCM_PROCESSDATA [1; 2; 3; 4] 4
    (λ reply, NReturn (if reply.1 =? 0 then ERAR_SUCCESS else ERAR_UNKNOWN)).

(** The library returns a status at once. *)
Definition no_callback (status : Z) : Z → Z → NativeCall Z := λ _ _,
  NReturn status.

(** The context of the opened handle once its consumer has canceled. *)
Definition canceled_context : UnrarOperation :=
  mkUnrarOperation 77 (Some 1%nat) PyGILState_LOCKED true
    "Processing canceled by the callback" (-1).

(** The part of read_next_header up to the return of the native call: the
    status and the header the library returned. *)
Definition read_next_header_native `{Headers}
    (RARReadHeaderEx : Z → RARHeaderDataEx → NativeCall (Z * RARHeaderDataEx))
    (uo : nat) : M (Z * RARHeaderDataEx) :=
  o ← load uo;
  ALLOW_THREADS uo;;
  run_native (RARReadHeaderEx (unrar_data o) header_zero) uo.

(** The library reports the end of the archive. *)
Definition at_end : Z → RARHeaderDataEx → NativeCall (Z * RARHeaderDataEx) :=
  λ _ header, NReturn (ERAR_END_ARCHIVE, header).

(** A value is falsy (truthy) when PyObject_IsTrue gives 0 (1) for it. *)
Definition falsy (v : PyObject) : Prop := ∀ w, PyObject_IsTrue v w = Some (0, w).
Definition truthy (v : PyObject) : Prop := ∀ w, PyObject_IsTrue v w = Some (1, w).

(** The message the bridge records when the consumer cancels. *)
Definition canceled_message : string := "Processing canceled by the callback".

(** [w'] differs from [w] at most in the GIL flag. *)
Definition same_heaps (w w' : World) : Prop :=
  contexts w' = contexts w ∧ objects w' = objects w ∧ py_error w' = py_error w.

(** The bytes in the file [fd] after a run, if the run returned. *)
Definition file_after {A} (r : option (A * World)) (fd : Z) : option (list Z) :=
  match r with
  | Some (_, w) => Some (default [] (files w !! fd))
  | None => None
  end.

(** The opened handle, with write(2) scripted to give [script]. *)
Definition writing_world (script : list (Z * Z)) : World :=
  with_os script 0 ∅ (opened_world (CallReturn (Py_Bool true))).

(** What the bridge can do to the context it is given: it keeps the native
    handle, the callback reference and the output descriptor; it never clears
    the pending marker; it changes the message only when it sets the marker;
    and a message that fits the buffer stays one that fits. *)
Definition bridge_rel (uo0 uo : UnrarOperation) : Prop :=
  unrar_data uo = unrar_data uo0 ∧
  callback_object uo = callback_object uo0 ∧
  output_fd uo = output_fd uo0 ∧
  (has_callback_error uo0 = true → has_callback_error uo = true) ∧
  (has_callback_error uo = false → callback_error uo = callback_error uo0) ∧
  (String.length (callback_error uo0) < CALLBACK_ERROR_SZ →
   String.length (callback_error uo) < CALLBACK_ERROR_SZ)%nat.

(** The context at [p] in [w] is related to [uo0] by [bridge_rel]. *)
Definition bridge_inv (p : nat) (uo0 : UnrarOperation) (w : World) : Prop :=
  ∃ uo, contexts w !! p = Some uo ∧ bridge_rel uo0 uo.

(** [m] returns and leaves every context as it is. *)
Definition keeps_contexts {A} (m : M A) : Prop :=
  ∀ w, ∃ a w', m w = Some (a, w') ∧ contexts w' = contexts w.

(** The context with the pending error [text] recorded, as
    snprintf(uo->callback_error, CALLBACK_ERROR_SZ, text) and
    uo->has_callback_error = true leave it. *)
Definition with_pending (text : string) (uo : UnrarOperation) : UnrarOperation :=
  with_has_callback_error true
    (with_callback_error (snprintf CALLBACK_ERROR_SZ text) uo).

(** The world with that context stored at [p]. *)
Definition record_error (p : nat) (text : string) (uo : UnrarOperation)
    (w : World) : World :=
  with_contexts (<[p := with_pending text uo]> (contexts w)) w.

(** The labels of the switch of the bridge. *)
Definition ucm_labels `{Headers} : list Z :=
  [UCM_CHANGEVOLUME; UCM_CHANGEVOLUMEW; UCM_NEEDPASSWORD; UCM_NEEDPASSWORDW;
   UCM_PROCESSDATA].

(** The capsule in a value open_archive returns. *)
Definition opened_capsule (v : OpenValue) : nat :=
  match v with
  | OpenedCapsule c => c
  | OpenedWithComment c _ => c
  end.

(** What a call of open_archive that got the block [p] from calloc leaves
    behind, by what it returns: with NULL, an error set, the host objects and
    the contexts as before the call, the callback reference released and the
    block freed, after the native handle, if the library gave one, was closed;
    with a value, its capsule as a live handle on the block [p], which holds
    the library's handle, the callback and the output descriptor 0. *)
Definition open_outcome (p callback : nat) (w : World)
    (r : option OpenValue) (w' : World) : Prop :=
  match r with
  | None =>
      contexts w' = contexts w ∧ objects w' = objects w ∧
      is_Some (py_error w') ∧
      ∃ closes, (closes = [] ∨ ∃ h, h ≠ 0 ∧ closes = [EvRARCloseArchive h]) ∧
        trace w' = trace w ++ closes ++ [EvPy_DECREF callback; EvFree p]
  | Some v =>
      ∃ uo',
        objects w'
        = <[opened_capsule v := ObjCapsule (Some p) (Some NAME)]> (objects w) ∧
        contexts w' = <[p := uo']> (contexts w) ∧
        unrar_data uo' ≠ 0 ∧
        callback_object uo' = Some callback ∧
        output_fd uo' = 0 ∧
        trace w' = trace w
  end.
(** A library that opens the archive with handle 77 and a three-byte
    comment, and one that finds no archive. *)
Definition opens_with_comment
    : RAROpenArchiveDataEx → NativeCall (Z * RAROpenArchiveDataEx) :=
  λ info, NReturn (77, mkRAROpenArchiveDataEx (ArcNameW info) (OpenMode info)
                         ERAR_SUCCESS (Some [104; 105; 0]) (CmtBufSize info) 3).

(** A world with the object 1 to be used as callback and nothing opened. *)
Definition closed_world : World :=
  mkWorld (<[1%nat := consumer (CallReturn (Py_Bool true))]> ∅) ∅ None true
    [] 0 ∅ [].

(** The truth test of [v] fails: -1, with the error [e] set. *)
Definition truth_test_raises (v : PyObject) (e : PyExcType * string) : Prop :=
  ∀ w, PyObject_IsTrue v w = Some (-1, with_py_error (Some e) w).

(** The open data open_archive hands to the library for [path] and [mode],
    with the comment buffer [cmt], NULL when no comment is asked for. *)
Definition open_request (path : list Z) (mode : Z) (cmt : option (list Z))
    : RAROpenArchiveDataEx :=
  mkRAROpenArchiveDataEx
    (PyUnicode_AsWideChar path (replicate 4096 0) 4096).2 mode 0
    cmt (match cmt with Some _ => MAX_COMMENT_LENGTH | None => 0 end) 0.

(** The keys header_to_python sets for every header. *)
Definition header_keys : list string :=
  ["filename"; "flags"; "pack_size"; "unpack_size"; "host_os"; "file_crc";
   "file_time"; "unpack_ver"; "method"; "file_attr"; "is_dir"; "redir_type"].

(** A header of a file "a" of 2^32 + 5 packed and 7 unpacked bytes. *)
Definition header_large_file : RARHeaderDataEx :=
  mkRARHeaderDataEx [97; 0; 98] 0 5 1 7 0 0 0 0 0 0 0 0 None 0.

(** A text of code points only, as PyUnicode_FromWideChar accepts it. *)
Definition valid_text (cells : list Z) : bool := forallb is_code_point cells.

(** The cells of the name buffer before its first zero. *)
Definition file_name (fh : RARHeaderDataEx) : list Z :=
  take (Z.to_nat (wcslen (FileNameW fh))) (FileNameW fh).

(** The redirection buffer, when the size field says there is one, is there,
    holds that many cells and holds code points. *)
Definition redir_decodes (fh : RARHeaderDataEx) : Prop :=
  0 < RedirNameSize fh →
  ∃ cells, RedirName fh = Some cells ∧
    RedirNameSize fh ≤ Z.of_nat (length cells) ∧
    valid_text (take (Z.to_nat (RedirNameSize fh)) cells) = true.

(** A header the decoder turns into a record. *)
Definition decodes (fh : RARHeaderDataEx) : Prop :=
  valid_text (file_name fh) = true ∧ redir_decodes fh.

(** The redirection-size field does not reach beyond the redirection
    buffer. *)
Definition redir_in_bounds (fh : RARHeaderDataEx) : Prop :=
  0 < RedirNameSize fh →
  ∀ cells, RedirName fh = Some cells →
    RedirNameSize fh ≤ Z.of_nat (length cells).

(** Every result the library can end the call with satisfies [P], whatever
    the callback answers on the way. *)
Fixpoint native_results {R : Type} (P : R → Prop) (call : NativeCall R)
    : Prop :=
  match call with
  | NReturn r => P r
  | NCallback _ _ _ k => ∀ reply, native_results P (k reply)
  end.

(** The error wchar_to_unicode sets when the conversion fails. *)
Definition name_conversion_error : PyExcType * string :=
  (PyExc_MemoryError, "Out of memory at line number: 93").



(** The lock of the host runtime is held and the context at [p] holds the
    state PyGILState_Ensure gives back to a caller that holds it. *)
Definition lock_inv (p : nat) (w : World) : Prop :=
  gil_held w = true ∧
  ∃ uo, contexts w !! p = Some uo ∧ thread_state uo = PyGILState_LOCKED.

(** * Reasoning principles *)

Lemma wp_elim {A} (m : M A) Q w :
  wp m Q w → ∃ a w', m w = Some (a, w') ∧ Q a w'.
Proof. unfold wp. destruct (m w) as [[a w']|]; [eauto | done]. Qed.

Lemma wp_intro {A} (m : M A) (Q : A → World → Prop) w a w' :
  m w = Some (a, w') → Q a w' → wp m Q w.
Proof. unfold wp. by intros ->. Qed.

Lemma wp_mono {A} (m : M A) (Q Q' : A → World → Prop) w :
  wp m Q w → (∀ a w', Q a w' → Q' a w') → wp m Q' w.
Proof. unfold wp. destruct (m w) as [[a w']|]; [auto | done]. Qed.

Lemma wp_ret {A} (a : A) (Q : A → World → Prop) w : Q a w → wp (mret a) Q w.
Proof. done. Qed.

Lemma wp_bind {A B} (m : M A) (f : A → M B) (Q : B → World → Prop) w :
  wp m (λ a w', wp (f a) Q w') w → wp (m ≫= f) Q w.
Proof.
  unfold wp, mbind, M_bind. destruct (m w) as [[a w']|]; [auto | done].
Qed.

Lemma wp_get_world (Q : World → World → Prop) w : Q w w → wp get_world Q w.
Proof. done. Qed.

Lemma wp_update_world f (Q : unit → World → Prop) w :
  Q tt (f w) → wp (update_world f) Q w.
Proof. done. Qed.

Lemma wp_load p uo (Q : UnrarOperation → World → Prop) w :
  contexts w !! p = Some uo → Q uo w → wp (load p) Q w.
Proof. unfold wp, load. by intros ->. Qed.

Lemma wp_store p f uo (Q : unit → World → Prop) w :
  contexts w !! p = Some uo →
  Q tt (with_contexts (<[p := f uo]> (contexts w)) w) →
  wp (store p f) Q w.
Proof.
  intros Hp HQ. unfold store. apply wp_bind. eapply wp_load; [done |].
  by apply wp_update_world.
Qed.

(** The value a switch takes is one of its bodies or its default. *)
Lemma switch_cases {A} (P : A → Prop) code (cases : list (Z * A)) default :
  Forall (λ c, P c.2) cases → P default → P (switch code cases default).
Proof.
  intros Hc Hd. induction Hc as [|[l b] rest Hb _ IH]; simpl; [done |].
  by destruct (code =? l).
Qed.

Lemma switch_label {A} code (cases : list (Z * A)) default body :
  NoDup cases.*1 → (code, body) ∈ cases → switch code cases default = body.
Proof.
  induction cases as [|[l b] rest IH]; simpl; intros Hnd Hin.
  - by apply elem_of_nil in Hin.
  - apply NoDup_cons in Hnd as [Hl Hnd].
    apply elem_of_cons in Hin as [Heq | Hin].
    + injection Heq as -> ->. by rewrite Z.eqb_refl.
    + destruct (Z.eqb_spec code l) as [-> | _]; [| by apply IH].
      exfalso. apply Hl. apply list_elem_of_fmap. by exists (l, body).
Qed.

Lemma switch_default {A} code (cases : list (Z * A)) default :
  code ∉ cases.*1 → switch code cases default = default.
Proof.
  induction cases as [|[l b] rest IH]; simpl; intros Hni; [done |].
  apply not_elem_of_cons in Hni as [Hne Hni].
  destruct (Z.eqb_spec code l); [done | by apply IH].
Qed.

Lemma bind_Some {A B} (m : M A) (f : A → M B) w r :
  (m ≫= f) w = Some r → ∃ a w', m w = Some (a, w') ∧ f a w' = Some r.
Proof.
  unfold mbind, M_bind. destruct (m w) as [[a w']|]; [eauto | done].
Qed.

(** * Error translator *)

Lemma convert_rar_error_sets `{Headers} code w :
  ∃ ty msg, convert_rar_error code w = Some (tt, with_py_error (Some (ty, msg)) w).
Proof.
  unfold convert_rar_error.
  apply (switch_cases
           (λ body, ∃ ty msg, body w = Some (tt, with_py_error (Some (ty, msg)) w)));
    [| by eauto].
  repeat constructor; simpl; eauto.
Qed.

Lemma convert_rar_error_label `{Headers} code body w :
  (code, body) ∈
    ((λ c, CASE c.1 c.2) <$> erar_names) ++ [(ERAR_NO_MEMORY, NOMEM 67)] →
  convert_rar_error code w = body w.
Proof.
  intros Hin. unfold convert_rar_error.
  erewrite (switch_label code _ _ body); [done | apply erar_labels_distinct |].
  exact Hin.
Qed.

(** C7: the translator returns for every status code and sets an error: an
    enumerated code gives the archive error category with its name, the
    out-of-memory code gives the memory error, not the archive category, and
    every other code gives "Unknown error" in the archive category. *)
Theorem convert_rar_error_total `{Headers} (code : Z) (w : World) :
  ∃ ty msg,
    convert_rar_error code w = Some (tt, with_py_error (Some (ty, msg)) w) ∧
    (∀ name, (code, name) ∈ erar_names → ty = UNRARError ∧ msg = name) ∧
    (code = ERAR_NO_MEMORY →
       ty = PyExc_MemoryError ∧ ty ≠ UNRARError ∧
       msg = "Out of memory at line number: 67") ∧
    (code ∉ ERAR_NO_MEMORY :: erar_names.*1 →
       ty = UNRARError ∧ msg = "Unknown error").
Proof.
  destruct (convert_rar_error_sets code w) as (ty & msg & Heq).
  exists ty, msg. split; [done |].
  assert (Hinj : ∀ ty' msg',
             convert_rar_error code w
             = Some (tt, with_py_error (Some (ty', msg')) w) →
             ty = ty' ∧ msg = msg').
  { intros ty' msg' Heq'. rewrite Heq in Heq'.
    injection Heq' as Heq'. by simplify_eq. }
  split; [| split].
  - intros name Hin. apply Hinj.
    rewrite (convert_rar_error_label code (PyErr_SetString UNRARError name)); [done |].
    apply elem_of_app. left. apply list_elem_of_fmap. by exists (code, name).
  - intros ->.
    destruct (Hinj PyExc_MemoryError "Out of memory at line number: 67")
      as [-> ->]; [| done].
    rewrite (convert_rar_error_label ERAR_NO_MEMORY (NOMEM 67)); [done |].
    apply elem_of_app. right. apply list_elem_of_here.
  - intros Hni. apply Hinj. unfold convert_rar_error.
    rewrite switch_default; [done |]. intros Hin. apply Hni.
    change (code ∈ erar_names.*1 ++ [ERAR_NO_MEMORY]) in Hin.
    apply elem_of_app in Hin as [Hin | Hin%list_elem_of_singleton].
    + by apply list_elem_of_further.
    + subst. apply list_elem_of_here.
Qed.

(** * Split-integer recombination *)

Lemma shiftl_land_disjoint (h l : Z) :
  0 ≤ l < 2 ^ 32 → Z.land (Z.shiftl h 32) l = 0.
Proof.
  intros Hl. apply Z.bits_inj'. intros n Hn.
  rewrite Z.land_spec, Z.bits_0.
  destruct (Z.lt_ge_cases n 32) as [Hlow | Hhigh].
  - by rewrite Z.shiftl_spec_low.
  - destruct (Z.eq_dec l 0) as [-> | Hne].
    + by rewrite Z.bits_0, andb_false_r.
    + rewrite (Z.bits_above_log2 l n), andb_false_r; [done | lia |].
      assert (Z.log2 l < 32) by (apply Z.log2_lt_pow2; lia). lia.
Qed.

Lemma shiftl_lor_disjoint (h l : Z) :
  0 ≤ l < 2 ^ 32 → Z.lor (Z.shiftl h 32) l = h * 2 ^ 32 + l.
Proof.
  intros Hl. pose proof (shiftl_land_disjoint h l Hl) as Hland.
  rewrite <- Z.lxor_lor, <- Z.add_nocarry_lxor by done.
  by rewrite Z.shiftl_mul_pow2.
Qed.

(** C4: for 32-bit unsigned [h] and [l], [combine] returns the 64-bit value
    [(h << 32) | l]; [combine 1 0] is 2^32 and [combine 0 0xFFFFFFFF] is
    0xFFFFFFFF. *)
Theorem combine_high_low (h l : Z) :
  0 ≤ h < 2 ^ 32 → 0 ≤ l < 2 ^ 32 →
  combine h l = Z.lor (Z.shiftl h 32) l ∧
  combine h l = h * 2 ^ 32 + l ∧
  0 ≤ combine h l < 2 ^ 64 ∧
  combine 1 0 = 2 ^ 32 ∧
  combine 0 0xFFFFFFFF = 0xFFFFFFFF.
Proof.
  intros Hh Hl.
  assert (Heq : combine h l = Z.lor (Z.shiftl h 32) l).
  { unfold combine, to_ulong, ULONG_BITS.
    rewrite (Z.mod_small h), (Z.mod_small l) by lia.
    rewrite Z.mod_small; [done |]. rewrite Z.shiftl_mul_pow2 by lia. lia. }
  rewrite Heq, shiftl_lor_disjoint by lia.
  repeat split; try done; lia.
Qed.

Lemma combine_high_low_witness :
  combine 1 0 = Z.lor (Z.shiftl 1 32) 0 ∧
  combine 1 0 = 1 * 2 ^ 32 + 0 ∧
  0 ≤ combine 1 0 < 2 ^ 64 ∧
  combine 1 0 = 2 ^ 32 ∧
  combine 0 0xFFFFFFFF = 0xFFFFFFFF.
Proof. apply (combine_high_low 1 0); lia. Defined.

(** * Header decoding *)

Lemma wcslen_bounds (cells : list Z) : 0 ≤ wcslen cells ≤ Z.of_nat (length cells).
Proof.
  induction cells as [|c rest IH]; simpl; [lia |].
  destruct (c =? 0); lia.
Qed.

Lemma filter_code_points (text : list Z) :
  filter (λ ch, is_code_point ch = false) text = [] ↔ valid_text text = true.
Proof.
  induction text as [|ch rest IH]; [done |].
  rewrite filter_cons. simpl.
  destruct (is_code_point ch); case_decide; try done.
Qed.

Lemma PyUnicode_FromWideChar_valid o sz w :
  0 ≤ sz ≤ Z.of_nat (length o) →
  valid_text (take (Z.to_nat sz) o) = true →
  PyUnicode_FromWideChar o sz w
  = Some (Some (Py_Unicode (take (Z.to_nat sz) o)), w).
Proof.
  intros Hsz Hvalid. unfold PyUnicode_FromWideChar.
  rewrite bool_decide_eq_true_2 by done.
  by rewrite (proj2 (filter_code_points _) Hvalid).
Qed.

Lemma PyUnicode_FromWideChar_invalid o sz w :
  0 ≤ sz ≤ Z.of_nat (length o) →
  valid_text (take (Z.to_nat sz) o) = false →
  ∃ msg, PyUnicode_FromWideChar o sz w
         = Some (None, with_py_error (Some (PyExc_ValueError, msg)) w).
Proof.
  intros Hsz Hvalid. unfold PyUnicode_FromWideChar.
  rewrite bool_decide_eq_true_2 by done.
  destruct (filter _ (take (Z.to_nat sz) o)) as [|ch rest] eqn:Hfilter.
  - apply filter_code_points in Hfilter. congruence.
  - by eexists.
Qed.

Lemma PyUnicode_FromWideChar_Some o sz v w w' :
  PyUnicode_FromWideChar o sz w = Some (Some v, w') →
  w' = w ∧
  v = Py_Unicode (take (Z.to_nat sz) o) ∧
  Z.of_nat (length (take (Z.to_nat sz) o)) = sz ∧
  valid_text (take (Z.to_nat sz) o) = true.
Proof.
  unfold PyUnicode_FromWideChar. case_bool_decide as Hsz; [| done].
  destruct (filter _ (take (Z.to_nat sz) o)) as [|ch rest] eqn:Hfilter;
    [| done].
  intros [= <- <-]. apply filter_code_points in Hfilter.
  repeat split; try done. rewrite length_take. lia.
Qed.

Lemma land_pow2_testbit (x k : Z) :
  0 ≤ k → (Z.land x (2 ^ k) ≠ 0 ↔ Z.testbit x k = true).
Proof.
  intros Hk. destruct (Z.testbit x k) eqn:Hbit; split; try done.
  - intros _ Hzero. apply (f_equal (λ z, Z.testbit z k)) in Hzero.
    rewrite Z.land_spec, Hbit, Z.pow2_bits_true, Z.bits_0 in Hzero by done.
    done.
  - intros Hne. exfalso. apply Hne. apply Z.bits_inj'. intros n Hn.
    rewrite Z.land_spec, Z.bits_0, Z.pow2_bits_eqb by done.
    destruct (Z.eqb_spec k n) as [<- | _]; [by rewrite Hbit | apply andb_false_r].
Qed.

Lemma wchar_to_unicode_in_range cells sz w :
  0 ≤ sz ≤ Z.of_nat (length cells) →
  valid_text (take (Z.to_nat sz) cells) = true →
  wchar_to_unicode (Some cells) sz w
  = Some (Some (Py_Unicode (take (Z.to_nat sz) cells)), w).
Proof.
  intros Hsz Hvalid. unfold wchar_to_unicode, mbind, M_bind.
  by rewrite PyUnicode_FromWideChar_valid.
Qed.

Lemma wchar_to_unicode_invalid cells sz w :
  0 ≤ sz ≤ Z.of_nat (length cells) →
  valid_text (take (Z.to_nat sz) cells) = false →
  wchar_to_unicode (Some cells) sz w
  = Some (None, with_py_error (Some name_conversion_error) w).
Proof.
  intros Hsz Hvalid. unfold wchar_to_unicode, mbind, M_bind.
  by destruct (PyUnicode_FromWideChar_invalid cells sz w Hsz Hvalid)
    as [msg ->].
Qed.

Lemma wchar_to_unicode_Some o sz v w w' :
  wchar_to_unicode o sz w = Some (Some v, w') →
  w' = w ∧
  ∃ cells, o = Some cells ∧
    v = Py_Unicode (take (Z.to_nat sz) cells) ∧
    Z.of_nat (length (take (Z.to_nat sz) cells)) = sz ∧
    valid_text (take (Z.to_nat sz) cells) = true.
Proof.
  unfold wchar_to_unicode. destruct o as [cells|]; [| done].
  intros Hrun. apply bind_Some in Hrun as ([ans|] & w1 & Hconv & Hrun);
    [| by apply bind_Some in Hrun as ([] & w2 & _ & [=])].
  injection Hrun as <- <-.
  apply PyUnicode_FromWideChar_Some in Hconv as (-> & -> & Hlen & Hvalid).
  split; [done |]. by exists cells.
Qed.

(** The decoder sets at most the error indicator. *)
Lemma wchar_to_unicode_world o sz r w w' :
  wchar_to_unicode o sz w = Some (r, w') →
  w' = w ∨ w' = with_py_error (Some name_conversion_error) w.
Proof.
  unfold wchar_to_unicode. destruct o as [cells|]; [| intros [= <- <-]; by left].
  unfold PyUnicode_FromWideChar, mbind, M_bind.
  case_bool_decide; [| done].
  destruct (filter _ _); simpl; intros [= <- <-]; [by left | by right].
Qed.

Lemma header_to_python_world `{Headers} fh r w w' :
  header_to_python fh w = Some (r, w') →
  w' = w ∨ w' = with_py_error (Some name_conversion_error) w.
Proof.
  unfold header_to_python. intros Hrun.
  apply bind_Some in Hrun as ([filename|] & w1 & Hname & Hrun).
  - apply wchar_to_unicode_Some in Hname as (-> & _).
    destruct (0 <? RedirNameSize fh); [| injection Hrun as <- <-; by left].
    apply bind_Some in Hrun as (text & w2 & Hredir & Hrun).
    apply wchar_to_unicode_world in Hredir.
    destruct text; by injection Hrun as <- <-.
  - injection Hrun as <- <-. by eapply wchar_to_unicode_world.
Qed.

(** The decoder returns a record for every header that decodes. *)
Lemma header_to_python_succeeds `{Headers} (fh : RARHeaderDataEx) w :
  decodes fh → ∃ d, header_to_python fh w = Some (Some (Py_Dict d), w).
Proof.
  intros [Hname Hredir]. unfold header_to_python, mbind, M_bind.
  rewrite wchar_to_unicode_in_range by (apply wcslen_bounds || done).
  destruct (Z.ltb_spec 0 (RedirNameSize fh)) as [Hpos | _]; [| by eexists].
  destruct (Hredir Hpos) as (cells & -> & Hlen & Hvalid).
  rewrite wchar_to_unicode_in_range by (done || lia). by eexists.
Qed.

Lemma header_to_python_bad_name `{Headers} (fh : RARHeaderDataEx) w :
  valid_text (file_name fh) = false →
  header_to_python fh w
  = Some (None, with_py_error (Some name_conversion_error) w).
Proof.
  intros Hname. unfold header_to_python, mbind, M_bind.
  by rewrite wchar_to_unicode_invalid by (apply wcslen_bounds || done).
Qed.


(** The decoder returns for every header whose redirection size stays
    within its redirection buffer, and sets at most the error indicator. *)
Lemma header_to_python_returns `{Headers} (fh : RARHeaderDataEx) w :
  redir_in_bounds fh → ∃ r w', header_to_python fh w = Some (r, w').
Proof.
  intros Hbounds.
  destruct (valid_text (file_name fh)) eqn:Hname;
    [| rewrite header_to_python_bad_name by done; by eexists _, _].
  unfold header_to_python, mbind, M_bind.
  rewrite wchar_to_unicode_in_range by (apply wcslen_bounds || done).
  destruct (Z.ltb_spec 0 (RedirNameSize fh)) as [Hpos | _]; [| by eexists _, _].
  destruct (RedirName fh) as [cells|] eqn:Hbuf; [| by eexists _, _].
  specialize (Hbounds Hpos cells Hbuf).
  destruct (valid_text (take (Z.to_nat (RedirNameSize fh)) cells)) eqn:Hredir.
  - rewrite wchar_to_unicode_in_range by (done || lia). by eexists _, _.
  - rewrite wchar_to_unicode_invalid by (done || lia). by eexists _, _.
Qed.

Lemma wp_header_to_python `{Headers} (fh : RARHeaderDataEx)
    (Q : option PyObject → World → Prop) w :
  redir_in_bounds fh →
  (∀ r w', w' = w ∨ w' = with_py_error (Some name_conversion_error) w →
           Q r w') →
  wp (header_to_python fh) Q w.
Proof.
  intros Hbounds HQ.
  destruct (header_to_python_returns fh w Hbounds) as (r & w' & Hrun).
  eapply wp_intro; [exact Hrun |]. by eapply HQ, header_to_python_world.
Qed.

(** What the decoder stores under the two derived keys. *)
Lemma header_to_python_lookups `{Headers} (fh : RARHeaderDataEx) (v : PyObject)
    w w' :
  header_to_python fh w = Some (Some v, w') →
  ∃ d, v = Py_Dict d ∧
    d !! "is_dir" = Some (if Z.land (Flags fh) RHDF_DIRECTORY =? 0
                          then Py_False else Py_True) ∧
    (if 0 <? RedirNameSize fh
     then ∃ cells,
            RedirName fh = Some cells ∧
            d !! "redir_name"
            = Some (Py_Unicode (take (Z.to_nat (RedirNameSize fh)) cells)) ∧
            Z.of_nat (length (take (Z.to_nat (RedirNameSize fh)) cells))
            = RedirNameSize fh
     else d !! "redir_name" = None).
Proof.
  unfold header_to_python. intros Hdec.
  apply bind_Some in Hdec as ([filename|] & w1 & Hname & Hdec); [| done].
  unfold AVAL, Py_BuildValue_N in Hdec.
  destruct (0 <? RedirNameSize fh).
  - apply bind_Some in Hdec as ([text|] & w2 & Hredir & Hdec); [| done].
    apply wchar_to_unicode_Some in Hredir as (_ & cells & Hbuf & -> & Hlen & _).
    injection Hdec as <- <-. eexists. split; [done |].
    split; [by simplify_map_eq |]. exists cells.
    split; [done |]. split; [by simplify_map_eq | done].
  - injection Hdec as <- <-. eexists. split; [done |].
    split; by simplify_map_eq.
Qed.

(** C8: in every decoded header, is_dir is true exactly when the directory
    bit of the flags is set, and redir_name is present exactly when the
    redirection-size field is positive, being then the text of that length read
    from the redirection buffer; with a zero size field there is none. *)
Theorem header_to_python_is_dir_redir_name `{Headers} (fh : RARHeaderDataEx)
    (v : PyObject) (w w' : World) :
  header_to_python fh w = Some (Some v, w') →
  ∃ d, v = Py_Dict d ∧
    (d !! "is_dir" = Some Py_True ∨ d !! "is_dir" = Some Py_False) ∧
    (d !! "is_dir" = Some Py_True ↔ Z.land (Flags fh) RHDF_DIRECTORY ≠ 0) ∧
    (∀ k, 0 ≤ k → RHDF_DIRECTORY = 2 ^ k →
       (d !! "is_dir" = Some Py_True ↔ Z.testbit (Flags fh) k = true)) ∧
    (is_Some (d !! "redir_name") ↔ 0 < RedirNameSize fh) ∧
    (0 < RedirNameSize fh →
       ∃ cells text,
         RedirName fh = Some cells ∧
         d !! "redir_name" = Some (Py_Unicode text) ∧
         text = take (Z.to_nat (RedirNameSize fh)) cells ∧
         Z.of_nat (length text) = RedirNameSize fh) ∧
    (RedirNameSize fh = 0 → d !! "redir_name" = None).
Proof.
  intros Hdec.
  destruct (header_to_python_lookups fh v w w' Hdec) as (d & -> & Hdir & Hredir).
  exists d. split; [done |].
  assert (Hbit : d !! "is_dir" = Some Py_True
                 ↔ Z.land (Flags fh) RHDF_DIRECTORY ≠ 0).
  { rewrite Hdir.
    destruct (Z.eqb_spec (Z.land (Flags fh) RHDF_DIRECTORY) 0); split; done. }
  split; [| split; [| split; [| split; [| split]]]].
  - rewrite Hdir. destruct (Z.land (Flags fh) RHDF_DIRECTORY =? 0); auto.
  - done.
  - intros k Hk Hpow. rewrite Hbit, Hpow. by apply land_pow2_testbit.
  - destruct (Z.ltb_spec 0 (RedirNameSize fh)) as [Hpos | Hle].
    + destruct Hredir as (cells & _ & -> & _). split; [done |]. by eexists.
    + rewrite Hredir. split; [by intros [? [=]] | lia].
  - intros Hpos. rewrite (proj2 (Z.ltb_lt _ _) Hpos) in Hredir.
    destruct Hredir as (cells & Hbuf & Hname & Hlen).
    by exists cells, (take (Z.to_nat (RedirNameSize fh)) cells).
  - intros Hzero. by rewrite Hzero in Hredir.
Qed.

Lemma header_to_python_is_dir_redir_name_witness :
  ∃ d, header_to_python header_dir_link (opened_world (CallReturn Py_None))
       = Some (Some (Py_Dict d), opened_world (CallReturn Py_None)) ∧
    d !! "is_dir" = Some Py_True ∧
    d !! "redir_name" = Some (Py_Unicode [116; 103]).
Proof.
  destruct (header_to_python_succeeds header_dir_link
              (opened_world (CallReturn Py_None))) as [d0 Hrun].
  { split; [done |]. intros _. by exists [116; 103; 116]. }
  destruct (header_to_python_is_dir_redir_name header_dir_link (Py_Dict d0)
              (opened_world (CallReturn Py_None))
              (opened_world (CallReturn Py_None)) Hrun)
    as (d & [= <-] & _ & Hdir & _ & _ & Hredir & _).
  exists d0. split; [done |]. split.
  - apply Hdir. by vm_compute.
  - destruct Hredir as (cells & text & [= <-] & -> & -> & _); [done | done].
Defined.

(** * Capsules and teardown *)

Lemma wp_eq {A} (m : M A) w r :
  wp m (λ a w', r = Some (a, w')) w → m w = r.
Proof. unfold wp. destruct (m w) as [[a w']|]; [by intros -> | done]. Qed.

Lemma wp_emit e (Q : unit → World → Prop) w :
  Q tt (with_trace (trace w ++ [e]) w) → wp (emit e) Q w.
Proof. done. Qed.

Lemma wp_PyErr_SetString ty msg (Q : unit → World → Prop) w :
  Q tt (with_py_error (Some (ty, msg)) w) → wp (PyErr_SetString ty msg) Q w.
Proof. done. Qed.

Lemma wp_PyErr_Clear (Q : unit → World → Prop) w :
  Q tt (with_py_error None w) → wp PyErr_Clear Q w.
Proof. done. Qed.

(** Symbolic execution: one step along the structure of the program. *)
Ltac lookup_now :=
  simpl; first [eassumption | by rewrite lookup_insert_eq | by simplify_map_eq].

Ltac wp_step :=
  lazymatch goal with
  | |- wp (mret _) _ _ => apply wp_ret
  | |- wp (mbind _ _) _ _ => apply wp_bind
  | |- wp get_world _ _ => apply wp_get_world
  | |- wp (update_world _) _ _ => apply wp_update_world
  | |- wp (emit _) _ _ => apply wp_emit
  | |- wp (PyErr_SetString _ _) _ _ => apply wp_PyErr_SetString
  | |- wp PyErr_Clear _ _ => apply wp_PyErr_Clear
  | |- wp (load _) _ _ => eapply wp_load; [lookup_now |]
  | |- wp (store _ _) _ _ => eapply wp_store; [lookup_now |]
  end.
Ltac wp_steps := repeat (wp_step; simpl).

Lemma live_handle_valid w c p uo : live_handle w c p uo → valid_capsule w c = true.
Proof. intros [Hc _]. unfold valid_capsule. by rewrite Hc. Qed.

Lemma wp_PyCapsule_GetPointer c (Q : option nat → World → Prop) w :
  (if valid_capsule w c
   then ∀ p nm, objects w !! c = Some (ObjCapsule (Some p) nm) → Q (Some p) w
   else ∀ msg, Q None (with_py_error (Some (PyExc_ValueError, msg)) w)) →
  wp (PyCapsule_GetPointer c (Some NAME)) Q w.
Proof.
  unfold valid_capsule, PyCapsule_GetPointer. intros HQ. wp_steps.
  destruct (objects w !! c) as [[[p|] nm| |]|]; simpl in *;
    try (wp_steps; by apply HQ).
  destruct (name_matches nm (Some NAME)); wp_steps; eauto.
Qed.

Lemma wp_from_capsule c (Q : option nat → World → Prop) w :
  (if valid_capsule w c
   then ∀ p nm, objects w !! c = Some (ObjCapsule (Some p) nm) → Q (Some p) w
   else Q None (with_py_error not_a_capsule_error w)) →
  wp (from_capsule c) Q w.
Proof.
  intros HQ. unfold from_capsule. wp_step. apply wp_PyCapsule_GetPointer.
  destruct (valid_capsule w c); [intros p nm Hc | intros msg]; wp_steps; eauto.
Qed.

Lemma from_capsule_live w c p uo :
  live_handle w c p uo → from_capsule c w = Some (Some p, w).
Proof.
  intros Hlive. apply wp_eq, wp_from_capsule.
  rewrite (live_handle_valid w c p uo) by done.
  destruct Hlive as [Hc _]. intros p' nm. rewrite Hc. by intros [= <- <-].
Qed.

Lemma from_capsule_invalid w c :
  valid_capsule w c = false →
  from_capsule c w = Some (None, with_py_error not_a_capsule_error w).
Proof. intros Hinv. apply wp_eq, wp_from_capsule. by rewrite Hinv. Qed.

Lemma close_encapsulated_file_invalid w c :
  valid_capsule w c = false → close_encapsulated_file c w = Some (tt, w).
Proof.
  intros Hinv. apply wp_eq. unfold close_encapsulated_file, PyCapsule_IsValid.
  wp_steps. fold (valid_capsule w c). rewrite Hinv. by wp_steps.
Qed.

Lemma close_encapsulated_file_live w c p uo :
  live_handle w c p uo →
  close_encapsulated_file c w
  = Some (tt, with_objects (<[c := ObjCapsule (Some p) None]> (objects w))
                (with_trace (trace w ++ teardown_events p uo)
                   (with_contexts (delete p (contexts w)) w))).
Proof.
  intros Hlive. pose proof (live_handle_valid _ _ _ _ Hlive) as Hvalid.
  destruct Hlive as [Hc Hp].
  apply wp_eq. unfold close_encapsulated_file, PyCapsule_IsValid.
  wp_steps. fold (valid_capsule w c). rewrite Hvalid.
  wp_step. apply wp_PyCapsule_GetPointer. rewrite Hvalid.
  intros p' nm. rewrite Hc. intros [= <- <-].
  unfold teardown_events, RARCloseArchive, Py_XDECREF, free, PyCapsule_SetName.
  wp_steps.
  destruct uo as [h cb st ? ? ?]; simpl.
  destruct (h =? 0), cb as [o|]; wp_steps; rewrite Hc; wp_steps;
    unfold with_objects, with_trace, with_contexts; simpl;
    by rewrite <- ?app_assoc.
Qed.

Lemma PyCapsule_IsValid_eq w c :
  PyCapsule_IsValid c (Some NAME) w = Some (valid_capsule w c, w).
Proof. done. Qed.

Lemma PyCapsule_GetPointer_valid w c p nm :
  objects w !! c = Some (ObjCapsule (Some p) nm) →
  valid_capsule w c = true →
  PyCapsule_GetPointer c (Some NAME) w = Some (Some p, w).
Proof.
  intros Hc Hvalid. apply wp_eq, wp_PyCapsule_GetPointer. rewrite Hvalid.
  intros p' nm'. rewrite Hc. by intros [= <- <-].
Qed.

Lemma close_encapsulated_file_invalidates w c v w1 :
  close_encapsulated_file c w = Some (v, w1) → valid_capsule w1 c = false.
Proof.
  destruct (valid_capsule w c) eqn:Hvalid.
  - pose proof Hvalid as Hv. unfold valid_capsule in Hv.
    destruct (objects w !! c) as [[[p|] nm| |]|] eqn:Hc; try done.
    apply bool_decide_eq_true in Hv as ->.
    destruct (contexts w !! p) as [uo|] eqn:Hp.
    + rewrite (close_encapsulated_file_live w c p uo) by done.
      intros [= <- <-]. unfold valid_capsule. simpl.
      by rewrite lookup_insert_eq.
    + intros Hrun. unfold close_encapsulated_file in Hrun.
      apply bind_Some in Hrun as (valid & w' & Hisvalid & Hrun).
      rewrite PyCapsule_IsValid_eq, Hvalid in Hisvalid.
      injection Hisvalid as <- <-.
      apply bind_Some in Hrun as (ptr & w' & Hptr & Hrun).
      rewrite (PyCapsule_GetPointer_valid w c p (Some NAME)) in Hptr by done.
      injection Hptr as <- <-.
      apply bind_Some in Hrun as (o & w' & Hload & _).
      unfold load in Hload. by rewrite Hp in Hload.
  - rewrite close_encapsulated_file_invalid by done. by intros [= <- <-].
Qed.

Lemma opened_world_live r : live_handle (opened_world r) 0 5 opened_context.
Proof. split; by vm_compute. Qed.

(** C3: the first close of a live handle releases the native handle, the
    callback reference and the context, in this order, and raises nothing;
    every further close, explicit or by the capsule destructor, changes
    nothing and raises nothing; two closes in a row are one close. *)
Theorem close_archive_idempotent (c p : nat) (uo : UnrarOperation) (w : World) :
  live_handle w c p uo →
  ∃ w1,
    close_archive c w = Some (Some Py_None, w1) ∧
    trace w1 = trace w ++ teardown_events p uo ∧
    contexts w1 = delete p (contexts w) ∧
    objects w1 = <[c := ObjCapsule (Some p) None]> (objects w) ∧
    py_error w1 = py_error w ∧
    close_archive c w1 = Some (Some Py_None, w1) ∧
    close_encapsulated_file c w1 = Some (tt, w1) ∧
    (close_archive c;; close_archive c) w = close_archive c w.
Proof.
  intros Hlive.
  pose proof (close_encapsulated_file_live w c p uo Hlive) as Hfirst.
  pose proof (close_encapsulated_file_invalidates _ _ _ _ Hfirst) as Hinv.
  apply close_encapsulated_file_invalid in Hinv.
  eexists. unfold close_archive, mbind, M_bind.
  rewrite Hfirst. simpl. rewrite Hinv. done.
Qed.

Lemma close_archive_idempotent_witness :
  ∃ w1,
    close_archive 0 (opened_world (CallReturn Py_None)) = Some (Some Py_None, w1) ∧
    trace w1 = [EvRARCloseArchive 77; EvPy_DECREF 1; EvFree 5] ∧
    close_archive 0 w1 = Some (Some Py_None, w1).
Proof.
  destruct (close_archive_idempotent 0 5 opened_context
              (opened_world (CallReturn Py_None)) (opened_world_live _))
    as (w1 & Hfirst & Htrace & _ & _ & _ & Hsecond & _).
  exists w1. by rewrite Htrace.
Defined.

(** C10: for a capsule argument that is not a live handle, a torn-down
    handle among them, read_next_header and process_file return NULL with the
    type error "Not a valid RARFileHandle capsule" set, and do nothing else. *)
Theorem not_live_capsule_type_error `{Headers}
    (RARReadHeaderEx : Z → RARHeaderDataEx → NativeCall (Z * RARHeaderDataEx))
    (RARProcessFile : Z → Z → NativeCall Z)
    (c : nat) (operation output_fd : Z) (w : World) :
  valid_capsule w c = false ∨
    (∃ w0, close_encapsulated_file c w0 = Some (tt, w)) →
  valid_capsule w c = false ∧
  read_next_header RARReadHeaderEx c w
  = Some (None, with_py_error
                  (Some (PyExc_TypeError, "Not a valid RARFileHandle capsule")) w) ∧
  process_file RARProcessFile c operation output_fd w
  = Some (None, with_py_error
                  (Some (PyExc_TypeError, "Not a valid RARFileHandle capsule")) w).
Proof.
  intros Hnot.
  assert (Hinv : valid_capsule w c = false).
  { destruct Hnot as [? | [w0 Hclose]]; [done |].
    by eapply close_encapsulated_file_invalidates. }
  pose proof (from_capsule_invalid w c Hinv) as Hfrom.
  unfold read_next_header, process_file, mbind, M_bind. by rewrite Hfrom.
Qed.

Lemma not_live_capsule_type_error_witness :
  ∃ w1,
    close_archive 0 (opened_world (CallReturn Py_None)) = Some (Some Py_None, w1) ∧
    py_error <$> (snd <$> read_next_header (λ _ h, NReturn (ERAR_SUCCESS, h)) 0 w1)
    = Some (Some (PyExc_TypeError, "Not a valid RARFileHandle capsule")) ∧
    py_error <$> (snd <$> process_file (λ _ _, NReturn ERAR_SUCCESS) 0 1 (-1) w1)
    = Some (Some (PyExc_TypeError, "Not a valid RARFileHandle capsule")).
Proof.
  destruct (close_encapsulated_file (0%nat) (opened_world (CallReturn Py_None)))
    as [[[] w1]|] eqn:Hclose; [| by vm_compute in Hclose].
  exists w1.
  destruct (not_live_capsule_type_error (λ _ h, NReturn (ERAR_SUCCESS, h))
              (λ _ _, NReturn ERAR_SUCCESS) 0 1 (-1) w1) as (_ & -> & ->);
    [right; by eexists |].
  unfold close_archive, mbind, M_bind. by rewrite Hclose.
Defined.

(** * The write loop *)

Lemma same_but_os_refl w : same_but_os w w.
Proof. done. Qed.

Lemma same_but_os_with_os w w' script e fs :
  same_but_os w w' → same_but_os w (with_os script e fs w').
Proof. by intros (? & ? & ? & ? & ?). Qed.

Lemma to_size_t_small z : 0 ≤ z < 2 ^ 64 → to_size_t z = z.
Proof. intros Hz. unfold to_size_t, SIZE_BITS. by apply Z.mod_small. Qed.

Lemma to_size_t_range z : 0 ≤ to_size_t z < 2 ^ 64.
Proof. unfold to_size_t, SIZE_BITS. by apply Z.mod_pos_bound. Qed.

(** The loop returns: it makes at most one round per scripted result, and one
    more. *)
Lemma write_all_loop_returns `{Headers} fuel data sz fd w0 w :
  (length (write_script w) < fuel)%nat → 0 ≤ sz < 2 ^ 64 → same_but_os w0 w →
  ∃ b w', write_all_loop fuel data sz fd w = Some (b, w') ∧ same_but_os w0 w'.
Proof.
  revert sz w. induction fuel as [|fuel IH]; intros sz w Hfuel Hsz Hsame; [lia |].
  simpl. destruct (Z.ltb_spec 0 sz) as [Hpos | _]; [| by eauto].
  unfold mbind, M_bind, set_errno, update_world, write, get_errno, get_world,
    mret, M_ret. simpl.
  destruct (write_script w) as [|[r e] rest] eqn:Hscript; simpl.
  - rewrite to_size_t_small by done.
    rewrite (proj2 (Z.geb_le sz sz)) by lia.
    eexists _, _. split; [done |]. by apply same_but_os_with_os.
  - simpl in Hfuel.
    destruct (to_size_t r >=? sz); [| destruct (r <? 0);
      [| destruct ((r =? 0) && negb (e =? 0))]].
    + eexists _, _. split; [done |]. by apply same_but_os_with_os.
    + apply IH; [simpl; lia | done | by apply same_but_os_with_os].
    + eexists _, _. split; [done |]. by apply same_but_os_with_os.
    + apply IH; [simpl; lia | apply to_size_t_range
                 | by apply same_but_os_with_os].
Qed.

Lemma wp_write_all `{Headers} data sz fd (Q : bool → World → Prop) w :
  0 ≤ sz < 2 ^ 64 →
  (∀ b w', same_but_os w w' → Q b w') →
  wp (write_all data sz fd) Q w.
Proof.
  intros Hsz HQ. unfold write_all. wp_steps.
  destruct (write_all_loop_returns (S (length (write_script w))) data sz fd w w)
    as (b & w' & Hrun & Hsame); [lia | done | done |].
  eapply wp_intro; [exact Hrun | by apply HQ].
Qed.

(** A write that fails is taken for a complete one: whatever negative value
    write(2) returns and whatever errno it sets, the loop returns true at once,
    having written nothing. *)
Lemma write_all_negative_result `{Headers} data sz fd r e rest w :
  0 < sz < 2 ^ 63 → - 2 ^ 63 ≤ r < 0 → write_script w = (r, e) :: rest →
  write_all data sz fd w = Some (true, with_os rest e (files w) w).
Proof.
  intros Hsz Hr Hscript. unfold write_all, mbind, M_bind, get_world. simpl.
  rewrite (proj2 (Z.ltb_lt 0 sz)) by lia.
  unfold mbind, M_bind, set_errno, update_world, write, get_errno, get_world,
    mret, M_ret. simpl. rewrite Hscript. simpl.
  assert (Hwrap : to_size_t r = r + 2 ^ 64).
  { unfold to_size_t, SIZE_BITS. symmetry. apply Z.mod_unique_pos with (-1); lia. }
  rewrite Hwrap, (proj2 (Z.geb_le _ _)) by lia.
  by rewrite (proj2 (Z.ltb_ge 0 r)) by lia.
Qed.

(** * What the callback bridge leaves alone *)

Lemma frame_refl p w uo : contexts w !! p = Some uo → frame p w w.
Proof. intros Hp. repeat split; try done. by exists uo, uo. Qed.

Lemma frame_context p w0 w : frame p w0 w → is_Some (contexts w !! p).
Proof. intros (_ & _ & _ & uo0 & uo & _ & -> & _). by eexists. Qed.

Lemma frame_same_but_os p w0 w w' :
  frame p w0 w → same_but_os w w' → frame p w0 w'.
Proof.
  intros (Ho & Ht & Hq & Hp) (Ho' & Hc' & _ & _ & Ht').
  unfold frame. by rewrite Ho', Hc', Ht'.
Qed.

Lemma frame_with_py_error p w0 w e : frame p w0 w → frame p w0 (with_py_error e w).
Proof. done. Qed.

Lemma frame_with_gil_held p w0 w b : frame p w0 w → frame p w0 (with_gil_held b w).
Proof. done. Qed.

Lemma frame_store p w0 w uo f :
  frame p w0 w → contexts w !! p = Some uo → keeps_frame f →
  frame p w0 (with_contexts (<[p := f uo]> (contexts w)) w).
Proof.
  intros (Ho & Ht & Hq & uo0 & uo' & Hp0 & Hp & Hh & Hcb & Hfd) Hp' Hf.
  rewrite Hp in Hp'. injection Hp' as ->.
  repeat split; simpl; try done.
  - intros q Hne. rewrite lookup_insert_ne by done. by apply Hq.
  - exists uo0, (f uo). rewrite lookup_insert_eq.
    destruct (Hf uo) as (-> & -> & ->). done.
Qed.

Section bridge_frame.
Context `{Headers} (p : nat) (w0 : World).

Lemma wp_load_frame (Q : UnrarOperation → World → Prop) w :
  frame p w0 w → (∀ uo, contexts w !! p = Some uo → Q uo w) → wp (load p) Q w.
Proof.
  intros Hf HQ. destruct (frame_context _ _ _ Hf) as [uo Hp].
  eapply wp_load; [done | by apply HQ].
Qed.

Lemma wp_store_frame f (Q : unit → World → Prop) w :
  frame p w0 w → keeps_frame f →
  (∀ w', frame p w0 w' → Q tt w') → wp (store p f) Q w.
Proof.
  intros Hf Hkeep HQ. destruct (frame_context _ _ _ Hf) as [uo Hp].
  eapply wp_store; [done |]. by apply HQ, frame_store.
Qed.

Lemma wp_set_callback_error_frame text (Q : unit → World → Prop) w :
  frame p w0 w → (∀ w', frame p w0 w' → Q tt w') →
  wp (set_callback_error p text) Q w.
Proof.
  intros Hf HQ. unfold set_callback_error. apply wp_bind.
  apply wp_store_frame; [done | done |]. intros w1 Hf1.
  by apply wp_store_frame.
Qed.

Lemma wp_ALLOW_THREADS_frame (Q : unit → World → Prop) w :
  frame p w0 w → (∀ w', frame p w0 w' → Q tt w') → wp (ALLOW_THREADS p) Q w.
Proof.
  intros Hf HQ. unfold ALLOW_THREADS. apply wp_bind.
  unfold wp at 1, PyGILState_Ensure.
  apply wp_store_frame; [by apply frame_with_gil_held | done | done].
Qed.

Lemma wp_BLOCK_THREADS_frame (Q : unit → World → Prop) w :
  frame p w0 w → (∀ w', frame p w0 w' → Q tt w') → wp (BLOCK_THREADS p) Q w.
Proof.
  intros Hf HQ. unfold BLOCK_THREADS. apply wp_bind.
  apply wp_load_frame; [done |]. intros uo _.
  destruct (thread_state uo); simpl; [by apply wp_ret, HQ |].
  by apply wp_update_world, HQ, frame_with_gil_held.
Qed.

Lemma wp_PyObject_CallMethod_frame o name args
    (Q : option PyObject → World → Prop) w :
  frame p w0 w → (∀ r w', frame p w0 w' → Q r w') →
  wp (PyObject_CallMethod o name args) Q w.
Proof.
  intros Hf HQ. unfold PyObject_CallMethod. wp_steps.
  destruct (objects w !! o) as [[| methods |]|];
    try destruct (methods name args); wp_steps; by apply HQ.
Qed.

Lemma wp_PyErr_Occurred_frame (Q : bool → World → Prop) w :
  frame p w0 w → (∀ b w', frame p w0 w' → Q b w') → wp PyErr_Occurred Q w.
Proof. intros Hf HQ. unfold PyErr_Occurred. wp_steps. by apply HQ. Qed.

Lemma wp_PyErr_Clear_frame (Q : unit → World → Prop) w :
  frame p w0 w → (∀ w', frame p w0 w' → Q tt w') → wp PyErr_Clear Q w.
Proof. intros Hf HQ. wp_steps. by apply HQ. Qed.

Lemma wp_PyObject_IsTrue_frame v (Q : Z → World → Prop) w :
  frame p w0 w → (∀ t w', frame p w0 w' → Q t w') → wp (PyObject_IsTrue v) Q w.
Proof.
  intros Hf HQ. destruct v as [| | | | | |[b|]]; simpl; wp_steps; by apply HQ.
Qed.

Lemma wp_unicode_to_wchar_frame v buf sz (Q : Z * list Z → World → Prop) w :
  frame p w0 w → (∀ r w', frame p w0 w' → Q r w') →
  wp (unicode_to_wchar v buf sz) Q w.
Proof. intros Hf HQ. destruct v; simpl; wp_steps; by apply HQ. Qed.

Lemma wp_get_errno_frame (Q : Z → World → Prop) w :
  frame p w0 w → (∀ e w', frame p w0 w' → Q e w') → wp get_errno Q w.
Proof. intros Hf HQ. unfold get_errno. wp_steps. by apply HQ. Qed.

Lemma wp_write_all_frame data sz fd (Q : bool → World → Prop) w :
  0 ≤ sz < 2 ^ 64 →
  frame p w0 w → (∀ b w', frame p w0 w' → Q b w') →
  wp (write_all data sz fd) Q w.
Proof.
  intros Hsz Hf HQ. apply wp_write_all; [done |].
  intros b w' Hsame. by eapply HQ, frame_same_but_os.
Qed.

Lemma land_mask_range p2 : 0 ≤ Z.land p2 0xffffffff < 2 ^ 64.
Proof.
  assert (0 ≤ Z.land p2 0xffffffff < 2 ^ 32); [| lia].
  change 0xffffffff with (Z.ones 32). rewrite Z.land_ones by lia.
  by apply Z.mod_pos_bound.
Qed.

Ltac frame_step :=
  lazymatch goal with
  | |- wp (mret _) _ _ => apply wp_ret
  | |- wp (mbind _ _) _ _ => apply wp_bind
  | |- wp (load _) _ _ => apply wp_load_frame; [assumption | intros ? ?]
  | |- wp (set_callback_error _ _) _ _ =>
      apply wp_set_callback_error_frame; [assumption | intros ? ?]
  | |- wp (ALLOW_THREADS _) _ _ =>
      apply wp_ALLOW_THREADS_frame; [assumption | intros ? ?]
  | |- wp (BLOCK_THREADS _) _ _ =>
      apply wp_BLOCK_THREADS_frame; [assumption | intros ? ?]
  | |- wp (PyObject_CallMethod _ _ _) _ _ =>
      apply wp_PyObject_CallMethod_frame; [assumption | intros ? ? ?]
  | |- wp PyErr_Occurred _ _ =>
      apply wp_PyErr_Occurred_frame; [assumption | intros ? ? ?]
  | |- wp PyErr_Clear _ _ =>
      apply wp_PyErr_Clear_frame; [assumption | intros ? ?]
  | |- wp (PyObject_IsTrue _) _ _ =>
      apply wp_PyObject_IsTrue_frame; [assumption | intros ? ? ?]
  | |- wp (unicode_to_wchar _ _ _) _ _ =>
      apply wp_unicode_to_wchar_frame; [assumption | intros ? ? ?]
  | |- wp get_errno _ _ =>
      apply wp_get_errno_frame; [assumption | intros ? ? ?]
  | |- wp (write_all _ _ _) _ _ =>
      apply wp_write_all_frame;
        [apply land_mask_range | assumption | intros ? ? ?]
  | |- wp (if ?b then _ else _) _ _ => destruct b
  | |- wp (match ?x with _ => _ end) _ _ => destruct x
  end.

(** The bridge returns for every message, keeps the frame and leaves the
    error indicator clear. *)
Lemma wp_unrar_callback_frame msg p1 p2 (Q : Z * list Z → World → Prop) w :
  frame p w0 w →
  (∀ r w', frame p w0 w' → py_error w' = None → Q r w') →
  wp (unrar_callback msg p p1 p2) Q w.
Proof.
  intros Hf HQ. unfold unrar_callback.
  do 2 frame_step. frame_step.
  apply wp_mono with (λ _ w', frame p w0 w');
    [| intros r w' Hf'; wp_steps; by apply HQ].
  apply (switch_cases (λ body, wp body _ w)).
  - repeat (apply Forall_cons_2; [simpl; repeat frame_step; done |]).
    apply Forall_nil_2.
  - repeat frame_step; done.
Qed.

Lemma wp_run_native_frame {R} (call : NativeCall R) (Q : R → World → Prop) w :
  frame p w0 w →
  (∀ r w', frame p w0 w' → (py_error w = None → py_error w' = None) → Q r w') →
  wp (run_native call p) Q w.
Proof.
  revert w. induction call as [r | msg p1 p2 k IH]; intros w Hf HQ; simpl.
  - by apply wp_ret, HQ.
  - apply wp_bind, wp_unrar_callback_frame; [done |].
    intros reply w' Hf' Hclear. apply IH; [done |].
    intros r w'' Hf'' Hkeep. apply HQ; [done |]. intros _. by apply Hkeep.
Qed.
End bridge_frame.

(** * File processor *)

Lemma bind_assoc {A B C} (m : M A) (f : A → M B) (g : B → M C) w :
  ((m ≫= f) ≫= g) w = (m ≫= λ a, f a ≫= g) w.
Proof. unfold mbind, M_bind. by destruct (m w) as [[a w']|]. Qed.

Lemma bind_ext {A B} (m : M A) (f g : A → M B) w :
  (∀ a w', f a w' = g a w') → (m ≫= f) w = (m ≫= g) w.
Proof. intros Hfg. unfold mbind, M_bind. by destruct (m w) as [[a w']|]. Qed.

Lemma process_file_phases `{Headers} lib c p uo op fd w :
  live_handle w c p uo →
  process_file lib c op fd w
  = (process_file_native lib p op fd ≫= process_file_finish p) w.
Proof.
  intros Hlive. unfold process_file at 1.
  unfold mbind at 1, M_bind at 1. rewrite (from_capsule_live w c p uo) by done.
  unfold process_file_native. rewrite bind_assoc. apply bind_ext. intros [] w1.
  rewrite bind_assoc. apply bind_ext. intros o w2.
  rewrite bind_assoc. apply bind_ext. intros [] w3. done.
Qed.

Lemma wp_convert_rar_error `{Headers} code (Q : unit → World → Prop) w :
  (∀ ty msg, Q tt (with_py_error (Some (ty, msg)) w)) →
  wp (convert_rar_error code) Q w.
Proof.
  intros HQ. destruct (convert_rar_error_sets code w) as (ty & msg & Heq).
  eapply wp_intro; [exact Heq | apply HQ].
Qed.

Lemma wp_process_file_native_frame `{Headers} lib p uo op fd
    (Q : Z → World → Prop) w :
  contexts w !! p = Some uo →
  (∀ r w', frame p (with_contexts (<[p := with_output_fd fd uo]> (contexts w)) w) w'
           → Q r w') →
  wp (process_file_native lib p op fd) Q w.
Proof.
  intros Hp HQ. unfold process_file_native.
  wp_step. wp_step. wp_step. simpl.
  set (w1 := with_contexts _ w).
  assert (Hf : frame p w1 w1) by (eapply frame_refl; subst w1; lookup_now).
  apply wp_load_frame with w1; [done |]. intros o _.
  apply wp_bind, wp_ALLOW_THREADS_frame with w1; [done |]. intros w2 Hf2.
  apply wp_run_native_frame with w1; [done |].
  intros r w' Hf' _. by apply HQ.
Qed.

Lemma wp_process_file_finish_frame `{Headers} p w0 retval
    (Q : option PyObject → World → Prop) w :
  frame p w0 w → (∀ r w', frame p w0 w' → Q r w') →
  wp (process_file_finish p retval) Q w.
Proof.
  intros Hf HQ. unfold process_file_finish.
  apply wp_bind, wp_BLOCK_THREADS_frame with w0; [done |]. intros w1 Hf1.
  destruct (retval =? ERAR_SUCCESS); [by apply wp_ret, HQ |].
  apply wp_bind, wp_load_frame with w0; [done |]. intros o _.
  apply wp_bind.
  destruct ((retval =? ERAR_UNKNOWN) && has_callback_error o).
  - wp_steps. by apply HQ.
  - apply wp_convert_rar_error. intros ty msg. wp_steps. by apply HQ.
Qed.

(** The saved thread state of the context. *)

Section bridge_lock.
Context `{Headers} (p : nat).

Lemma lock_inv_same w w' :
  lock_inv p w → contexts w' = contexts w → gil_held w' = gil_held w →
  lock_inv p w'.
Proof. intros [Hgil Hp] Hc Hg. split; [by rewrite Hg | by rewrite Hc]. Qed.

Lemma wp_lock_same {A} (m : M A) (Q : A → World → Prop) w :
  wp m (λ _ w', contexts w' = contexts w ∧ gil_held w' = gil_held w) w →
  lock_inv p w → (∀ a w', lock_inv p w' → Q a w') → wp m Q w.
Proof.
  intros Hm Hinv HQ. eapply wp_mono; [exact Hm |].
  intros a w' [Hc Hg]. by eapply HQ, lock_inv_same.
Qed.

Lemma wp_load_lock (Q : UnrarOperation → World → Prop) w :
  lock_inv p w →
  (∀ uo, thread_state uo = PyGILState_LOCKED → Q uo w) → wp (load p) Q w.
Proof.
  intros (_ & uo & Hp & Hst) HQ. eapply wp_load; [done | by apply HQ].
Qed.

Lemma wp_store_lock f (Q : unit → World → Prop) w :
  lock_inv p w → (∀ uo, thread_state (f uo) = thread_state uo) →
  (∀ w', lock_inv p w' → Q tt w') → wp (store p f) Q w.
Proof.
  intros (Hgil & uo & Hp & Hst) Hf HQ. eapply wp_store; [done |].
  apply HQ. split; [done |]. exists (f uo).
  split; [simpl; apply lookup_insert_eq | by rewrite Hf].
Qed.

Lemma wp_set_callback_error_lock text (Q : unit → World → Prop) w :
  lock_inv p w → (∀ w', lock_inv p w' → Q tt w') →
  wp (set_callback_error p text) Q w.
Proof.
  intros Hinv HQ. unfold set_callback_error. apply wp_bind.
  apply wp_store_lock; [done | done |]. intros w1 Hinv1.
  by apply wp_store_lock.
Qed.

Lemma wp_ALLOW_THREADS_lock (Q : unit → World → Prop) w :
  lock_inv p w → (∀ w', lock_inv p w' → Q tt w') → wp (ALLOW_THREADS p) Q w.
Proof.
  intros (Hgil & uo & Hp & Hst) HQ. unfold ALLOW_THREADS. apply wp_bind.
  unfold wp at 1, PyGILState_Ensure. rewrite Hgil.
  eapply wp_store; [simpl; exact Hp |].
  apply HQ. split; [done |]. eexists.
  split; [simpl; apply lookup_insert_eq | done].
Qed.

Lemma wp_BLOCK_THREADS_lock (Q : unit → World → Prop) w :
  lock_inv p w → (∀ w', lock_inv p w' → Q tt w') → wp (BLOCK_THREADS p) Q w.
Proof.
  intros Hinv HQ. unfold BLOCK_THREADS. apply wp_bind.
  apply wp_load_lock; [done |]. intros uo ->. by apply wp_ret, HQ.
Qed.

Lemma wp_PyObject_CallMethod_lock o name args
    (Q : option PyObject → World → Prop) w :
  lock_inv p w → (∀ r w', lock_inv p w' → Q r w') →
  wp (PyObject_CallMethod o name args) Q w.
Proof.
  intros Hinv HQ. unfold PyObject_CallMethod. wp_steps.
  destruct (objects w !! o) as [[| methods |]|];
    try destruct (methods name args); wp_steps; by apply HQ.
Qed.

Lemma wp_PyErr_Occurred_lock (Q : bool → World → Prop) w :
  lock_inv p w → (∀ b w', lock_inv p w' → Q b w') → wp PyErr_Occurred Q w.
Proof. intros Hinv HQ. unfold PyErr_Occurred. wp_steps. by apply HQ. Qed.

Lemma wp_PyErr_Clear_lock (Q : unit → World → Prop) w :
  lock_inv p w → (∀ w', lock_inv p w' → Q tt w') → wp PyErr_Clear Q w.
Proof. intros Hinv HQ. wp_steps. by apply HQ. Qed.

Lemma wp_PyObject_IsTrue_lock v (Q : Z → World → Prop) w :
  lock_inv p w → (∀ t w', lock_inv p w' → Q t w') → wp (PyObject_IsTrue v) Q w.
Proof.
  intros Hinv HQ. destruct v as [| | | | | |[b|]]; simpl; wp_steps; by apply HQ.
Qed.

Lemma wp_unicode_to_wchar_lock v buf sz (Q : Z * list Z → World → Prop) w :
  lock_inv p w → (∀ r w', lock_inv p w' → Q r w') →
  wp (unicode_to_wchar v buf sz) Q w.
Proof. intros Hinv HQ. destruct v; simpl; wp_steps; by apply HQ. Qed.

Lemma wp_get_errno_lock (Q : Z → World → Prop) w :
  lock_inv p w → (∀ e w', lock_inv p w' → Q e w') → wp get_errno Q w.
Proof. intros Hinv HQ. unfold get_errno. wp_steps. by apply HQ. Qed.

Lemma wp_write_all_lock data sz fd (Q : bool → World → Prop) w :
  0 ≤ sz < 2 ^ 64 →
  lock_inv p w → (∀ b w', lock_inv p w' → Q b w') →
  wp (write_all data sz fd) Q w.
Proof.
  intros Hsz Hinv HQ. apply wp_write_all; [done |].
  intros b w' (_ & Hc & _ & Hg & _). by eapply HQ, lock_inv_same.
Qed.

Ltac lock_step :=
  lazymatch goal with
  | |- wp (mret _) _ _ => apply wp_ret
  | |- wp (mbind _ _) _ _ => apply wp_bind
  | |- wp (load _) _ _ => apply wp_load_lock; [assumption | intros ? ?]
  | |- wp (set_callback_error _ _) _ _ =>
      apply wp_set_callback_error_lock; [assumption | intros ? ?]
  | |- wp (ALLOW_THREADS _) _ _ =>
      apply wp_ALLOW_THREADS_lock; [assumption | intros ? ?]
  | |- wp (BLOCK_THREADS _) _ _ =>
      apply wp_BLOCK_THREADS_lock; [assumption | intros ? ?]
  | |- wp (PyObject_CallMethod _ _ _) _ _ =>
      apply wp_PyObject_CallMethod_lock; [assumption | intros ? ? ?]
  | |- wp PyErr_Occurred _ _ =>
      apply wp_PyErr_Occurred_lock; [assumption | intros ? ? ?]
  | |- wp PyErr_Clear _ _ =>
      apply wp_PyErr_Clear_lock; [assumption | intros ? ?]
  | |- wp (PyObject_IsTrue _) _ _ =>
      apply wp_PyObject_IsTrue_lock; [assumption | intros ? ? ?]
  | |- wp (unicode_to_wchar _ _ _) _ _ =>
      apply wp_unicode_to_wchar_lock; [assumption | intros ? ? ?]
  | |- wp get_errno _ _ =>
      apply wp_get_errno_lock; [assumption | intros ? ? ?]
  | |- wp (write_all _ _ _) _ _ =>
      apply wp_write_all_lock;
        [apply land_mask_range | assumption | intros ? ? ?]
  | |- wp (if ?b then _ else _) _ _ => destruct b
  | |- wp (match ?x with _ => _ end) _ _ => destruct x
  end.

(** The bridge keeps the lock held and the saved state as it is. *)
Lemma wp_unrar_callback_lock msg p1 p2 (Q : Z * list Z → World → Prop) w :
  lock_inv p w → (∀ r w', lock_inv p w' → Q r w') →
  wp (unrar_callback msg p p1 p2) Q w.
Proof.
  intros Hinv HQ. unfold unrar_callback.
  do 2 lock_step. lock_step.
  apply wp_mono with (λ _ w', lock_inv p w');
    [| intros r w' Hinv'; wp_steps; by apply HQ].
  apply (switch_cases (λ body, wp body _ w)).
  - repeat (apply Forall_cons_2; [simpl; repeat lock_step; done |]).
    apply Forall_nil_2.
  - repeat lock_step; done.
Qed.

Lemma wp_run_native_lock {R} (call : NativeCall R) (Q : R → World → Prop) w :
  lock_inv p w → (∀ r w', lock_inv p w' → Q r w') →
  wp (run_native call p) Q w.
Proof.
  revert w. induction call as [r | msg p1 p2 k IH]; intros w Hinv HQ; simpl.
  - by apply wp_ret, HQ.
  - apply wp_bind, wp_unrar_callback_lock; [done |].
    intros reply w' Hinv'. by apply IH.
Qed.
End bridge_lock.

Lemma wp_process_file_lock `{Headers} lib c p uo op fd
    (Q : option PyObject → World → Prop) w :
  live_handle w c p uo →
  gil_held w = true →
  thread_state uo = PyGILState_LOCKED →
  (∀ r w', lock_inv p w' → Q r w') →
  wp (process_file lib c op fd) Q w.
Proof.
  intros Hlive Hgil Hst HQ. unfold wp.
  rewrite (process_file_phases lib c p uo) by done.
  fold (wp (process_file_native lib p op fd ≫= process_file_finish p) Q w).
  destruct Hlive as [_ Hp].
  assert (Hinv : lock_inv p w) by (split; [done | by exists uo]).
  unfold process_file_native, process_file_finish.
  wp_step. wp_step. apply wp_store_lock; [done | done |]. intros w1 Hinv1.
  wp_step. apply wp_load_lock; [done |]. intros o _.
  wp_step. apply wp_ALLOW_THREADS_lock; [done |]. intros w2 Hinv2.
  apply wp_run_native_lock; [done |]. intros retval w3 Hinv3.
  wp_step. apply wp_BLOCK_THREADS_lock; [done |]. intros w4 Hinv4.
  destruct (retval =? ERAR_SUCCESS); [by apply wp_ret, HQ |].
  wp_step. apply wp_load_lock; [done |]. intros o' _.
  wp_step.
  destruct ((retval =? ERAR_UNKNOWN) && has_callback_error o').
  - wp_steps. by apply HQ.
  - apply wp_convert_rar_error. intros ty msg. wp_steps. by apply HQ.
Qed.

(** C9 (amended): process_file stores the output descriptor in the handle
    and leaves it there: on a live handle the call returns, and then the
    output-descriptor field holds the descriptor passed to the call.  No
    other field of the handle is changed but the pending-error marker with
    its message: the native handle and the callback reference are as before,
    and so is the saved thread state when the call is made holding the lock
    of the host runtime on a handle whose saved state is that of a holder of
    the lock. *)
Theorem process_file_frame `{Headers} (RARProcessFile : Z → Z → NativeCall Z)
    (c p : nat) (uo : UnrarOperation) (operation fd : Z) (w : World) :
  live_handle w c p uo →
  ∃ r w' uo',
    process_file RARProcessFile c operation fd w = Some (r, w') ∧
    contexts w' !! p = Some uo' ∧
    output_fd uo' = fd ∧
    unrar_data uo' = unrar_data uo ∧
    callback_object uo' = callback_object uo ∧
    (gil_held w = true → thread_state uo = PyGILState_LOCKED →
     thread_state uo' = thread_state uo).
Proof.
  intros Hlive.
  assert (Hlock : gil_held w = true → thread_state uo = PyGILState_LOCKED →
                  wp (process_file RARProcessFile c operation fd)
                    (λ _ w', lock_inv p w') w).
  { intros Hgil Hst. by apply (wp_process_file_lock _ c p uo). }
  unfold wp in Hlock. rewrite (process_file_phases _ c p uo) in * by done.
  destruct Hlive as [Hc Hp].
  set (w1 := with_contexts (<[p := with_output_fd fd uo]> (contexts w)) w).
  assert (Hrun : wp (process_file_native RARProcessFile p operation fd
                     ≫= process_file_finish p)
                   (λ _ w', frame p w1 w') w).
  { apply wp_bind, (wp_process_file_native_frame _ p uo); [done |].
    intros retval w2 Hf2. by apply wp_process_file_finish_frame with w1. }
  apply wp_elim in Hrun as (r & w' & Hrun & Ho & Ht & Hq & uo1 & uo' & Hp1 & Hp' & Hh & Hcb & Hfd).
  subst w1. simpl in *. rewrite lookup_insert_eq in Hp1. injection Hp1 as <-.
  exists r, w', uo'. repeat split; try done.
  intros Hgil Hst. rewrite Hrun in Hlock.
  destruct (Hlock Hgil Hst) as (_ & uo'' & Hp'' & Hst'').
  rewrite Hp' in Hp''. injection Hp'' as <-. by rewrite Hst.
Qed.

Lemma process_file_frame_witness :
  ∃ r w' uo',
    process_file one_chunk 0 1 3 (opened_world (CallReturn (Py_Bool true)))
    = Some (r, w') ∧
    contexts w' !! 5%nat = Some uo' ∧
    output_fd uo' = 3 ∧
    unrar_data uo' = 77 ∧
    callback_object uo' = Some 1%nat ∧
    thread_state uo' = PyGILState_LOCKED.
Proof.
  destruct (process_file_frame one_chunk 0 5 opened_context 1 3
              (opened_world (CallReturn (Py_Bool true))) (opened_world_live _))
    as (r & w' & uo' & Hrun & Hp & Hfd & Hh & Hcb & Hst).
  exists r, w', uo'. repeat split; try done. by apply Hst.
Defined.

(** C9 as stated fails: after process_file has returned with output
    descriptor 3, the handle's output-descriptor field still holds 3. *)
Lemma process_file_output_fd_stays :
  output_fd <$>
    context_after
      (process_file (no_callback ERAR_SUCCESS) 0 1 3
         (opened_world (CallReturn (Py_Bool true)))) 5
  = Some 3.
Proof. by vm_compute. Qed.

Lemma ERAR_UNKNOWN_not_SUCCESS `{Headers} :
  (ERAR_UNKNOWN =? ERAR_SUCCESS) = false.
Proof.
  apply Z.eqb_neq. intros Heq. pose proof erar_labels_distinct as Hnd.
  rewrite Heq in Hnd. apply NoDup_cons in Hnd as [Hni _]. apply Hni.
  do 10 apply list_elem_of_further. apply list_elem_of_here.
Qed.

(** The native handle, callback reference and host objects after the native
    phase are those before it. *)
Lemma process_file_native_objects `{Headers} lib p uo op fd w retval w1 :
  contexts w !! p = Some uo →
  process_file_native lib p op fd w = Some (retval, w1) →
  objects w1 = objects w.
Proof.
  intros Hp Hrun.
  assert (Hwp : wp (process_file_native lib p op fd)
                  (λ _ w', objects w' = objects w) w).
  { apply (wp_process_file_native_frame lib p uo); [done |].
    by intros r w' (Ho & _). }
  unfold wp in Hwp. by rewrite Hrun in Hwp.
Qed.

(** When the native status is the unknown error and the marker is set, the
    stored message is raised; the context is left as it is. *)
Lemma process_file_finish_pending `{Headers} p uo1 w1 :
  contexts w1 !! p = Some uo1 →
  has_callback_error uo1 = true →
  ∃ w2,
    process_file_finish p ERAR_UNKNOWN w1 = Some (None, w2) ∧
    py_error w2 = Some (UNRARError, callback_error uo1) ∧
    contexts w2 = contexts w1 ∧
    objects w2 = objects w1.
Proof.
  intros Hp Hflag.
  assert (Hwp : wp (process_file_finish p ERAR_UNKNOWN)
                  (λ r w2, r = None ∧
                     py_error w2 = Some (UNRARError, callback_error uo1) ∧
                     contexts w2 = contexts w1 ∧ objects w2 = objects w1) w1).
  { unfold process_file_finish, BLOCK_THREADS. wp_steps.
    assert (Hrel : wp (PyGILState_Release (thread_state uo1))
                     (λ _ w', contexts w' = contexts w1 ∧
                              objects w' = objects w1) w1).
    { by destruct (thread_state uo1). }
    eapply wp_mono; [exact Hrel |]. intros [] w' [Hc' Ho'].
    rewrite ERAR_UNKNOWN_not_SUCCESS. wp_step.
    eapply wp_load; [by rewrite Hc' |].
    rewrite Z.eqb_refl, Hflag. simpl. by wp_steps. }
  apply wp_elim in Hwp as (r & w2 & Hrun & -> & ?). by exists w2.
Qed.

(** C1 (amended): when the native operation returns the unknown-error status
    and the pending marker is set, process_file raises the captured message,
    not the translation of the status, and leaves the marker set and the
    message in place: a later process_file on the handle whose native
    operation returns the unknown-error status without any callback raises
    the same message again. *)
Theorem process_file_pending_error `{Headers} (RARProcessFile : Z → Z → NativeCall Z)
    (c p : nat) (uo uo1 : UnrarOperation) (operation fd : Z) (w w1 : World) :
  live_handle w c p uo →
  process_file_native RARProcessFile p operation fd w = Some (ERAR_UNKNOWN, w1) →
  contexts w1 !! p = Some uo1 →
  has_callback_error uo1 = true →
  ∃ w2,
    process_file RARProcessFile c operation fd w = Some (None, w2) ∧
    py_error w2 = Some (UNRARError, callback_error uo1) ∧
    contexts w2 !! p = Some uo1 ∧
    ∀ operation' fd',
      error_after (process_file (no_callback ERAR_UNKNOWN) c operation' fd' w2)
      = Some (UNRARError, callback_error uo1).
Proof.
  intros Hlive Hnative Hp1 Hflag.
  destruct (process_file_finish_pending p uo1 w1 Hp1 Hflag)
    as (w2 & Hfinish & Herr & Hc2 & Ho2).
  exists w2. split; [| split; [done | split; [by rewrite Hc2 |]]].
  { rewrite (process_file_phases _ c p uo) by done.
    unfold mbind, M_bind. by rewrite Hnative. }
  intros operation' fd'.
  assert (Hlive2 : live_handle w2 c p uo1).
  { destruct Hlive as [Hc Hp]. split; [| by rewrite Hc2].
    by rewrite Ho2, (process_file_native_objects RARProcessFile p uo operation fd
                         w ERAR_UNKNOWN w1). }
  rewrite (process_file_phases _ c p uo1) by done.
  destruct Hlive2 as [_ Hp2].
  set (uo3 := with_thread_state
                (if gil_held w2 then PyGILState_LOCKED else PyGILState_UNLOCKED)
                (with_output_fd fd' uo1)).
  assert (Hnative' : ∃ w3,
             process_file_native (no_callback ERAR_UNKNOWN) p operation' fd' w2
             = Some (ERAR_UNKNOWN, w3) ∧ contexts w3 !! p = Some uo3).
  { assert (Hwp : wp (process_file_native (no_callback ERAR_UNKNOWN) p
                        operation' fd')
                    (λ r w3, r = ERAR_UNKNOWN ∧ contexts w3 !! p = Some uo3) w2).
    { unfold process_file_native, ALLOW_THREADS. wp_steps.
      unfold wp at 1, PyGILState_Ensure. wp_steps.
      split; [done |]. by rewrite lookup_insert_eq. }
    apply wp_elim in Hwp as (r & w3 & Hrun & -> & Hp3). by exists w3. }
  destruct Hnative' as (w3 & Hnative' & Hp3).
  destruct (process_file_finish_pending p uo3 w3 Hp3 Hflag)
    as (w4 & Hfinish' & Herr' & _).
  unfold mbind, M_bind. rewrite Hnative', Hfinish'. done.
Qed.

Lemma process_file_pending_error_witness :
  ∃ w2,
    process_file one_chunk 0 1 (-1) (opened_world (CallReturn (Py_Bool false)))
    = Some (None, w2) ∧
    py_error w2 = Some (UNRARError, "Processing canceled by the callback") ∧
    contexts w2 !! 5%nat = Some canceled_context.
Proof.
  pose (w := opened_world (CallReturn (Py_Bool false))).
  pose (w1 := default w (snd <$> process_file_native one_chunk 5 1 (-1) w)).
  destruct (process_file_pending_error one_chunk 0 5 opened_context
              canceled_context 1 (-1) w w1)
    as (w2 & Hrun & Herr & Hctx & _).
  - apply opened_world_live.
  - by vm_compute.
  - by vm_compute.
  - done.
  - by exists w2.
Defined.

(** C1 as stated fails: after process_file has raised the captured message
    the marker is still set, and the next process_file whose native operation
    returns the unknown-error status, with no callback in between, raises the
    old message. *)
Lemma process_file_pending_flag_stays :
  let first :=
    process_file one_chunk 0 1 (-1) (opened_world (CallReturn (Py_Bool false))) in
  error_after first = Some (UNRARError, "Processing canceled by the callback") ∧
  has_callback_error <$> context_after first 5 = Some true ∧
  match first with
  | Some (_, w2) =>
      error_after (process_file (no_callback ERAR_UNKNOWN) 0 1 (-1)
                     (with_py_error None w2))
  | None => None
  end = Some (UNRARError, "Processing canceled by the callback").
Proof. by vm_compute. Qed.

(** * Header reader *)

Lemma read_next_header_phases `{Headers} lib c p uo w :
  live_handle w c p uo →
  read_next_header lib c w
  = (read_next_header_native lib p ≫= λ '(retval, header),
       BLOCK_THREADS p;;
       switch retval
         [ (ERAR_END_ARCHIVE, mret (Some Py_None));
           (ERAR_SUCCESS, header_to_python header) ]
         (convert_rar_error retval;; mret None)) w.
Proof.
  intros Hlive. unfold read_next_header at 1.
  unfold mbind at 1, M_bind at 1. rewrite (from_capsule_live w c p uo) by done.
  unfold read_next_header_native. rewrite bind_assoc. apply bind_ext. intros o w1.
  rewrite bind_assoc. apply bind_ext. intros [] w2. done.
Qed.




Lemma run_native_results `{Headers} {R} (P : R → Prop) (call : NativeCall R)
    p w r w' :
  native_results P call → run_native call p w = Some (r, w') → P r.
Proof.
  revert w. induction call as [r0 | msg p1 p2 k IH]; intros w Hres Hrun.
  - by injection Hrun as <- <-.
  - change (run_native (NCallback msg p1 p2 k) p)
      with (unrar_callback msg p p1 p2 ≫= λ reply, run_native (k reply) p)
      in Hrun.
    apply bind_Some in Hrun as (reply & w1 & _ & Hrun).
    eapply IH; [apply Hres | exact Hrun].
Qed.

Lemma wp_results {A} (m : M A) (P : A → Prop) (Q : A → World → Prop) w :
  (∀ a w', m w = Some (a, w') → P a) →
  wp m (λ a w', P a → Q a w') w → wp m Q w.
Proof.
  unfold wp. destruct (m w) as [[a w']|]; [| done].
  intros HP HQ. apply HQ. by eapply HP.
Qed.






(** * The callback bridge on a data chunk *)

Lemma wp_BLOCK_THREADS_exact p uo (Q : unit → World → Prop) w :
  contexts w !! p = Some uo →
  (∀ w', same_heaps w w' → Q tt w') →
  wp (BLOCK_THREADS p) Q w.
Proof.
  intros Hp HQ. unfold BLOCK_THREADS. wp_steps.
  destruct (thread_state uo); simpl; wp_steps; by apply HQ.
Qed.

Lemma wp_ALLOW_THREADS_exact p uo (Q : unit → World → Prop) w :
  contexts w !! p = Some uo →
  (∀ st w', contexts w' = <[p := with_thread_state st uo]> (contexts w) →
            objects w' = objects w → py_error w' = py_error w → Q tt w') →
  wp (ALLOW_THREADS p) Q w.
Proof.
  intros Hp HQ. unfold ALLOW_THREADS. wp_step.
  unfold wp at 1, PyGILState_Ensure. wp_step. by eapply HQ.
Qed.

Lemma wp_set_callback_error_exact p uo text (Q : unit → World → Prop) w :
  contexts w !! p = Some uo →
  (∀ w', contexts w'
         = <[p := with_has_callback_error true
                    (with_callback_error (snprintf CALLBACK_ERROR_SZ text) uo)]>
             (contexts w) →
         objects w' = objects w → py_error w' = py_error w → Q tt w') →
  wp (set_callback_error p text) Q w.
Proof.
  intros Hp HQ. unfold set_callback_error. wp_steps.
  apply HQ; simpl; [| done | done]. by rewrite insert_insert_eq.
Qed.

Lemma wp_PyObject_IsTrue_exact v (Q : Z → World → Prop) w :
  (∀ t w', PyObject_IsTrue v w = Some (t, w') →
           contexts w' = contexts w → objects w' = objects w → Q t w') →
  wp (PyObject_IsTrue v) Q w.
Proof.
  intros HQ. destruct v as [| | | | | |[b|]]; simpl; wp_steps; by apply HQ.
Qed.

Lemma unrar_callback_PROCESSDATA_body `{Headers} p p1 p2 w :
  ∃ body,
    unrar_callback UCM_PROCESSDATA p p1 p2 w
    = (o ← load p; r ← body o; PyErr_Clear;; mret r) w ∧
    ∀ o, body o =
      if p2 <? 0 then
        set_callback_error p
          ("Invalid buffer length sent to callback: " +:+ pretty p2);;
        mret (-1, p1)
      else match callback_object o with
      | Some cb =>
          if -1 <? output_fd o then
            ok ← write_all p1 (Z.land p2 0xffffffff) (output_fd o);
            if ok : bool then mret (0, p1)
            else
              e ← get_errno;
              set_callback_error p
                ("Failed to write all bytes to output file. Error: "
                 +:+ strerror e);;
              mret (-1, p1)
          else
            BLOCK_THREADS p;;
            pw ← PyObject_CallMethod cb _process_data
                   [Py_Bytes (take (Z.to_nat (Z.land p2 0xffffffff)) p1)];
            occurred ← PyErr_Occurred;
            ret ← (if occurred : bool then
                     set_callback_error p
                       "An exception occurred in the password callback handler";;
                     mret (-1)
                   else
                     truth ← match pw with
                             | Some v => PyObject_IsTrue v
                             | None => mret 0
                             end;
                     let ret := if truth =? 0 then -1 else 0 in
                     (if ret =? 0 then mret tt
                      else set_callback_error p
                             "Processing canceled by the callback");;
                     mret ret);
            ALLOW_THREADS p;;
            mret (ret, p1)
      | None =>
          set_callback_error p "No callback provided";; mret (-1, p1)
      end.
Proof.
  eexists (λ o, _). split; [| intros o; reflexivity].
  unfold unrar_callback. apply bind_ext. intros o w1.
  erewrite switch_label; [reflexivity | apply ucm_labels_distinct |].
  do 4 apply list_elem_of_further. apply list_elem_of_here.
Qed.

(** The bridge on a data chunk handed to the consumer, by what the consumer
    does. *)
Lemma unrar_callback_data_chunk `{Headers} (p cb : nat)
    (methods : string → list PyObject → PyCallResult)
    (p1 : list Z) (p2 : Z) (uo : UnrarOperation) (w : World) :
  contexts w !! p = Some uo →
  callback_object uo = Some cb →
  objects w !! cb = Some (ObjInstance methods) →
  output_fd uo ≤ -1 →
  0 ≤ p2 →
  py_error w = None →
  ∃ ret w' uo',
    unrar_callback UCM_PROCESSDATA p p1 p2 w = Some ((ret, p1), w') ∧
    contexts w' !! p = Some uo' ∧
    py_error w' = None ∧
    match methods _process_data
            [Py_Bytes (take (Z.to_nat (Z.land p2 0xffffffff)) p1)] with
    | CallRaise _ _ =>
        ret = -1 ∧ has_callback_error uo' = true ∧
        callback_error uo'
        = "An exception occurred in the password callback handler" ∧
        callback_error uo' ≠ canceled_message
    | CallReturn v =>
        (falsy v →
           ret = -1 ∧ has_callback_error uo' = true ∧
           callback_error uo' = canceled_message) ∧
        (truthy v →
           ret = 0 ∧ has_callback_error uo' = has_callback_error uo ∧
           callback_error uo' = callback_error uo)
    end.
Proof.
  intros Hp Hcb Hobj Hfd Hp2 Hclear.
  destruct (unrar_callback_PROCESSDATA_body p p1 p2 w) as (body & -> & Hbody).
  set (data := [Py_Bytes (take (Z.to_nat (Z.land p2 0xffffffff)) p1)]).
  assert (Hwp : wp (o ← load p; r ← body o; PyErr_Clear;; mret r)
                  (λ r w', r.2 = p1 ∧ py_error w' = None ∧
                     ∃ uo', contexts w' !! p = Some uo' ∧
                       match methods _process_data data with
                       | CallRaise _ _ =>
                           r.1 = -1 ∧ has_callback_error uo' = true ∧
                           callback_error uo'
                           = "An exception occurred in the password callback handler" ∧
                           callback_error uo' ≠ canceled_message
                       | CallReturn v =>
                           (falsy v →
                              r.1 = -1 ∧ has_callback_error uo' = true ∧
                              callback_error uo' = canceled_message) ∧
                           (truthy v →
                              r.1 = 0 ∧
                              has_callback_error uo' = has_callback_error uo ∧
                              callback_error uo' = callback_error uo)
                       end) w).
  { wp_steps. rewrite Hbody, Hcb.
    rewrite (proj2 (Z.ltb_ge p2 0)), (proj2 (Z.ltb_ge _ _) Hfd) by lia.
    wp_step. eapply wp_BLOCK_THREADS_exact; [done |].
    intros w1 (Hc1 & Ho1 & He1).
    unfold PyObject_CallMethod, PyErr_Occurred. wp_steps.
    rewrite Ho1, Hobj. fold data.
    destruct (methods _process_data data) as [v | ty msg]; wp_steps.
    - rewrite He1, Hclear. simpl. wp_step.
      apply wp_PyObject_IsTrue_exact. intros t w2 Htruth Hc2 Ho2.
      destruct (Z.eqb_spec t 0) as [-> | Hne]; simpl; wp_steps.
      + eapply wp_set_callback_error_exact; [by rewrite Hc2, Hc1 |].
        intros w3 Hc3 _ _. wp_steps.
        eapply wp_ALLOW_THREADS_exact; [by rewrite Hc3, lookup_insert_eq |].
        intros st w4 Hc4 _ _. wp_steps.
        split; [done |]. split; [done |]. eexists.
        split; [by rewrite Hc4, lookup_insert_eq |]. split; [done |].
        intros Htruthy. specialize (Htruthy w1). rewrite Htruthy in Htruth.
        by injection Htruth.
      + eapply wp_ALLOW_THREADS_exact; [by rewrite Hc2, Hc1 |].
        intros st w4 Hc4 _ _. wp_steps.
        split; [done |]. split; [done |]. eexists.
        split; [by rewrite Hc4, lookup_insert_eq |]. split; [| done].
        intros Hfalsy. specialize (Hfalsy w1). rewrite Hfalsy in Htruth.
        injection Htruth as <-. done.
    - eapply wp_set_callback_error_exact; [simpl; by rewrite Hc1 |].
      intros w3 Hc3 _ _. wp_steps.
      eapply wp_ALLOW_THREADS_exact; [by rewrite Hc3, lookup_insert_eq |].
      intros st w4 Hc4 _ _. wp_steps.
      split; [done |]. split; [done |]. eexists.
      split; [by rewrite Hc4, lookup_insert_eq |]. done. }
  apply wp_elim in Hwp as ([ret buf] & w' & Hrun & Hbuf & Herr & uo' & Hp' & Hcases).
  simpl in *. subst buf. by exists ret, w', uo'.
Qed.

(** C5 (amended): on a data chunk of non-negative length, with no output
    descriptor set and a consumer object registered, the bridge returns.  When
    the consumer returns a falsy value it records the pending error
    "Processing canceled by the callback" and returns the abort signal -1, and
    process_file, when the library answers the abort with the unknown-error
    status, fails with that message.  When the consumer raises, the bridge
    records a pending error too and returns -1, the message being that of an
    exception in the handler, not the cancellation.  When the consumer returns
    a truthy value the bridge returns the success signal 0 and records
    nothing. *)
Theorem unrar_callback_process_data `{Headers} (p cb : nat)
    (methods : string → list PyObject → PyCallResult)
    (p1 : list Z) (p2 : Z) (uo : UnrarOperation) (w : World) :
  contexts w !! p = Some uo →
  callback_object uo = Some cb →
  objects w !! cb = Some (ObjInstance methods) →
  output_fd uo ≤ -1 →
  0 ≤ p2 →
  py_error w = None →
  let result := methods _process_data
                  [Py_Bytes (take (Z.to_nat (Z.land p2 0xffffffff)) p1)] in
  (∃ ret w' uo',
     unrar_callback UCM_PROCESSDATA p p1 p2 w = Some ((ret, p1), w') ∧
     contexts w' !! p = Some uo' ∧
     py_error w' = None ∧
     match result with
     | CallRaise _ _ =>
         ret = -1 ∧ has_callback_error uo' = true ∧
         callback_error uo' ≠ canceled_message
     | CallReturn v =>
         (falsy v →
            ret = -1 ∧ has_callback_error uo' = true ∧
            callback_error uo' = canceled_message) ∧
         (truthy v →
            ret = 0 ∧ has_callback_error uo' = has_callback_error uo ∧
            callback_error uo' = callback_error uo)
     end) ∧
  (∀ v c RARProcessFile operation k,
     result = CallReturn v → falsy v →
     objects w !! c = Some (ObjCapsule (Some p) (Some NAME)) →
     RARProcessFile (unrar_data uo) operation
     = NCallback UCM_PROCESSDATA p1 p2 k →
     k (-1, p1) = NReturn ERAR_UNKNOWN →
     ∃ w2,
       process_file RARProcessFile c operation (output_fd uo) w = Some (None, w2) ∧
       py_error w2 = Some (UNRARError, canceled_message)).
Proof.
  intros Hp Hcb Hobj Hfd Hp2 Hclear result. split.
  { destruct (unrar_callback_data_chunk p cb methods p1 p2 uo w)
      as (ret & w' & uo' & Hrun & Hp' & Herr & Hcases); try done.
    exists ret, w', uo'. repeat split; try done. fold result in Hcases.
    destruct result; [done |]. by destruct Hcases as (? & ? & ? & ?). }
  intros v c lib operation k Hres Hfalsy Hc Hlib Hk.
  rewrite (process_file_phases lib c p uo) by done.
  assert (Hnative : wp (process_file_native lib p operation (output_fd uo))
                      (λ r w1, r = ERAR_UNKNOWN ∧
                         ∃ uo1, contexts w1 !! p = Some uo1 ∧
                           has_callback_error uo1 = true ∧
                           callback_error uo1 = canceled_message) w).
  { unfold process_file_native. wp_steps. rewrite Hlib.
    eapply wp_ALLOW_THREADS_exact; [lookup_now |].
    intros st w1 Hc1 Ho1 He1. simpl in *. wp_step.
    destruct (unrar_callback_data_chunk p cb methods p1 p2
                (with_thread_state st (with_output_fd (output_fd uo) uo)) w1)
      as (ret & w' & uo' & Hrun & Hp' & Herr & Hcases); try done.
    { by rewrite Hc1, lookup_insert_eq. }
    { by rewrite Ho1. }
    { by rewrite He1. }
    fold result in Hcases. rewrite Hres in Hcases.
    destruct Hcases as [Hcancel _].
    destruct (Hcancel Hfalsy) as (-> & Hflag & Hmsg).
    eapply wp_intro; [exact Hrun |]. rewrite Hk. simpl. wp_step.
    split; [done |]. by exists uo'. }
  apply wp_elim in Hnative as (r & w1 & Hnative & -> & uo1 & Hp1 & Hflag & Hmsg).
  destruct (process_file_finish_pending p uo1 w1 Hp1 Hflag)
    as (w2 & Hfinish & Herr & _).
  exists w2. unfold mbind, M_bind. rewrite Hnative, Hfinish, Herr, Hmsg. done.
Qed.

Lemma unrar_callback_process_data_witness :
  ∃ w2,
    process_file one_chunk 0 1 (-1) (opened_world (CallReturn Py_None))
    = Some (None, w2) ∧
    py_error w2 = Some (UNRARError, canceled_message).
Proof.
  destruct (unrar_callback_process_data 5 1
              (λ name _, if String.eqb name _process_data
                         then CallReturn Py_None
                         else CallRaise PyExc_AttributeError name)
              [1; 2; 3; 4] 4 opened_context (opened_world (CallReturn Py_None)))
    as [_ Hcancel]; try done.
  apply (Hcancel Py_None 0%nat one_chunk 1
           (λ reply, NReturn (if reply.1 =? 0 then ERAR_SUCCESS else ERAR_UNKNOWN)));
    done.
Defined.

(** C5 as stated fails: when the consumer raises, the pending error the
    bridge records, and process_file then raises, is not "Processing canceled
    by the callback". *)
Lemma unrar_callback_consumer_raises :
  let w := opened_world (CallRaise (PyExc_Other "ValueError") "bad chunk") in
  fst <$> unrar_callback UCM_PROCESSDATA 5 [1; 2; 3; 4] 4 w
  = Some (-1, [1; 2; 3; 4]) ∧
  callback_error <$> context_after (unrar_callback UCM_PROCESSDATA 5 [1; 2; 3; 4] 4 w) 5
  = Some "An exception occurred in the password callback handler" ∧
  error_after (process_file one_chunk 0 1 (-1) w)
  = Some (UNRARError, "An exception occurred in the password callback handler") ∧
  "An exception occurred in the password callback handler" ≠ canceled_message.
Proof. by vm_compute. Qed.

(** C2 fails on the code.  With output descriptor 3 and a chunk of four
    bytes, a write(2) that fails with EIO (errno 5) makes the loop return true:
    the bridge signals success, no pending error is recorded, process_file
    returns None without an error, and nothing has been written.  A write
    interrupted by a signal (EINTR) is not tried again: the loop returns true
    with the next scripted result unused and nothing written.  A short write of
    two bytes is followed by a write of the first two bytes again: the loop
    returns true with 1,2,1,2 in the file where the chunk was 1,2,3,4. *)
Theorem write_all_failure_taken_for_success :
  fst <$> write_all [1; 2; 3; 4] 4 3 (writing_world [(-1, 5)]) = Some true ∧
  fst <$> unrar_callback UCM_PROCESSDATA 5 [1; 2; 3; 4] 4
            (with_contexts (<[5%nat := with_output_fd 3 opened_context]> ∅)
               (writing_world [(-1, 5)]))
  = Some (0, [1; 2; 3; 4]) ∧
  (let run := process_file one_chunk 0 2 3 (writing_world [(-1, 5)]) in
   fst <$> run = Some (Some Py_None) ∧
   error_after run = None ∧
   has_callback_error <$> context_after run 5 = Some false ∧
   file_after run 3 = Some []) ∧
  (let run := process_file one_chunk 0 2 3 (writing_world [(-1, EINTR); (4, 0)]) in
   fst <$> run = Some (Some Py_None) ∧
   write_script <$> (snd <$> run) = Some [(4, 0)] ∧
   file_after run 3 = Some []) ∧
  (let run := process_file one_chunk 0 2 3 (writing_world [(2, 0)]) in
   fst <$> run = Some (Some Py_None) ∧
   file_after run 3 = Some [1; 2; 1; 2]).
Proof. by vm_compute. Qed.

(** * More on the write loop *)

Lemma write_all_loop_false `{Headers} fuel data sz fd w w' :
  write_all_loop fuel data sz fd w = Some (false, w') →
  errno w' ≠ 0 ∧
  ∃ used, write_script w = used ++ (0, errno w') :: write_script w'.
Proof.
  revert sz w. induction fuel as [|fuel IH]; intros sz w; simpl; [done |].
  destruct (0 <? sz); [| done].
  unfold mbind, M_bind, set_errno, update_world, write, get_errno, get_world,
    mret, M_ret. simpl.
  destruct (write_script w) as [|[r e] rest] eqn:Hscript; simpl.
  - rewrite andb_false_r.
    destruct (to_size_t sz >=? sz); [done |].
    destruct (sz <? 0); intros [_ [used Hused]]%IH; by destruct used.
  - destruct (to_size_t r >=? sz); [done |].
    destruct (r <? 0).
    { intros [Herr [used Hused]]%IH. split; [done |].
      exists ((r, e) :: used). simpl in *. by rewrite Hused. }
    destruct (Z.eqb_spec r 0) as [-> | Hr]; simpl.
    + destruct (Z.eqb_spec e 0) as [-> | He]; simpl.
      * intros [Herr [used Hused]]%IH. split; [done |].
        exists ((0, 0) :: used). simpl in *. by rewrite Hused.
      * intros [= <-]. simpl. split; [done |]. by exists [].
    + intros [Herr [used Hused]]%IH. split; [done |].
      exists ((r, e) :: used). simpl in *. by rewrite Hused.
Qed.

(** X1: the write loop reports a failure only after a write(2) that returned
    0 with errno set: when write_all returns false, errno is then that
    non-zero value, and the results used up before it were all taken for
    progress. *)
Theorem write_all_false_only_zero_write `{Headers} (data : list Z) (sz fd : Z)
    (w w' : World) :
  write_all data sz fd w = Some (false, w') →
  errno w' ≠ 0 ∧
  ∃ used, write_script w = used ++ (0, errno w') :: write_script w'.
Proof.
  unfold write_all, mbind, M_bind, get_world. apply write_all_loop_false.
Qed.

Lemma write_all_false_only_zero_write_witness :
  ∃ w', write_all [1; 2; 3; 4] 4 3 (writing_world [(2, 0); (0, 28)])
        = Some (false, w') ∧ errno w' = 28 ∧ write_script w' = [].
Proof.
  pose (w := writing_world [(2, 0); (0, 28)]).
  pose (w' := default w (snd <$> write_all [1; 2; 3; 4] 4 3 w)).
  assert (Hrun : write_all [1; 2; 3; 4] 4 3 w = Some (false, w'))
    by by vm_compute.
  destruct (write_all_false_only_zero_write _ _ _ _ _ Hrun) as [Herr _].
  exists w'. by vm_compute.
Defined.

(** X2: after a short write the loop starts the next write at the start of
    the data again, not where the short write stopped: a short write of [k]
    bytes followed by a complete write leaves the first [k] bytes and then the
    first [sz - k] bytes in the file, and the loop returns true. *)
Theorem write_all_short_write_repeats `{Headers} (data : list Z) (sz fd k e : Z)
    (w : World) :
  0 < k < sz → sz < 2 ^ 63 → write_script w = [(k, e)] →
  write_all data sz fd w
  = Some (true,
          with_os [] 0
            (<[fd := default [] (files w !! fd) ++ take (Z.to_nat k) data
                     ++ take (Z.to_nat (sz - k)) data]> (files w)) w).
Proof.
  intros Hk Hsz Hscript. unfold write_all, mbind, M_bind, get_world.
  rewrite Hscript. simpl.
  rewrite (proj2 (Z.ltb_lt 0 sz)) by lia.
  unfold mbind, M_bind, set_errno, update_world, write, get_errno, get_world,
    mret, M_ret. simpl. rewrite Hscript. simpl.
  rewrite (to_size_t_small k), (to_size_t_small (sz - k)) by lia.
  assert (Hge : (k >=? sz) = false) by (rewrite Z.geb_leb; apply Z.leb_gt; lia).
  rewrite Hge, (proj2 (Z.ltb_ge k 0)), (proj2 (Z.ltb_lt 0 k)),
    (proj2 (Z.eqb_neq k 0)), (proj2 (Z.ltb_lt 0 (sz - k))) by lia.
  simpl. rewrite (to_size_t_small (sz - k)), (proj2 (Z.geb_le _ _)) by lia.
  rewrite lookup_insert_eq, insert_insert_eq. simpl.
  rewrite (proj2 (Z.ltb_lt 0 (sz - k))) by lia.
  by rewrite <- app_assoc.
Qed.

Lemma write_all_short_write_repeats_witness :
  file_after (write_all [1; 2; 3; 4] 4 3 (writing_world [(3, 0)])) 3
  = Some [1; 2; 3; 1].
Proof.
  rewrite (write_all_short_write_repeats [1; 2; 3; 4] 4 3 3 0) by (done || lia).
  by vm_compute.
Defined.

(** * What the bridge does to the context *)

Lemma substring_length_le (n : nat) (s : string) :
  (String.length (String.substring 0 n s) ≤ n)%nat.
Proof.
  revert s. induction n as [|n IH]; intros [|c s]; simpl; try lia.
  specialize (IH s). lia.
Qed.

Lemma snprintf_fits text :
  (String.length (snprintf CALLBACK_ERROR_SZ text) < CALLBACK_ERROR_SZ)%nat.
Proof.
  unfold snprintf, CALLBACK_ERROR_SZ.
  pose proof (substring_length_le (256 - 1) text). simpl in *. lia.
Qed.

Lemma bridge_rel_refl uo : bridge_rel uo uo.
Proof. by repeat split. Qed.

Lemma bridge_rel_thread_state uo0 uo st :
  bridge_rel uo0 uo → bridge_rel uo0 (with_thread_state st uo).
Proof. done. Qed.

Lemma bridge_rel_set_error uo0 uo text :
  bridge_rel uo0 uo →
  bridge_rel uo0 (with_has_callback_error true
                    (with_callback_error (snprintf CALLBACK_ERROR_SZ text) uo)).
Proof.
  intros (Hh & Hcb & Hfd & _ & _ & _). repeat split; simpl; try done.
  intros _. apply snprintf_fits.
Qed.

Lemma bridge_inv_contexts p uo0 w w' :
  bridge_inv p uo0 w → contexts w' = contexts w → bridge_inv p uo0 w'.
Proof. intros (uo & Hp & Hrel) Hc. exists uo. by rewrite Hc. Qed.

Lemma keeps_contexts_PyObject_CallMethod o name args :
  keeps_contexts (PyObject_CallMethod o name args).
Proof.
  intros w. unfold PyObject_CallMethod, mbind, M_bind, get_world. simpl.
  destruct (objects w !! o) as [[| methods |]|];
    try destruct (methods name args); by eexists _, _.
Qed.

Lemma keeps_contexts_PyErr_Occurred : keeps_contexts PyErr_Occurred.
Proof. intros w. by eexists _, _. Qed.

Lemma keeps_contexts_PyErr_Clear : keeps_contexts PyErr_Clear.
Proof. intros w. by eexists _, _. Qed.

Lemma keeps_contexts_PyObject_IsTrue v : keeps_contexts (PyObject_IsTrue v).
Proof. intros w. destruct v as [| | | | | |[b|]]; by eexists _, _. Qed.

Lemma keeps_contexts_unicode_to_wchar v buf sz :
  keeps_contexts (unicode_to_wchar v buf sz).
Proof. intros w. destruct v; by eexists _, _. Qed.

Lemma keeps_contexts_get_errno : keeps_contexts get_errno.
Proof. intros w. by eexists _, _. Qed.

Lemma keeps_contexts_write_all `{Headers} data p2 fd :
  keeps_contexts (write_all data (Z.land p2 0xffffffff) fd).
Proof.
  intros w.
  assert (Hwp : wp (write_all data (Z.land p2 0xffffffff) fd)
                  (λ _ w', contexts w' = contexts w) w).
  { apply wp_write_all; [apply land_mask_range |]. by intros b w' (_ & ? & _). }
  apply wp_elim in Hwp as (b & w' & Hrun & Hc). by exists b, w'.
Qed.

Section bridge_invariant.
Context `{Headers} (p : nat) (uo0 : UnrarOperation).

Lemma wp_keeps_contexts {A} (m : M A) (Q : A → World → Prop) w :
  keeps_contexts m → bridge_inv p uo0 w →
  (∀ a w', bridge_inv p uo0 w' → Q a w') → wp m Q w.
Proof.
  intros Hm Hinv HQ. destruct (Hm w) as (a & w' & Hrun & Hc).
  eapply wp_intro; [exact Hrun |]. by eapply HQ, bridge_inv_contexts.
Qed.

Lemma wp_load_inv (Q : UnrarOperation → World → Prop) w :
  bridge_inv p uo0 w → (∀ uo, Q uo w) → wp (load p) Q w.
Proof. intros (uo & Hp & _) HQ. by eapply wp_load. Qed.

Lemma wp_set_callback_error_inv text (Q : unit → World → Prop) w :
  bridge_inv p uo0 w → (∀ w', bridge_inv p uo0 w' → Q tt w') →
  wp (set_callback_error p text) Q w.
Proof.
  intros (uo & Hp & Hrel) HQ. eapply wp_set_callback_error_exact; [done |].
  intros w' Hc _ _. apply HQ. eexists. rewrite Hc, lookup_insert_eq.
  split; [done |]. by apply bridge_rel_set_error.
Qed.

Lemma wp_ALLOW_THREADS_inv (Q : unit → World → Prop) w :
  bridge_inv p uo0 w → (∀ w', bridge_inv p uo0 w' → Q tt w') →
  wp (ALLOW_THREADS p) Q w.
Proof.
  intros (uo & Hp & Hrel) HQ. eapply wp_ALLOW_THREADS_exact; [done |].
  intros st w' Hc _ _. apply HQ. eexists. rewrite Hc, lookup_insert_eq.
  split; [done |]. by apply bridge_rel_thread_state.
Qed.

Lemma wp_BLOCK_THREADS_inv (Q : unit → World → Prop) w :
  bridge_inv p uo0 w → (∀ w', bridge_inv p uo0 w' → Q tt w') →
  wp (BLOCK_THREADS p) Q w.
Proof.
  intros Hinv HQ. pose proof Hinv as (uo & Hp & Hrel).
  eapply wp_BLOCK_THREADS_exact; [done |].
  intros w' (Hc & _ & _). by eapply HQ, bridge_inv_contexts.
Qed.

Ltac inv_step :=
  lazymatch goal with
  | |- wp (mret _) _ _ => apply wp_ret
  | |- wp (mbind _ _) _ _ => apply wp_bind
  | |- wp (load _) _ _ => apply wp_load_inv; [assumption | intros ?]
  | |- wp (set_callback_error _ _) _ _ =>
      apply wp_set_callback_error_inv; [assumption | intros ? ?]
  | |- wp (ALLOW_THREADS _) _ _ =>
      apply wp_ALLOW_THREADS_inv; [assumption | intros ? ?]
  | |- wp (BLOCK_THREADS _) _ _ =>
      apply wp_BLOCK_THREADS_inv; [assumption | intros ? ?]
  | |- wp (PyObject_CallMethod _ _ _) _ _ =>
      apply wp_keeps_contexts;
        [apply keeps_contexts_PyObject_CallMethod | assumption | intros ? ? ?]
  | |- wp PyErr_Occurred _ _ =>
      apply wp_keeps_contexts;
        [apply keeps_contexts_PyErr_Occurred | assumption | intros ? ? ?]
  | |- wp PyErr_Clear _ _ =>
      apply wp_keeps_contexts;
        [apply keeps_contexts_PyErr_Clear | assumption | intros ? ? ?]
  | |- wp (PyObject_IsTrue _) _ _ =>
      apply wp_keeps_contexts;
        [apply keeps_contexts_PyObject_IsTrue | assumption | intros ? ? ?]
  | |- wp (unicode_to_wchar _ _ _) _ _ =>
      apply wp_keeps_contexts;
        [apply keeps_contexts_unicode_to_wchar | assumption | intros ? ? ?]
  | |- wp get_errno _ _ =>
      apply wp_keeps_contexts;
        [apply keeps_contexts_get_errno | assumption | intros ? ? ?]
  | |- wp (write_all _ _ _) _ _ =>
      apply wp_keeps_contexts;
        [apply keeps_contexts_write_all | assumption | intros ? ? ?]
  | |- wp (if ?b then _ else _) _ _ => destruct b
  | |- wp (match ?x with _ => _ end) _ _ => destruct x
  end.

Ltac inv_done :=
  split; [assumption | repeat case_match; auto].

(** For every message the bridge returns 0 or -1, keeps [bridge_rel] and
    leaves the error indicator clear. *)
Lemma wp_unrar_callback_inv msg p1 p2 (Q : Z * list Z → World → Prop) w :
  bridge_inv p uo0 w →
  (∀ r w', bridge_inv p uo0 w' → r.1 = 0 ∨ r.1 = -1 → py_error w' = None →
           Q r w') →
  wp (unrar_callback msg p p1 p2) Q w.
Proof.
  intros Hinv HQ. unfold unrar_callback.
  do 2 inv_step. inv_step.
  apply wp_mono with (λ r w', bridge_inv p uo0 w' ∧ (r.1 = 0 ∨ r.1 = -1)).
  2: { intros r w' [Hinv' Hret]. wp_steps. by apply HQ. }
  apply (switch_cases (λ body, wp body _ w)).
  - repeat (apply Forall_cons_2; [simpl; repeat inv_step; inv_done |]).
    apply Forall_nil_2.
  - repeat inv_step; inv_done.
Qed.

Lemma wp_run_native_inv {R} (call : NativeCall R) (Q : R → World → Prop) w :
  bridge_inv p uo0 w →
  (∀ r w', bridge_inv p uo0 w' → (py_error w = None → py_error w' = None) →
           Q r w') →
  wp (run_native call p) Q w.
Proof.
  revert w. induction call as [r | msg p1 p2 k IH]; intros w Hinv HQ; simpl.
  - by apply wp_ret, HQ.
  - apply wp_bind, wp_unrar_callback_inv; [done |].
    intros reply w' Hinv' _ Hclear. apply IH; [done |].
    intros r w'' Hinv'' Hkeep. apply HQ; [done |]. intros _. by apply Hkeep.
Qed.
End bridge_invariant.

Lemma keeps_contexts_convert_rar_error `{Headers} code :
  keeps_contexts (convert_rar_error code).
Proof.
  intros w. destruct (convert_rar_error_sets code w) as (ty & msg & Heq).
  by eexists _, _.
Qed.

Lemma wp_read_next_header_inv `{Headers} lib c p uo
    (Q : option PyObject → World → Prop) w :
  live_handle w c p uo →
  native_results (λ r, redir_in_bounds r.2) (lib (unrar_data uo) header_zero) →
  (∀ r w', bridge_inv p uo w' → Q r w') →
  wp (read_next_header lib c) Q w.
Proof.
  intros Hlive Hlib HQ. unfold wp.
  rewrite (read_next_header_phases lib c p uo) by done. fold (wp
    (read_next_header_native lib p ≫= λ '(retval, header),
       BLOCK_THREADS p;;
       switch retval
         [ (ERAR_END_ARCHIVE, mret (Some Py_None));
           (ERAR_SUCCESS, header_to_python header) ]
         (convert_rar_error retval;; mret None)) Q w).
  destruct Hlive as [_ Hp].
  assert (Hinv : bridge_inv p uo w) by (exists uo; split; [done | apply bridge_rel_refl]).
  unfold read_next_header_native. wp_step. wp_step.
  eapply wp_load; [exact Hp |].
  wp_step. apply wp_ALLOW_THREADS_inv with uo; [done |]. intros w1 Hinv1.
  apply wp_results with (λ r, redir_in_bounds r.2);
    [intros r w2; by apply (run_native_results (λ r, redir_in_bounds r.2)) |].
  apply wp_run_native_inv with uo; [done |].
  intros [retval header] w2 Hinv2 _ Hbounds.
  wp_step. apply wp_BLOCK_THREADS_inv with uo; [done |]. intros w3 Hinv3.
  apply (switch_cases (λ body, wp body Q w3)).
  - apply Forall_cons_2; [simpl; by apply wp_ret, HQ |].
    apply Forall_cons_2; [| apply Forall_nil_2].
    apply wp_header_to_python; [done |]. intros r w4 Hw4.
    apply HQ. eapply bridge_inv_contexts; [exact Hinv3 |].
    by destruct Hw4 as [-> | ->].
  - wp_step. apply wp_keeps_contexts with p uo;
      [apply keeps_contexts_convert_rar_error | done |].
    intros [] w4 Hinv4. by apply wp_ret, HQ.
Qed.

Lemma wp_process_file_inv `{Headers} lib c p uo op fd
    (Q : option PyObject → World → Prop) w :
  live_handle w c p uo →
  (∀ r w', bridge_inv p (with_output_fd fd uo) w' → Q r w') →
  wp (process_file lib c op fd) Q w.
Proof.
  intros Hlive HQ. unfold wp.
  rewrite (process_file_phases lib c p uo) by done.
  fold (wp (process_file_native lib p op fd ≫= process_file_finish p) Q w).
  destruct Hlive as [_ Hp].
  unfold process_file_native, process_file_finish.
  wp_step. wp_step. wp_step. cbv beta.
  set (w1 := with_contexts _ w).
  assert (Hinv : bridge_inv p (with_output_fd fd uo) w1).
  { eexists. split; [subst w1; simpl; apply lookup_insert_eq |].
    apply bridge_rel_refl. }
  wp_step. apply wp_load_inv with (with_output_fd fd uo); [done |]. intros o.
  wp_step. apply wp_ALLOW_THREADS_inv with (with_output_fd fd uo); [done |].
  intros w2 Hinv2.
  apply wp_run_native_inv with (with_output_fd fd uo); [done |].
  intros retval w3 Hinv3 _.
  wp_step. apply wp_BLOCK_THREADS_inv with (with_output_fd fd uo); [done |].
  intros w4 Hinv4.
  destruct (retval =? ERAR_SUCCESS); [by apply wp_ret, HQ |].
  wp_step. apply wp_load_inv with (with_output_fd fd uo); [done |]. intros o'.
  wp_step.
  destruct ((retval =? ERAR_UNKNOWN) && has_callback_error o').
  - wp_steps. apply HQ. by eapply bridge_inv_contexts.
  - apply wp_keeps_contexts with p (with_output_fd fd uo);
      [apply keeps_contexts_convert_rar_error | done |].
    intros [] w5 Hinv5. by apply wp_ret, HQ.
Qed.

Lemma wp_and {A} (m : M A) (Q1 Q2 : A → World → Prop) w :
  wp m Q1 w → wp m Q2 w → wp m (λ a w', Q1 a w' ∧ Q2 a w') w.
Proof. unfold wp. by destruct (m w) as [[a w']|]. Qed.

Lemma wp_read_next_header_frame `{Headers} lib c p uo
    (Q : option PyObject → World → Prop) w :
  live_handle w c p uo →
  native_results (λ r, redir_in_bounds r.2) (lib (unrar_data uo) header_zero) →
  (∀ r w', frame p w w' → Q r w') →
  wp (read_next_header lib c) Q w.
Proof.
  intros Hlive Hlib HQ. unfold wp.
  rewrite (read_next_header_phases lib c p uo) by done. fold (wp
    (read_next_header_native lib p ≫= λ '(retval, header),
       BLOCK_THREADS p;;
       switch retval
         [ (ERAR_END_ARCHIVE, mret (Some Py_None));
           (ERAR_SUCCESS, header_to_python header) ]
         (convert_rar_error retval;; mret None)) Q w).
  destruct Hlive as [_ Hp].
  assert (Hf : frame p w w) by by eapply frame_refl.
  unfold read_next_header_native. wp_step. wp_step.
  eapply wp_load; [exact Hp |].
  wp_step. apply wp_ALLOW_THREADS_frame with w; [done |]. intros w1 Hf1.
  apply wp_results with (λ r, redir_in_bounds r.2);
    [intros r w2; by apply (run_native_results (λ r, redir_in_bounds r.2)) |].
  apply wp_run_native_frame with w; [done |].
  intros [retval header] w2 Hf2 _ Hbounds.
  wp_step. apply wp_BLOCK_THREADS_frame with w; [done |]. intros w3 Hf3.
  apply (switch_cases (λ body, wp body Q w3)).
  - apply Forall_cons_2; [simpl; by apply wp_ret, HQ |].
    apply Forall_cons_2; [| apply Forall_nil_2].
    apply wp_header_to_python; [done |]. intros r w4 Hw4.
    apply HQ. destruct Hw4 as [-> | ->]; [done |].
    by apply frame_with_py_error.
  - wp_step. apply wp_convert_rar_error. intros ty msg. by apply wp_ret, HQ.
Qed.

Lemma wp_process_file_frame `{Headers} lib c p uo op fd
    (Q : option PyObject → World → Prop) w :
  live_handle w c p uo →
  (∀ r w', objects w' = objects w → trace w' = trace w → Q r w') →
  wp (process_file lib c op fd) Q w.
Proof.
  intros Hlive HQ. unfold wp.
  rewrite (process_file_phases lib c p uo) by done.
  fold (wp (process_file_native lib p op fd ≫= process_file_finish p) Q w).
  destruct Hlive as [_ Hp].
  apply wp_bind, (wp_process_file_native_frame lib p uo); [done |].
  intros retval w2 Hf2.
  eapply wp_process_file_finish_frame; [exact Hf2 |].
  intros r w' (Ho & Ht & _). by apply HQ.
Qed.

(** X3: for every message, arguments and context the bridge returns, and
    what it returns is 0 or -1; it leaves the host error indicator clear; in
    the context it keeps the native handle, the callback reference and the
    output descriptor, never clears the pending marker, changes the message
    only together with setting the marker, and keeps the message within the
    256-byte buffer. *)
Theorem unrar_callback_contract `{Headers} (msg : Z) (p : nat) (p1 : list Z)
    (p2 : Z) (uo : UnrarOperation) (w : World) :
  contexts w !! p = Some uo →
  ∃ ret buf w' uo',
    unrar_callback msg p p1 p2 w = Some ((ret, buf), w') ∧
    (ret = 0 ∨ ret = -1) ∧
    py_error w' = None ∧
    contexts w' !! p = Some uo' ∧
    unrar_data uo' = unrar_data uo ∧
    callback_object uo' = callback_object uo ∧
    output_fd uo' = output_fd uo ∧
    (has_callback_error uo = true → has_callback_error uo' = true) ∧
    (has_callback_error uo' = false → callback_error uo' = callback_error uo) ∧
    (String.length (callback_error uo) < CALLBACK_ERROR_SZ →
     String.length (callback_error uo') < CALLBACK_ERROR_SZ)%nat.
Proof.
  intros Hp.
  assert (Hwp : wp (unrar_callback msg p p1 p2)
                  (λ r w', (r.1 = 0 ∨ r.1 = -1) ∧ py_error w' = None ∧
                           bridge_inv p uo w') w).
  { apply wp_unrar_callback_inv with uo; [| done].
    exists uo. split; [done | apply bridge_rel_refl]. }
  apply wp_elim in Hwp
    as ([ret buf] & w' & Hrun & Hret & Herr & uo' & Hp' & Hrel).
  destruct Hrel as (? & ? & ? & ? & ? & ?).
  by exists ret, buf, w', uo'.
Qed.

Lemma unrar_callback_contract_witness :
  ∃ ret buf w',
    unrar_callback UCM_NEEDPASSWORD 5 [0; 0] 2 (opened_world (CallReturn Py_None))
    = Some ((ret, buf), w') ∧ (ret = 0 ∨ ret = -1) ∧ py_error w' = None.
Proof.
  destruct (unrar_callback_contract UCM_NEEDPASSWORD 5 [0; 0] 2 opened_context
              (opened_world (CallReturn Py_None)))
    as (ret & buf & w' & uo' & Hrun & Hret & Herr & _); [done |].
  by exists ret, buf, w'.
Defined.

(** X4: read_next_header itself leaves the handle alone.  On a live handle,
    with a library whose headers keep the redirection size within the
    redirection buffer, and with callback methods that are functions of their
    arguments and only return or raise (the model has no others: a callback
    with state, or one that closes the handle, is not covered), the call
    returns and the handle is live with the same native
    handle, callback reference and output descriptor; the pending marker is
    not cleared and the message is changed only by setting the marker;
    nothing is released. *)
Theorem read_next_header_keeps_handle `{Headers}
    (RARReadHeaderEx : Z → RARHeaderDataEx → NativeCall (Z * RARHeaderDataEx))
    (c p : nat) (uo : UnrarOperation) (w : World) :
  live_handle w c p uo →
  native_results (λ r, redir_in_bounds r.2)
    (RARReadHeaderEx (unrar_data uo) header_zero) →
  ∃ r w' uo',
    read_next_header RARReadHeaderEx c w = Some (r, w') ∧
    live_handle w' c p uo' ∧
    unrar_data uo' = unrar_data uo ∧
    callback_object uo' = callback_object uo ∧
    output_fd uo' = output_fd uo ∧
    (has_callback_error uo = true → has_callback_error uo' = true) ∧
    (has_callback_error uo' = false → callback_error uo' = callback_error uo) ∧
    trace w' = trace w.
Proof.
  intros Hlive Hlib.
  assert (Hwp : wp (read_next_header RARReadHeaderEx c)
                  (λ _ w', frame p w w' ∧ bridge_inv p uo w') w).
  { apply wp_and.
    - by apply (wp_read_next_header_frame _ c p uo).
    - by apply (wp_read_next_header_inv _ c p uo). }
  apply wp_elim in Hwp
    as (r & w' & Hrun & (Ho & Ht & _) & uo' & Hp' & Hrel).
  destruct Hrel as (? & ? & ? & ? & ? & ?). destruct Hlive as [Hc Hp].
  exists r, w', uo'. repeat split; try done. by rewrite Ho.
Qed.

Lemma read_next_header_keeps_handle_witness :
  ∃ r w' uo',
    read_next_header at_end 0 (opened_world (CallReturn Py_None)) = Some (r, w') ∧
    live_handle w' 0 5 uo' ∧ output_fd uo' = -1.
Proof.
  destruct (read_next_header_keeps_handle at_end 0 5 opened_context
              (opened_world (CallReturn Py_None)) (opened_world_live _))
    as (r & w' & uo' & Hrun & Hlive & _ & _ & Hfd & _).
  { intros Hpos. by vm_compute in Hpos. }
  by exists r, w', uo'.
Defined.

(** X5: process_file itself never clears the pending marker.  On a live
    handle, whatever the library returns, and with callback methods that are
    functions of their arguments and only return or raise (the model has no
    others: a callback with state, or one that closes the handle, is not
    covered), the call returns, a marker set before the call is
    set after it, the message is changed only together with setting the
    marker and stays within the buffer, and the handle is live. *)
Theorem process_file_keeps_pending_marker `{Headers}
    (RARProcessFile : Z → Z → NativeCall Z)
    (c p : nat) (uo : UnrarOperation) (operation fd : Z) (w : World) :
  live_handle w c p uo →
  ∃ r w' uo',
    process_file RARProcessFile c operation fd w = Some (r, w') ∧
    live_handle w' c p uo' ∧
    (has_callback_error uo = true → has_callback_error uo' = true) ∧
    (has_callback_error uo' = false → callback_error uo' = callback_error uo) ∧
    (String.length (callback_error uo) < CALLBACK_ERROR_SZ →
     String.length (callback_error uo') < CALLBACK_ERROR_SZ)%nat.
Proof.
  intros Hlive.
  assert (Hwp : wp (process_file RARProcessFile c operation fd)
                  (λ _ w', objects w' = objects w ∧
                           bridge_inv p (with_output_fd fd uo) w') w).
  { apply wp_and.
    - by apply (wp_process_file_frame _ c p uo).
    - by apply (wp_process_file_inv _ c p uo). }
  apply wp_elim in Hwp as (r & w' & Hrun & Ho & uo' & Hp' & Hrel).
  destruct Hrel as (? & ? & ? & ? & ? & ?). destruct Hlive as [Hc Hp].
  exists r, w', uo'. repeat split; try done. by rewrite Ho.
Qed.

Lemma process_file_keeps_pending_marker_witness :
  ∃ r w' uo',
    process_file (no_callback ERAR_SUCCESS) 0 1 (-1)
      (with_contexts (<[5%nat := canceled_context]> ∅)
         (opened_world (CallReturn Py_None)))
    = Some (r, w') ∧
    live_handle w' 0 5 uo' ∧ has_callback_error uo' = true.
Proof.
  destruct (process_file_keeps_pending_marker (no_callback ERAR_SUCCESS) 0 5
              canceled_context 1 (-1)
              (with_contexts (<[5%nat := canceled_context]> ∅)
                 (opened_world (CallReturn Py_None))))
    as (r & w' & uo' & Hrun & Hlive & Hflag & _); [by split |].
  exists r, w', uo'. split; [done |]. split; [done |]. by apply Hflag.
Defined.

(** * The bridge, message by message *)

Lemma wp_switch_label {A} code (cases : list (Z * M A)) default body
    (Q : A → World → Prop) (w : World) :
  NoDup cases.*1 → (code, body) ∈ cases → wp body Q w →
  wp (switch code cases default) Q w.
Proof. intros Hnd Hin Hwp. by rewrite (switch_label code cases default body). Qed.

Lemma set_callback_error_eq p text uo w :
  contexts w !! p = Some uo →
  set_callback_error p text w = Some (tt, record_error p text uo w).
Proof.
  intros Hp. apply wp_eq. unfold set_callback_error. wp_steps.
  unfold record_error, with_pending, with_contexts. simpl.
  by rewrite insert_insert_eq.
Qed.

Lemma wp_set_callback_error p text uo (Q : unit → World → Prop) w :
  contexts w !! p = Some uo → Q tt (record_error p text uo w) →
  wp (set_callback_error p text) Q w.
Proof. intros Hp HQ. eapply wp_intro; [by apply set_callback_error_eq | done]. Qed.

(** Into the switch of the bridge. *)
Ltac bridge_switch Hp :=
  unfold unrar_callback; wp_step; eapply wp_load; [exact Hp |];
  cbv beta zeta; wp_step.

(** X6: on a volume-change message the bridge answers 0 when the library
    only notifies of the next volume, and otherwise records "Could not find
    next part of a multi-part archive" and answers -1; nothing else changes
    but the error indicator, which is cleared. *)
Theorem unrar_callback_change_volume `{Headers} (msg : Z) (p : nat)
    (p1 : list Z) (p2 : Z) (uo : UnrarOperation) (w : World) :
  contexts w !! p = Some uo →
  msg = UCM_CHANGEVOLUME ∨ msg = UCM_CHANGEVOLUMEW →
  unrar_callback msg p p1 p2 w
  = Some (if p2 =? RAR_VOL_NOTIFY then ((0, p1), with_py_error None w)
          else ((-1, p1),
                with_py_error None
                  (record_error p
                     "Could not find next part of a multi-part archive" uo w))).
Proof.
  intros Hp Hmsg. apply wp_eq. bridge_switch Hp.
  eapply wp_switch_label; [apply ucm_labels_distinct | |].
  - destruct Hmsg as [-> | ->];
      [apply list_elem_of_here
      | apply list_elem_of_further, list_elem_of_here].
  - simpl. destruct (p2 =? RAR_VOL_NOTIFY); wp_steps; [done |].
    eapply wp_set_callback_error; [done |]. by wp_steps.
Qed.

Lemma unrar_callback_change_volume_witness :
  callback_error <$>
    context_after (unrar_callback UCM_CHANGEVOLUMEW 5 [] 0
                     (opened_world (CallReturn Py_None))) 5
  = Some "Could not find next part of a multi-part archive".
Proof.
  rewrite (unrar_callback_change_volume UCM_CHANGEVOLUMEW 5 [] 0 opened_context)
    by (done || by right).
  by vm_compute.
Defined.

(** X7: the legacy password request, and every message that is none of the
    five the switch names, is answered -1 with nothing recorded: the world is
    as before but for the error indicator, which is cleared. *)
Theorem unrar_callback_not_handled `{Headers} (msg : Z) (p : nat)
    (p1 : list Z) (p2 : Z) (uo : UnrarOperation) (w : World) :
  contexts w !! p = Some uo →
  msg = UCM_NEEDPASSWORD ∨ msg ∉ ucm_labels →
  unrar_callback msg p p1 p2 w = Some ((-1, p1), with_py_error None w).
Proof.
  intros Hp Hmsg. apply wp_eq. bridge_switch Hp.
  destruct Hmsg as [-> | Hnot].
  - eapply wp_switch_label; [apply ucm_labels_distinct | |].
    + do 2 apply list_elem_of_further. apply list_elem_of_here.
    + by wp_steps.
  - rewrite switch_default by exact Hnot. by wp_steps.
Qed.

Lemma unrar_callback_not_handled_witness :
  unrar_callback 99 5 [7] 1 (opened_world (CallReturn Py_None))
  = Some ((-1, [7]), with_py_error None (opened_world (CallReturn Py_None))).
Proof.
  apply (unrar_callback_not_handled 99 5 [7] 1 opened_context); [done |].
  right. by apply (bool_decide_unpack _).
Defined.

(** X8: a password request with a buffer length that is not positive, and a
    data chunk with a negative length, are refused whatever the callback
    object and the output descriptor are: the bridge records the invalid
    length in the pending error and answers -1, and but for that and the
    error indicator, which is cleared, the world is as before: the buffer is
    as it was and no byte is written. *)
Theorem unrar_callback_invalid_length `{Headers} (p : nat) (p1 : list Z)
    (p2 : Z) (uo : UnrarOperation) (w : World) :
  contexts w !! p = Some uo →
  (p2 ≤ 0 →
   unrar_callback UCM_NEEDPASSWORDW p p1 p2 w
   = Some ((-1, p1),
           with_py_error None
             (record_error p
                ("Invalid password buffer length sent to callback: "
                 +:+ pretty p2) uo w))) ∧
  (p2 < 0 →
   unrar_callback UCM_PROCESSDATA p p1 p2 w
   = Some ((-1, p1),
           with_py_error None
             (record_error p
                ("Invalid buffer length sent to callback: " +:+ pretty p2)
                uo w))).
Proof.
  intros Hp. split; intros Hp2; apply wp_eq; bridge_switch Hp.
  - eapply wp_switch_label; [apply ucm_labels_distinct | |].
    + do 3 apply list_elem_of_further. apply list_elem_of_here.
    + simpl. rewrite (proj2 (Z.leb_le p2 0)) by done. wp_step.
      eapply wp_set_callback_error; [done |]. by wp_steps.
  - eapply wp_switch_label; [apply ucm_labels_distinct | |].
    + do 4 apply list_elem_of_further. apply list_elem_of_here.
    + simpl. rewrite (proj2 (Z.ltb_lt p2 0)) by done. wp_step.
      eapply wp_set_callback_error; [done |]. by wp_steps.
Qed.

Lemma unrar_callback_invalid_length_witness :
  callback_error <$>
    context_after (unrar_callback UCM_PROCESSDATA 5 [] (-3)
                     (opened_world (CallReturn Py_None))) 5
  = Some "Invalid buffer length sent to callback: -3".
Proof.
  destruct (unrar_callback_invalid_length 5 [] (-3) opened_context
              (opened_world (CallReturn Py_None))) as [_ Hdata]; [done |].
  rewrite Hdata by lia. by vm_compute.
Defined.

(** X9: with no callback object in the context, a password request of
    positive length and a data chunk of non-negative length are answered -1
    with "No callback provided" recorded, also when an output descriptor is
    set: nothing is written to it. *)
Theorem unrar_callback_no_callback `{Headers} (msg : Z) (p : nat)
    (p1 : list Z) (p2 : Z) (uo : UnrarOperation) (w : World) :
  contexts w !! p = Some uo →
  callback_object uo = None →
  (msg = UCM_NEEDPASSWORDW ∧ 0 < p2) ∨ (msg = UCM_PROCESSDATA ∧ 0 ≤ p2) →
  unrar_callback msg p p1 p2 w
  = Some ((-1, p1),
          with_py_error None (record_error p "No callback provided" uo w)).
Proof.
  intros Hp Hcb Hmsg. apply wp_eq. bridge_switch Hp.
  destruct Hmsg as [[-> Hp2] | [-> Hp2]].
  - eapply wp_switch_label; [apply ucm_labels_distinct | |].
    + do 3 apply list_elem_of_further. apply list_elem_of_here.
    + simpl. rewrite (proj2 (Z.leb_gt p2 0)), Hcb by done. wp_step.
      eapply wp_set_callback_error; [done |]. by wp_steps.
  - eapply wp_switch_label; [apply ucm_labels_distinct | |].
    + do 4 apply list_elem_of_further. apply list_elem_of_here.
    + simpl. rewrite (proj2 (Z.ltb_ge p2 0)), Hcb by done. wp_step.
      eapply wp_set_callback_error; [done |]. by wp_steps.
Qed.

Lemma unrar_callback_no_callback_witness :
  let w := with_contexts
             (<[5%nat := mkUnrarOperation 77 None PyGILState_LOCKED false "" 3]> ∅)
             (opened_world (CallReturn Py_None)) in
  fst <$> unrar_callback UCM_PROCESSDATA 5 [1; 2] 2 w = Some (-1, [1; 2]) ∧
  file_after (unrar_callback UCM_PROCESSDATA 5 [1; 2] 2 w) 3 = Some [].
Proof.
  intros w.
  rewrite (unrar_callback_no_callback UCM_PROCESSDATA 5 [1; 2] 2
             (mkUnrarOperation 77 None PyGILState_LOCKED false "" 3) w)
    by (done || (right; done)).
  by vm_compute.
Defined.

Lemma land_mask_small p2 : 0 ≤ p2 < 2 ^ 32 → Z.land p2 0xffffffff = p2.
Proof.
  intros Hp2. change 0xffffffff with (Z.ones 32).
  rewrite Z.land_ones by lia. by apply Z.mod_small.
Qed.

(** X10: when the password provider returns a non-empty text, the bridge
    copies it into the library's buffer and answers 0, recording nothing.  A
    text shorter than the buffer is stored with its terminator; a text that
    does not fit is cut to the buffer length, without terminator, and the
    answer is 0 all the same. *)
Theorem unrar_callback_password_text `{Headers} (p cb : nat)
    (methods : string → list PyObject → PyCallResult) (s p1 : list Z) (p2 : Z)
    (uo : UnrarOperation) (w : World) :
  contexts w !! p = Some uo →
  callback_object uo = Some cb →
  objects w !! cb = Some (ObjInstance methods) →
  methods _get_password [] = CallReturn (Py_Unicode s) →
  s ≠ [] →
  0 < p2 < 2 ^ 32 →
  py_error w = None →
  ∃ buf w' uo',
    unrar_callback UCM_NEEDPASSWORDW p p1 p2 w = Some ((0, buf), w') ∧
    contexts w' !! p = Some uo' ∧
    py_error w' = None ∧
    has_callback_error uo' = has_callback_error uo ∧
    callback_error uo' = callback_error uo ∧
    (Z.of_nat (length s) < p2 → take (S (length s)) buf = s ++ [0]) ∧
    (p2 ≤ Z.of_nat (length s) →
     take (Z.to_nat p2) buf = take (Z.to_nat p2) s).
Proof.
  intros Hp Hcb Hobj Hpw Hs Hp2 Hclear.
  set (buf := (PyUnicode_AsWideChar s p1 p2).2).
  assert (Hwp : wp (unrar_callback UCM_NEEDPASSWORDW p p1 p2)
                  (λ r w', r = (0, buf) ∧ py_error w' = None ∧
                     ∃ uo', contexts w' !! p = Some uo' ∧
                       has_callback_error uo' = has_callback_error uo ∧
                       callback_error uo' = callback_error uo) w).
  { bridge_switch Hp.
    eapply wp_switch_label; [apply ucm_labels_distinct | |].
    { do 3 apply list_elem_of_further. apply list_elem_of_here. }
    simpl. rewrite (proj2 (Z.leb_gt p2 0)), Hcb, land_mask_small by lia.
    wp_step. eapply wp_BLOCK_THREADS_exact; [done |].
    intros w1 (Hc1 & Ho1 & He1).
    unfold PyObject_CallMethod, PyErr_Occurred. wp_steps.
    rewrite Ho1, Hobj, Hpw. wp_steps. rewrite He1, Hclear. simpl. wp_steps.
    unfold PyUnicode_AsWideChar.
    assert (Hsz : (0 <? Z.min (Z.of_nat (length s)) p2) = true).
    { apply Z.ltb_lt. destruct s; [done |]. simpl. lia. }
    rewrite Hsz. wp_steps.
    eapply wp_ALLOW_THREADS_exact; [simpl; by rewrite Hc1 |].
    intros st w2 Hc2 _ He2. wp_steps.
    split; [done |]. split; [done |]. eexists.
    split; [by rewrite Hc2, lookup_insert_eq | done]. }
  apply wp_elim in Hwp as (r & w' & Hrun & -> & Herr & uo' & Hp' & Hflag & Hmsg).
  exists buf, w', uo'. repeat split; try done.
  - intros Hfits. subst buf. unfold PyUnicode_AsWideChar. simpl.
    rewrite (take_ge (s ++ [0])) by (rewrite length_app; simpl; lia).
    rewrite take_app_length'; [done |]. rewrite length_app. simpl. lia.
  - intros Hcut. subst buf. unfold PyUnicode_AsWideChar. simpl.
    rewrite (take_app_le s [0]) by lia.
    rewrite take_app_length'; [done |]. rewrite length_take. lia.
Qed.

(** A password provider: an instance whose _get_password does [r]. *)
Lemma unrar_callback_password_text_witness :
  ∃ buf w',
    unrar_callback UCM_NEEDPASSWORDW 5 [9; 9; 9] 3
      (with_objects (<[1%nat := ObjInstance (λ _ _, CallReturn (Py_Unicode [115; 101; 99; 114]))]>
                       (objects (opened_world (CallReturn Py_None))))
         (opened_world (CallReturn Py_None)))
    = Some ((0, buf), w') ∧
    take 3 buf = [115; 101; 99].
Proof.
  destruct (unrar_callback_password_text 5 1
              (λ _ _, CallReturn (Py_Unicode [115; 101; 99; 114]))
              [115; 101; 99; 114] [9; 9; 9] 3 opened_context
              (with_objects (<[1%nat := ObjInstance (λ _ _, CallReturn (Py_Unicode [115; 101; 99; 114]))]>
                               (objects (opened_world (CallReturn Py_None))))
                 (opened_world (CallReturn Py_None))))
    as (buf & w' & uo' & Hrun & _ & _ & _ & _ & _ & Hcut); try done.
  exists buf, w'. split; [done |]. apply Hcut. simpl. lia.
Defined.

(** X11: when the password provider returns None the bridge answers -1 and
    records no pending error: the marker and the message are as before. *)
Theorem unrar_callback_password_none `{Headers} (p cb : nat)
    (methods : string → list PyObject → PyCallResult) (p1 : list Z) (p2 : Z)
    (uo : UnrarOperation) (w : World) :
  contexts w !! p = Some uo →
  callback_object uo = Some cb →
  objects w !! cb = Some (ObjInstance methods) →
  methods _get_password [] = CallReturn Py_None →
  0 < p2 →
  py_error w = None →
  ∃ w' uo',
    unrar_callback UCM_NEEDPASSWORDW p p1 p2 w = Some ((-1, p1), w') ∧
    contexts w' !! p = Some uo' ∧
    py_error w' = None ∧
    has_callback_error uo' = has_callback_error uo ∧
    callback_error uo' = callback_error uo.
Proof.
  intros Hp Hcb Hobj Hpw Hp2 Hclear.
  assert (Hwp : wp (unrar_callback UCM_NEEDPASSWORDW p p1 p2)
                  (λ r w', r = (-1, p1) ∧ py_error w' = None ∧
                     ∃ uo', contexts w' !! p = Some uo' ∧
                       has_callback_error uo' = has_callback_error uo ∧
                       callback_error uo' = callback_error uo) w).
  { bridge_switch Hp.
    eapply wp_switch_label; [apply ucm_labels_distinct | |].
    { do 3 apply list_elem_of_further. apply list_elem_of_here. }
    simpl. rewrite (proj2 (Z.leb_gt p2 0)), Hcb by lia.
    wp_step. eapply wp_BLOCK_THREADS_exact; [done |].
    intros w1 (Hc1 & Ho1 & He1).
    unfold PyObject_CallMethod, PyErr_Occurred. wp_steps.
    rewrite Ho1, Hobj, Hpw. wp_steps. rewrite He1, Hclear. simpl. wp_steps.
    eapply wp_ALLOW_THREADS_exact; [simpl; by rewrite Hc1 |].
    intros st w2 Hc2 _ He2. wp_steps.
    split; [done |]. split; [done |]. eexists.
    split; [by rewrite Hc2, lookup_insert_eq | done]. }
  apply wp_elim in Hwp as (r & w' & Hrun & -> & Herr & uo' & Hp' & Hflag & Hmsg).
  by exists w', uo'.
Qed.

Lemma unrar_callback_password_none_witness :
  ∃ w' uo',
    unrar_callback UCM_NEEDPASSWORDW 5 [9; 9; 9] 3
      (with_objects (<[1%nat := ObjInstance (λ _ _, CallReturn Py_None)]>
                       (objects (opened_world (CallReturn Py_None))))
         (opened_world (CallReturn Py_None)))
    = Some ((-1, [9; 9; 9]), w') ∧
    contexts w' !! 5%nat = Some uo' ∧
    has_callback_error uo' = false.
Proof.
  destruct (unrar_callback_password_none 5 1 (λ _ _, CallReturn Py_None)
              [9; 9; 9] 3 opened_context
              (with_objects (<[1%nat := ObjInstance (λ _ _, CallReturn Py_None)]>
                               (objects (opened_world (CallReturn Py_None))))
                 (opened_world (CallReturn Py_None))))
    as (w' & uo' & Hrun & Hp & _ & Hflag & _); try done.
  by exists w', uo'.
Defined.

(** X12: when calling the password provider raises (the object has no such
    method, or the method raises), the bridge records "An exception occurred
    in the password callback handler", answers -1 and clears the host error
    indicator, so that the exception itself is not seen by the caller. *)
Theorem unrar_callback_password_raises `{Headers} (p cb : nat) (p1 : list Z)
    (p2 : Z) (uo : UnrarOperation) (w : World) :
  contexts w !! p = Some uo →
  callback_object uo = Some cb →
  match objects w !! cb with
  | Some (ObjInstance methods) =>
      ∃ ty msg, methods _get_password [] = CallRaise ty msg
  | _ => True
  end →
  0 < p2 →
  ∃ w' st,
    unrar_callback UCM_NEEDPASSWORDW p p1 p2 w = Some ((-1, p1), w') ∧
    contexts w' !! p
    = Some (with_thread_state st
              (with_pending
                 "An exception occurred in the password callback handler" uo)) ∧
    py_error w' = None.
Proof.
  intros Hp Hcb Hraise Hp2.
  assert (Hwp : wp (unrar_callback UCM_NEEDPASSWORDW p p1 p2)
                  (λ r w', r = (-1, p1) ∧ py_error w' = None ∧
                     ∃ st, contexts w' !! p
                           = Some (with_thread_state st
                                     (with_pending
                                        "An exception occurred in the password callback handler"
                                        uo))) w).
  { bridge_switch Hp.
    eapply wp_switch_label; [apply ucm_labels_distinct | |].
    { do 3 apply list_elem_of_further. apply list_elem_of_here. }
    simpl. rewrite (proj2 (Z.leb_gt p2 0)), Hcb by lia.
    wp_step. eapply wp_BLOCK_THREADS_exact; [done |].
    intros w1 (Hc1 & Ho1 & He1).
    assert (Hcall : wp (PyObject_CallMethod cb _get_password [])
                      (λ pw w2, pw = None ∧ is_Some (py_error w2) ∧
                                contexts w2 = contexts w) w1).
    { unfold PyObject_CallMethod. wp_steps. rewrite Ho1.
      destruct (objects w !! cb) as [[| methods |]|];
        try destruct Hraise as (ty & msg & ->); by wp_steps. }
    wp_step. eapply wp_mono; [exact Hcall |].
    intros pw w2 (-> & Herr2 & Hc2). unfold PyErr_Occurred. wp_steps.
    rewrite bool_decide_eq_true_2 by done.
    eapply wp_set_callback_error; [by rewrite Hc2 |]. wp_steps.
    eapply wp_ALLOW_THREADS_exact; [simpl; apply lookup_insert_eq |].
    intros st w3 Hc3 _ _. wp_steps.
    split; [done |]. split; [done |]. exists st.
    by rewrite Hc3, lookup_insert_eq. }
  apply wp_elim in Hwp as (r & w' & Hrun & -> & Herr & st & Hp').
  by exists w', st.
Qed.

Lemma unrar_callback_password_raises_witness :
  callback_error <$>
    context_after (unrar_callback UCM_NEEDPASSWORDW 5 [9; 9; 9] 3
                     (opened_world (CallReturn Py_None))) 5
  = Some "An exception occurred in the password callback handler".
Proof.
  destruct (unrar_callback_password_raises 5 1 [9; 9; 9] 3 opened_context
              (opened_world (CallReturn Py_None)))
    as (w' & st & Hrun & Hp & _);
    [done | done | simpl; by eexists _, _ | done |].
  rewrite Hrun. simpl. by rewrite Hp.
Defined.

(** X13: when the password provider returns something that is neither None
    nor a non-empty text (an empty text, a number, bytes), the bridge records
    "The password callback handler did not return a unicode object" and
    answers -1. *)
Theorem unrar_callback_password_not_text `{Headers} (p cb : nat)
    (methods : string → list PyObject → PyCallResult) (v : PyObject)
    (p1 : list Z) (p2 : Z) (uo : UnrarOperation) (w : World) :
  contexts w !! p = Some uo →
  callback_object uo = Some cb →
  objects w !! cb = Some (ObjInstance methods) →
  methods _get_password [] = CallReturn v →
  v ≠ Py_None →
  (∀ s, v = Py_Unicode s → s = []) →
  0 < p2 →
  py_error w = None →
  ∃ buf w' st,
    unrar_callback UCM_NEEDPASSWORDW p p1 p2 w = Some ((-1, buf), w') ∧
    contexts w' !! p
    = Some (with_thread_state st
              (with_pending
                 "The password callback handler did not return a unicode object"
                 uo)) ∧
    py_error w' = None.
Proof.
  intros Hp Hcb Hobj Hpw Hnone Htext Hp2 Hclear.
  assert (Hwp : wp (unrar_callback UCM_NEEDPASSWORDW p p1 p2)
                  (λ r w', r.1 = -1 ∧ py_error w' = None ∧
                     ∃ st, contexts w' !! p
                           = Some (with_thread_state st
                                     (with_pending
                                        "The password callback handler did not return a unicode object"
                                        uo))) w).
  { bridge_switch Hp.
    eapply wp_switch_label; [apply ucm_labels_distinct | |].
    { do 3 apply list_elem_of_further. apply list_elem_of_here. }
    simpl. rewrite (proj2 (Z.leb_gt p2 0)), Hcb by lia.
    wp_step. eapply wp_BLOCK_THREADS_exact; [done |].
    intros w1 (Hc1 & Ho1 & He1).
    unfold PyObject_CallMethod, PyErr_Occurred. wp_steps.
    rewrite Ho1, Hobj, Hpw. wp_steps. rewrite He1, Hclear. simpl. wp_steps.
    assert (Hconv : wp (unicode_to_wchar v p1 (Z.land p2 0xffffffff))
                      (λ r w2, r.1 ≤ 0 ∧ contexts w2 = contexts w) w1).
    { destruct v as [| | |s| | |]; simpl; wp_steps; try done.
      rewrite (Htext s eq_refl). simpl.
      split; [| done]. apply Z.le_min_l. }
    destruct v as [| | | | | |]; [done | | | | | |];
      (simpl; wp_step; eapply wp_mono; [exact Hconv |];
       intros [sz buf] w2 [Hsz Hc2]; simpl in Hsz;
       rewrite (proj2 (Z.ltb_ge 0 sz)) by done; wp_step;
       eapply wp_set_callback_error; [by rewrite Hc2 |]; wp_steps;
       eapply wp_ALLOW_THREADS_exact; [simpl; apply lookup_insert_eq |];
       intros st w3 Hc3 _ _; wp_steps;
       split; [done |]; split; [done |]; exists st;
       by rewrite Hc3, lookup_insert_eq). }
  apply wp_elim in Hwp as ([ret buf] & w' & Hrun & Hret & Herr & st & Hp').
  simpl in Hret. subst ret. by exists buf, w', st.
Qed.

Lemma unrar_callback_password_not_text_witness :
  ∃ buf w' st,
    unrar_callback UCM_NEEDPASSWORDW 5 [9; 9; 9] 3
      (with_objects (<[1%nat := ObjInstance (λ _ _, CallReturn (Py_Unicode []))]>
                       (objects (opened_world (CallReturn Py_None))))
         (opened_world (CallReturn Py_None)))
    = Some ((-1, buf), w') ∧
    contexts w' !! 5%nat
    = Some (with_thread_state st
              (with_pending
                 "The password callback handler did not return a unicode object"
                 opened_context)).
Proof.
  destruct (unrar_callback_password_not_text 5 1
              (λ _ _, CallReturn (Py_Unicode [])) (Py_Unicode [])
              [9; 9; 9] 3 opened_context
              (with_objects (<[1%nat := ObjInstance (λ _ _, CallReturn (Py_Unicode []))]>
                               (objects (opened_world (CallReturn Py_None))))
                 (opened_world (CallReturn Py_None))))
    as (buf & w' & st & Hrun & Hp & _);
    [done | done | done | done | done | by intros s [= <-] | done | done |].
  by exists buf, w', st.
Defined.

(** * The bridge writing to the output descriptor *)

Lemma write_all_script_empty `{Headers} data sz fd w :
  0 ≤ sz < 2 ^ 64 → write_script w = [] →
  write_all data sz fd w
  = Some (true,
          if 0 <? sz
          then with_os [] 0
                 (<[fd := default [] (files w !! fd) ++ take (Z.to_nat sz) data]>
                    (files w)) w
          else w).
Proof.
  intros Hsz Hscript. unfold write_all, mbind, M_bind, get_world.
  rewrite Hscript. simpl. destruct (Z.ltb_spec 0 sz) as [Hpos | _]; [| done].
  unfold mbind, M_bind, set_errno, update_world, write, get_errno, get_world,
    mret, M_ret. simpl. rewrite Hscript. simpl.
  rewrite to_size_t_small, (proj2 (Z.geb_le sz sz)), (proj2 (Z.ltb_lt 0 sz))
    by lia.
  done.
Qed.

Lemma write_all_zero_write `{Headers} data sz fd e rest w :
  0 < sz < 2 ^ 64 → e ≠ 0 → write_script w = (0, e) :: rest →
  write_all data sz fd w = Some (false, with_os rest e (files w) w).
Proof.
  intros Hsz He Hscript. unfold write_all, mbind, M_bind, get_world. simpl.
  rewrite (proj2 (Z.ltb_lt 0 sz)) by lia.
  unfold mbind, M_bind, set_errno, update_world, write, get_errno, get_world,
    mret, M_ret. simpl. rewrite Hscript. simpl.
  assert (Hge : (to_size_t 0 >=? sz) = false).
  { rewrite Z.geb_leb. apply Z.leb_gt. rewrite to_size_t_small; lia. }
  by rewrite Hge, (proj2 (Z.eqb_neq e 0)).
Qed.

(** X14: with an output descriptor set and the operating system completing
    every write, a data chunk is appended to the file of the descriptor, whole
    and once, and the bridge answers 0; this is so whatever the consumer
    object is and whatever its method would return or raise.  An empty chunk
    leaves the files as they are. *)
Theorem unrar_callback_writes_chunk `{Headers} (p cb : nat) (p1 : list Z)
    (p2 : Z) (uo : UnrarOperation) (w : World) :
  contexts w !! p = Some uo →
  callback_object uo = Some cb →
  -1 < output_fd uo →
  0 ≤ p2 < 2 ^ 32 →
  write_script w = [] →
  unrar_callback UCM_PROCESSDATA p p1 p2 w
  = Some ((0, p1),
          with_py_error None
            (if 0 <? p2
             then with_os [] 0
                    (<[output_fd uo :=
                         default [] (files w !! output_fd uo)
                         ++ take (Z.to_nat p2) p1]> (files w)) w
             else w)).
Proof.
  intros Hp Hcb Hfd Hp2 Hscript. apply wp_eq. bridge_switch Hp.
  eapply wp_switch_label; [apply ucm_labels_distinct | |].
  { do 4 apply list_elem_of_further. apply list_elem_of_here. }
  simpl. rewrite (proj2 (Z.ltb_ge p2 0)), Hcb, (proj2 (Z.ltb_lt _ _) Hfd),
    land_mask_small by lia.
  wp_step. eapply wp_intro; [apply write_all_script_empty; [lia | done] |].
  by wp_steps.
Qed.

Lemma unrar_callback_writes_chunk_witness :
  file_after
    (unrar_callback UCM_PROCESSDATA 5 [1; 2; 3; 4] 3
       (with_contexts (<[5%nat := with_output_fd 3 opened_context]> ∅)
          (opened_world (CallReturn Py_None)))) 3
  = Some [1; 2; 3].
Proof.
  rewrite (unrar_callback_writes_chunk 5 1 [1; 2; 3; 4] 3
             (with_output_fd 3 opened_context)) by (done || lia).
  by vm_compute.
Defined.

(** X15: with an output descriptor set, a write(2) that fails (returns a
    negative value, whatever errno says) is taken for a complete write: the
    bridge answers 0, records no pending error and writes nothing. *)
Theorem unrar_callback_failed_write_ignored `{Headers} (p cb : nat)
    (p1 : list Z) (p2 r e : Z) (rest : list (Z * Z)) (uo : UnrarOperation)
    (w : World) :
  contexts w !! p = Some uo →
  callback_object uo = Some cb →
  -1 < output_fd uo →
  0 < p2 < 2 ^ 32 →
  - 2 ^ 63 ≤ r < 0 →
  write_script w = (r, e) :: rest →
  unrar_callback UCM_PROCESSDATA p p1 p2 w
  = Some ((0, p1), with_py_error None (with_os rest e (files w) w)).
Proof.
  intros Hp Hcb Hfd Hp2 Hr Hscript. apply wp_eq. bridge_switch Hp.
  eapply wp_switch_label; [apply ucm_labels_distinct | |].
  { do 4 apply list_elem_of_further. apply list_elem_of_here. }
  simpl. rewrite (proj2 (Z.ltb_ge p2 0)), Hcb, (proj2 (Z.ltb_lt _ _) Hfd),
    land_mask_small by lia.
  wp_step.
  eapply wp_intro; [apply (write_all_negative_result _ _ _ r e rest); [lia | done | done] |].
  by wp_steps.
Qed.

Lemma unrar_callback_failed_write_ignored_witness :
  let w := with_contexts (<[5%nat := with_output_fd 3 opened_context]> ∅)
             (writing_world [(-1, 28)]) in
  unrar_callback UCM_PROCESSDATA 5 [1; 2; 3; 4] 4 w
  = Some ((0, [1; 2; 3; 4]), with_py_error None (with_os [] 28 (files w) w)).
Proof.
  intros w.
  apply (unrar_callback_failed_write_ignored 5 1 [1; 2; 3; 4] 4 (-1) 28 []
           (with_output_fd 3 opened_context)); (done || lia).
Defined.

(** X16: with an output descriptor set, a write(2) that returns 0 with errno
    set makes the bridge record "Failed to write all bytes to output file.
    Error: " followed by the text of that errno, and answer -1. *)
Theorem unrar_callback_zero_write_fails `{Headers} (p cb : nat)
    (p1 : list Z) (p2 e : Z) (rest : list (Z * Z)) (uo : UnrarOperation)
    (w : World) :
  contexts w !! p = Some uo →
  callback_object uo = Some cb →
  -1 < output_fd uo →
  0 < p2 < 2 ^ 32 →
  e ≠ 0 →
  write_script w = (0, e) :: rest →
  unrar_callback UCM_PROCESSDATA p p1 p2 w
  = Some ((-1, p1),
          with_py_error None
            (record_error p
               ("Failed to write all bytes to output file. Error: "
                +:+ strerror e) uo
               (with_os rest e (files w) w))).
Proof.
  intros Hp Hcb Hfd Hp2 He Hscript. apply wp_eq. bridge_switch Hp.
  eapply wp_switch_label; [apply ucm_labels_distinct | |].
  { do 4 apply list_elem_of_further. apply list_elem_of_here. }
  simpl. rewrite (proj2 (Z.ltb_ge p2 0)), Hcb, (proj2 (Z.ltb_lt _ _) Hfd),
    land_mask_small by lia.
  wp_step.
  eapply wp_intro; [apply (write_all_zero_write _ _ _ e rest); [lia | done | done] |].
  unfold get_errno. wp_steps.
  eapply wp_set_callback_error; [done |]. by wp_steps.
Qed.

Lemma unrar_callback_zero_write_fails_witness :
  callback_error <$>
    context_after
      (unrar_callback UCM_PROCESSDATA 5 [1; 2; 3; 4] 4
         (with_contexts (<[5%nat := with_output_fd 3 opened_context]> ∅)
            (writing_world [(0, 28)]))) 5
  = Some "Failed to write all bytes to output file. Error: errno 28".
Proof.
  rewrite (unrar_callback_zero_write_fails 5 1 [1; 2; 3; 4] 4 28 []
             (with_output_fd 3 opened_context)) by (done || lia).
  by vm_compute.
Defined.

(** * Opening an archive *)

Lemma delete_fresh_frame p (m m2 : gmap nat UnrarOperation) uo :
  m !! p = None →
  (∀ q, q ≠ p → m2 !! q = (<[p := uo]> m) !! q) →
  delete p m2 = m.
Proof.
  intros Hfresh Hq. apply map_eq. intros q.
  destruct (decide (q = p)) as [-> | Hne].
  - by rewrite lookup_delete_eq.
  - by rewrite lookup_delete_ne, Hq, lookup_insert_ne.
Qed.

Lemma insert_fresh_frame p (m m2 : gmap nat UnrarOperation) uo uo2 :
  (∀ q, q ≠ p → m2 !! q = (<[p := uo]> m) !! q) →
  <[p := uo2]> m2 = <[p := uo2]> m.
Proof.
  intros Hq. apply map_eq. intros q.
  destruct (decide (q = p)) as [-> | Hne].
  - by rewrite !lookup_insert_eq.
  - by rewrite !lookup_insert_ne, Hq, lookup_insert_ne.
Qed.

Lemma wp_open_archive `{Headers} lib p capsule_result comment_buf path callback
    mode get_comment w :
  contexts w !! p = None →
  (∀ c, capsule_result = Some c → objects w !! c = None) →
  wp (open_archive lib (Some p) capsule_result comment_buf path callback mode
        get_comment)
     (λ r w', open_outcome p callback w r w' ∧
              ∀ v, r = Some v → capsule_result = Some (opened_capsule v)) w.
Proof.
  intros Hfresh Hcfresh. unfold open_archive. wp_step. simpl. wp_step.
  unfold PyUnicode_AsWideChar. simpl fst.
  rewrite (proj2 (Z.ltb_ge _ 0)) by (apply Z.min_glb; lia).
  unfold calloc, Py_INCREF. wp_steps.
  set (uo0 := with_callback_object (Some callback) zeroed_context).
  set (w0 := with_contexts _ _).
  assert (Hc0 : contexts w0 = <[p := uo0]> (contexts w)).
  { subst w0. simpl. by rewrite insert_insert_eq. }
  assert (Hf0 : frame p w0 w0).
  { apply frame_refl with uo0. by rewrite Hc0, lookup_insert_eq. }
  apply wp_PyObject_IsTrue_frame with p w0; [done |]. intros truth w1 Hf1.
  cbv zeta. wp_step.
  apply wp_ALLOW_THREADS_frame with w0; [done |]. intros w2 Hf2.
  wp_step. apply wp_run_native_frame with w0; [done |].
  intros [handle info] w3 Hf3 _.
  destruct Hf3 as (Ho3 & Ht3 & Hq3 & uo0' & uo3 & Hp0 & Hp3 & Hh3 & Hcb3 & Hfd3).
  rewrite Hc0, lookup_insert_eq in Hp0. injection Hp0 as <-.
  rewrite Hc0 in Hq3.
  unfold BLOCK_THREADS. wp_step. eapply wp_store; [exact Hp3 |].
  wp_step. wp_step. eapply wp_load; [simpl; apply lookup_insert_eq |].
  set (uo4 := with_unrar_data handle uo3).
  assert (Hrel : wp (PyGILState_Release (thread_state uo4))
                   (λ _ w5, contexts w5 = <[p := uo4]> (contexts w3) ∧
                            objects w5 = objects w ∧ trace w5 = trace w ∧
                            py_error w5 = py_error w3)
                   (with_contexts (<[p := uo4]> (contexts w3)) w3)).
  { destruct (thread_state uo4); simpl; by rewrite ?Ho3, ?Ht3. }
  eapply wp_mono; [exact Hrel |]. intros [] w5 (Hc5 & Ho5 & Ht5 & He5).
  wp_step. eapply wp_load; [by rewrite Hc5, lookup_insert_eq |].
  assert (Hdel : ∀ w6, contexts w6 = contexts w5 →
                   delete p (contexts w6) = contexts w).
  { intros w6 ->. rewrite Hc5, delete_insert_eq.
    by apply (delete_fresh_frame p _ _ uo0). }
  change (unrar_data uo4) with handle. change (callback_object uo4) with (callback_object uo3).
  rewrite Hcb3. simpl.
  destruct (Z.eqb_spec handle 0) as [Hnull | Hhandle].
  { unfold free. wp_steps.
    eapply wp_load; [simpl; by rewrite Hc5, lookup_insert_eq |]. wp_steps.
    apply wp_convert_rar_error. intros ty msg. wp_steps.
    split; [| done]. simpl. split; [by apply Hdel |].
    split; [done |]. split; [done |]. exists []. split; [by left |].
    simpl. by rewrite Ht5, <- app_assoc. }
  destruct (info.(OpenResult) =? ERAR_SUCCESS); simpl.
  2: { unfold RARCloseArchive, free. wp_steps.
       eapply wp_load; [simpl; by rewrite Hc5, lookup_insert_eq |]. wp_steps.
       apply wp_convert_rar_error. intros ty msg. wp_steps.
       split; [| done]. simpl. split; [by apply Hdel |].
       split; [done |]. split; [done |]. exists [EvRARCloseArchive handle].
       split; [right; by exists handle |]. rewrite Ht5.
       by rewrite <- !app_assoc. }
  unfold encapsulate, PyCapsule_New. wp_step.
  destruct capsule_result as [c|]; [wp_steps | repeat wp_step].
  - destruct (negb (truth =? 0)); wp_steps.
    all: split; [| by intros v [= <-]]; simpl; exists uo4.
    all: split; [by rewrite Ho5 |].
    all: split; [rewrite Hc5; by apply (insert_fresh_frame p _ _ uo0) |].
    all: repeat split; try done.
    all: subst uo4; simpl; congruence.
  - eapply wp_load; [simpl; by rewrite Hc5, lookup_insert_eq |].
    unfold RARCloseArchive, free. repeat wp_step.
    change (callback_object uo4) with (callback_object uo3).
    rewrite Hcb3. simpl Py_XDECREF. repeat wp_step.
    eapply wp_load; [simpl; by rewrite Hc5, lookup_insert_eq |]. wp_steps.
    split; [| done]. simpl. split; [by apply Hdel |].
    split; [done |]. split; [done |]. exists [EvRARCloseArchive handle].
    split; [right; by exists handle |]. rewrite Ht5.
    by rewrite <- !app_assoc.
Qed.

Lemma wp_ALLOW_THREADS_py_error p uo w :
  contexts w !! p = Some uo →
  wp (ALLOW_THREADS p) (λ _ w', py_error w' = py_error w) w.
Proof.
  intros Hp. unfold ALLOW_THREADS, PyGILState_Ensure. wp_steps.
  eapply wp_store; [simpl; exact Hp |]. by wp_steps.
Qed.

(** The path of open_archive on which the library answers without calling
    back, with a handle and ERAR_SUCCESS. *)
Lemma wp_open_archive_opened `{Headers} lib p c comment_buf path callback mode
    get_comment truth (E : option (PyExcType * string) → Prop) h info w :
  contexts w !! p = None →
  (∀ w0, wp (PyObject_IsTrue get_comment)
            (λ t w1, t = truth ∧ E (py_error w1)) w0) →
  lib (mkRAROpenArchiveDataEx
         (PyUnicode_AsWideChar path (replicate 4096 0) 4096).2 mode 0
         (if negb (truth =? 0) then Some comment_buf else None)
         (if negb (truth =? 0) then MAX_COMMENT_LENGTH else 0) 0)
  = NReturn (h, info) →
  h ≠ 0 →
  OpenResult info = ERAR_SUCCESS →
  wp (open_archive lib (Some p) (Some c) comment_buf path callback mode
        get_comment)
     (λ r w',
        r = Some (if negb (truth =? 0)
                  then OpenedWithComment c
                         (Py_BuildValue_y (CmtBuf info)
                            (if CmtSize info =? 0 then 0 else CmtSize info - 1))
                  else OpenedCapsule c) ∧
        E (py_error w')) w.
Proof.
  intros Hfresh Htruth Hlib Hh Hres. unfold open_archive. wp_step. simpl.
  wp_step. unfold PyUnicode_AsWideChar in *. simpl fst. simpl snd in Hlib.
  rewrite (proj2 (Z.ltb_ge _ 0)) by (apply Z.min_glb; lia).
  unfold calloc, Py_INCREF. wp_steps.
  set (uo0 := with_callback_object (Some callback) zeroed_context).
  set (w0 := with_contexts _ _).
  assert (Hc0 : contexts w0 = <[p := uo0]> (contexts w)).
  { subst w0. simpl. by rewrite insert_insert_eq. }
  assert (Hf0 : frame p w0 w0).
  { apply frame_refl with uo0. by rewrite Hc0, lookup_insert_eq. }
  eapply wp_mono.
  { apply wp_and; [apply (wp_PyObject_IsTrue_frame p w0 get_comment
                             (λ _ w1, frame p w0 w1)); [done | done]
                  | apply (Htruth w0)]. }
  intros truth' w1 [Hf1 [-> He1]].
  cbv zeta. wp_step.
  destruct (frame_context _ _ _ Hf1) as [uo1 Hp1].
  eapply wp_mono.
  { apply wp_and; [apply (wp_ALLOW_THREADS_frame p w0 (λ _ w2, frame p w0 w2));
                     [exact Hf1 | done]
                  | apply (wp_ALLOW_THREADS_py_error p uo1 w1 Hp1)]. }
  intros [] w2 [Hf2 He2].
  wp_step. rewrite Hlib. simpl run_native. wp_step.
  destruct Hf2 as (Ho3 & Ht3 & Hq3 & uo0' & uo3 & Hp0 & Hp3 & Hh3 & Hcb3 & Hfd3).
  unfold BLOCK_THREADS. wp_step. eapply wp_store; [exact Hp3 |].
  wp_step. wp_step. eapply wp_load; [simpl; apply lookup_insert_eq |].
  set (uo4 := with_unrar_data h uo3).
  assert (Hrel : wp (PyGILState_Release (thread_state uo4))
                   (λ _ w5, contexts w5 = <[p := uo4]> (contexts w2) ∧
                            py_error w5 = py_error w2)
                   (with_contexts (<[p := uo4]> (contexts w2)) w2)).
  { by destruct (thread_state uo4). }
  eapply wp_mono; [exact Hrel |]. intros [] w5 (Hc5 & He5).
  wp_step. eapply wp_load; [by rewrite Hc5, lookup_insert_eq |].
  change (unrar_data uo4) with h.
  rewrite (proj2 (Z.eqb_neq _ _) Hh), Hres, Z.eqb_refl. simpl negb. cbv iota.
  unfold encapsulate, PyCapsule_New. wp_steps.
  destruct (negb (truth =? 0)); wp_steps; (split; [done |]); simpl;
    by rewrite He5, He2.
Qed.



(** X18: a handle open_archive returned is accepted by close_archive, which
    closes the native handle, releases the callback and frees the block, each
    once: after open and close the contexts are those before the open, and the
    capsule is no longer a handle. *)
Theorem open_archive_then_close `{Headers}
    (RAROpenArchiveEx : RAROpenArchiveDataEx
                        → NativeCall (Z * RAROpenArchiveDataEx))
    (p c : nat) (comment_buf path : list Z) (callback : nat) (mode : Z)
    (get_comment : PyObject) (v : OpenValue) (w w' : World) :
  contexts w !! p = None →
  objects w !! c = None →
  open_archive RAROpenArchiveEx (Some p) (Some c) comment_buf path callback
    mode get_comment w = Some (Some v, w') →
  ∃ uo' w'',
    opened_capsule v = c ∧
    live_handle w' c p uo' ∧
    unrar_data uo' ≠ 0 ∧
    close_archive c w' = Some (Some Py_None, w'') ∧
    contexts w'' = contexts w ∧
    trace w''
    = trace w ++ [EvRARCloseArchive (unrar_data uo'); EvPy_DECREF callback;
                  EvFree p] ∧
    valid_capsule w'' c = false.
Proof.
  intros Hfresh Hcfresh Hrun.
  pose proof (wp_open_archive RAROpenArchiveEx p (Some c) comment_buf path
                callback mode get_comment w Hfresh) as Hwp.
  unfold wp in Hwp. rewrite Hrun in Hwp.
  destruct Hwp as [Hout Hcap]; [by intros c' [= <-] |].
  specialize (Hcap v eq_refl). injection Hcap as Hcap.
  destruct Hout as (uo' & Ho & Hc & Hh & Hcb & Hfd & Ht).
  rewrite <- Hcap in Ho.
  assert (Hlive : live_handle w' c p uo').
  { split; [by rewrite Ho, lookup_insert_eq | by rewrite Hc, lookup_insert_eq]. }
  pose proof (close_encapsulated_file_live w' c p uo' Hlive) as Hclose.
  eexists uo', _. split; [done |]. split; [done |]. split; [done |].
  split; [unfold close_archive, mbind, M_bind; by rewrite Hclose |].
  simpl. split; [| split].
  - rewrite Hc, delete_insert_eq. by apply delete_id.
  - rewrite Ht. unfold teardown_events. rewrite Hcb.
    by destruct (Z.eqb_spec (unrar_data uo') 0).
  - unfold valid_capsule. simpl. by rewrite lookup_insert_eq.
Qed.

Lemma open_archive_then_close_witness :
  ∃ v w' w'',
    open_archive opens_with_comment (Some 5%nat) (Some 0%nat) [] [97] 1 0
      (Py_Bool true) closed_world = Some (Some v, w') ∧
    close_archive 0 w' = Some (Some Py_None, w'') ∧
    contexts w'' = ∅ ∧
    trace w'' = [EvRARCloseArchive 77; EvPy_DECREF 1; EvFree 5].
Proof.
  destruct (open_archive opens_with_comment (Some 5%nat) (Some 0%nat) [] [97] 1
              0 (Py_Bool true) closed_world) as [[[v|] w']|] eqn:Hrun;
    [| by vm_compute in Hrun | by vm_compute in Hrun].
  destruct (open_archive_then_close opens_with_comment 5 0 [] [97] 1 0
              (Py_Bool true) v closed_world w')
    as (uo' & w'' & _ & [_ Hp] & _ & Hclose & Hctx & Htrace & _);
    [done | done | done |].
  exists v, w', w''. split; [done |]. split; [done |]. split; [done |].
  rewrite Htrace. simpl. do 2 f_equal.
  apply (f_equal (λ r, unrar_data <$> context_after r 5)) in Hrun.
  simpl in Hrun. rewrite Hp in Hrun. vm_compute in Hrun.
  injection Hrun as Hrun. symmetry. exact Hrun.
Defined.

(** X19: when get_comment is true and the library opens the archive, leaving
    a comment of CmtSize bytes in the buffer, open_archive returns the capsule
    together with the first CmtSize - 1 bytes of the buffer, the comment
    without its final byte, and no bytes when CmtSize is 0.  The library was
    given the buffer and 512 KiB as its size. *)
Theorem open_archive_comment `{Headers}
    (RAROpenArchiveEx : RAROpenArchiveDataEx
                        → NativeCall (Z * RAROpenArchiveDataEx))
    (p c : nat) (comment_buf path : list Z) (callback : nat) (mode : Z)
    (get_comment : PyObject) (h : Z) (info : RAROpenArchiveDataEx)
    (buf : list Z) (w : World) :
  contexts w !! p = None →
  truthy get_comment →
  RAROpenArchiveEx (open_request path mode (Some comment_buf))
  = NReturn (h, info) →
  h ≠ 0 →
  OpenResult info = ERAR_SUCCESS →
  CmtBuf info = Some buf →
  0 ≤ CmtSize info →
  ∃ w',
    open_archive RAROpenArchiveEx (Some p) (Some c) comment_buf path callback
      mode get_comment w
    = Some (Some (OpenedWithComment c
                    (Py_Bytes (take (Z.to_nat (CmtSize info - 1)) buf))), w').
Proof.
  intros Hfresh Htruthy Hlib Hh Hres Hbuf Hsize.
  destruct (wp_elim _ _ _
              (wp_open_archive_opened RAROpenArchiveEx p c comment_buf path
                 callback mode get_comment 1 (λ _, True) h info w Hfresh
                 ltac:(intros w0; unfold wp; by rewrite Htruthy)
                 Hlib Hh Hres))
    as (r & w' & Hrun & -> & _).
  exists w'. rewrite Hrun. simpl. rewrite Hbuf. simpl.
  destruct (Z.eqb_spec (CmtSize info) 0) as [-> | Hne]; [done |].
  done.
Qed.

Lemma open_archive_comment_witness :
  ∃ w',
    open_archive opens_with_comment (Some 5%nat) (Some 0%nat) [] [97] 1 0
      (Py_Bool true) closed_world
    = Some (Some (OpenedWithComment 0 (Py_Bytes [104; 105])), w').
Proof.
  exact (open_archive_comment opens_with_comment 5 0 [] [97] 1 0
           (Py_Bool true) 77
           (mkRAROpenArchiveDataEx
              (PyUnicode_AsWideChar [97] (replicate 4096 0) 4096).2 0
              ERAR_SUCCESS (Some [104; 105; 0]) MAX_COMMENT_LENGTH 3)
           [104; 105; 0] closed_world eq_refl (λ _, eq_refl) eq_refl
           ltac:(done) eq_refl eq_refl ltac:(done)).
Defined.

(** X20: when get_comment is false, the library is given no comment buffer,
    and when it opens the archive open_archive returns the capsule alone. *)
Theorem open_archive_no_comment `{Headers}
    (RAROpenArchiveEx : RAROpenArchiveDataEx
                        → NativeCall (Z * RAROpenArchiveDataEx))
    (p c : nat) (comment_buf path : list Z) (callback : nat) (mode : Z)
    (get_comment : PyObject) (h : Z) (info : RAROpenArchiveDataEx)
    (w : World) :
  contexts w !! p = None →
  falsy get_comment →
  RAROpenArchiveEx (open_request path mode None) = NReturn (h, info) →
  h ≠ 0 →
  OpenResult info = ERAR_SUCCESS →
  ∃ w',
    open_archive RAROpenArchiveEx (Some p) (Some c) comment_buf path callback
      mode get_comment w
    = Some (Some (OpenedCapsule c), w').
Proof.
  intros Hfresh Hfalsy Hlib Hh Hres.
  destruct (wp_elim _ _ _
              (wp_open_archive_opened RAROpenArchiveEx p c comment_buf path
                 callback mode get_comment 0 (λ _, True) h info w Hfresh
                 ltac:(intros w0; unfold wp; by rewrite Hfalsy)
                 Hlib Hh Hres))
    as (r & w' & Hrun & -> & _).
  by exists w'.
Qed.

Lemma open_archive_no_comment_witness :
  ∃ w',
    open_archive opens_with_comment (Some 5%nat) (Some 0%nat) [] [97] 1 0
      (Py_Bool false) closed_world
    = Some (Some (OpenedCapsule 0), w').
Proof.
  exact (open_archive_no_comment opens_with_comment 5 0 [] [97] 1 0
           (Py_Bool false) 77
           (mkRAROpenArchiveDataEx
              (PyUnicode_AsWideChar [97] (replicate 4096 0) 4096).2 0
              ERAR_SUCCESS (Some [104; 105; 0]) 0 3)
           closed_world eq_refl (λ _, eq_refl) eq_refl ltac:(done) eq_refl).
Defined.

(** X21: a get_comment whose truth test fails is taken for true: the -1 of
    PyObject_IsTrue is stored in a bool.  When the library opens the archive,
    open_archive returns the capsule and the comment although the error of
    the truth test is set. *)
Theorem open_archive_truth_test_fails `{Headers}
    (RAROpenArchiveEx : RAROpenArchiveDataEx
                        → NativeCall (Z * RAROpenArchiveDataEx))
    (p c : nat) (comment_buf path : list Z) (callback : nat) (mode : Z)
    (get_comment : PyObject) (e : PyExcType * string) (h : Z)
    (info : RAROpenArchiveDataEx) (w : World) :
  contexts w !! p = None →
  truth_test_raises get_comment e →
  RAROpenArchiveEx (open_request path mode (Some comment_buf))
  = NReturn (h, info) →
  h ≠ 0 →
  OpenResult info = ERAR_SUCCESS →
  ∃ comment w',
    open_archive RAROpenArchiveEx (Some p) (Some c) comment_buf path callback
      mode get_comment w
    = Some (Some (OpenedWithComment c comment), w') ∧
    py_error w' = Some e.
Proof.
  intros Hfresh Hraises Hlib Hh Hres.
  destruct (wp_elim _ _ _
              (wp_open_archive_opened RAROpenArchiveEx p c comment_buf path
                 callback mode get_comment (-1) (λ err, err = Some e) h info w
                 Hfresh
                 ltac:(intros w0; unfold wp; by rewrite Hraises)
                 Hlib Hh Hres))
    as (r & w' & Hrun & -> & He).
  simpl in Hrun. by eexists _, w'.
Qed.

Lemma open_archive_truth_test_fails_witness :
  ∃ comment w',
    open_archive opens_with_comment (Some 5%nat) (Some 0%nat) [] [97] 1 0
      (Py_Opaque None) closed_world
    = Some (Some (OpenedWithComment 0 comment), w') ∧
    py_error w' = Some (PyExc_Other "Exception", "__bool__ raised").
Proof.
  exact (open_archive_truth_test_fails opens_with_comment 5 0 [] [97] 1 0
           (Py_Opaque None) (PyExc_Other "Exception", "__bool__ raised") 77
           (mkRAROpenArchiveDataEx
              (PyUnicode_AsWideChar [97] (replicate 4096 0) 4096).2 0
              ERAR_SUCCESS (Some [104; 105; 0]) MAX_COMMENT_LENGTH 3)
           closed_world eq_refl (λ _, eq_refl) eq_refl ltac:(done) eq_refl).
Defined.

(** * The calling convention of process_file *)

Lemma wp_process_file_convention `{Headers} lib c p uo op fd w :
  live_handle w c p uo →
  py_error w = None →
  wp (process_file lib c op fd)
     (λ r w', (r = None ↔ is_Some (py_error w')) ∧
              (r = None ∨ r = Some Py_None)) w.
Proof.
  intros Hlive Hclear. unfold wp.
  rewrite (process_file_phases lib c p uo) by done.
  fold (wp (process_file_native lib p op fd ≫= process_file_finish p)
          (λ r w', (r = None ↔ is_Some (py_error w')) ∧
                   (r = None ∨ r = Some Py_None)) w).
  destruct Hlive as [_ Hp].
  unfold process_file_native, process_file_finish.
  wp_step. wp_step. wp_step. cbv beta.
  set (w1 := with_contexts _ w).
  assert (Hp1 : contexts w1 !! p = Some (with_output_fd fd uo)).
  { subst w1. simpl. apply lookup_insert_eq. }
  wp_step. eapply wp_load; [exact Hp1 |]. wp_step.
  eapply wp_ALLOW_THREADS_exact; [exact Hp1 |]. intros st w2 Hc2 _ He2.
  assert (Hinv2 : bridge_inv p (with_output_fd fd uo) w2).
  { eexists. split; [by rewrite Hc2, lookup_insert_eq |].
    apply bridge_rel_thread_state, bridge_rel_refl. }
  apply wp_run_native_inv with (with_output_fd fd uo); [done |].
  intros retval w3 (uo3 & Hp3 & _) Hkeep.
  assert (He3 : py_error w3 = None) by (apply Hkeep; by rewrite He2).
  wp_step. eapply wp_BLOCK_THREADS_exact; [exact Hp3 |].
  intros w4 (Hc4 & _ & He4).
  destruct (retval =? ERAR_SUCCESS).
  { apply wp_ret. rewrite He4, He3. split; [| by right].
    split; [done | by intros [? ?]]. }
  wp_step. eapply wp_load; [by rewrite Hc4 |]. wp_step.
  destruct ((retval =? ERAR_UNKNOWN) && has_callback_error uo3).
  - wp_steps. split; [| by left]. split; [by eexists | done].
  - apply wp_convert_rar_error. intros ty msg. wp_steps.
    split; [| by left]. split; [by eexists | done].
Qed.

(** X22: on a live handle and with the error indicator clear, process_file
    follows the convention of the host runtime: it returns NULL exactly when
    it leaves an error set, and the only value it returns is None.  This holds
    whatever the library returns, and for callback methods that are functions
    of their arguments and only return or raise (the model has no others: a
    callback with state, or one that closes the handle, is not covered). *)
Theorem process_file_null_iff_error `{Headers}
    (RARProcessFile : Z → Z → NativeCall Z)
    (c p : nat) (uo : UnrarOperation) (operation fd : Z) (w : World) :
  live_handle w c p uo →
  py_error w = None →
  ∃ r w',
    process_file RARProcessFile c operation fd w = Some (r, w') ∧
    (r = None ↔ is_Some (py_error w')) ∧
    (r = None ∨ r = Some Py_None).
Proof.
  intros Hlive Hclear.
  destruct (wp_elim _ _ _
              (wp_process_file_convention RARProcessFile c p uo operation fd w
                 Hlive Hclear))
    as (r & w' & Hrun & Hconv & Hval).
  by exists r, w'.
Qed.

Lemma process_file_null_iff_error_witness :
  ∃ w',
    process_file one_chunk 0 1 (-1) (opened_world (CallReturn (Py_Bool true)))
    = Some (Some Py_None, w') ∧
    py_error w' = None.
Proof.
  destruct (process_file_null_iff_error one_chunk 0 5 opened_context 1 (-1)
              (opened_world (CallReturn (Py_Bool true))) (opened_world_live _))
    as (r & w' & Hrun & Hconv & _); [done |].
  assert (Hr : r = Some Py_None).
  { apply (f_equal (fmap fst)) in Hrun. vm_compute in Hrun. by injection Hrun. }
  subst r. exists w'. split; [done |].
  destruct (py_error w') as [e|]; [| done].
  pose proof (proj2 Hconv (ex_intro _ e eq_refl)) as Hnull. done.
Defined.

(** * The fields of a decoded header *)

Lemma wcslen_no_nul (cells : list Z) :
  0 ∉ take (Z.to_nat (wcslen cells)) cells.
Proof.
  induction cells as [|c rest IH]; simpl; [by apply not_elem_of_nil |].
  destruct (Z.eqb_spec c 0) as [-> | Hne]; [by apply not_elem_of_nil |].
  pose proof (wcslen_bounds rest).
  replace (Z.to_nat (1 + wcslen rest)) with (S (Z.to_nat (wcslen rest))) by lia.
  simpl. apply not_elem_of_cons. by split.
Qed.

Lemma wcslen_terminator (cells : list Z) :
  0 ∈ cells →
  (take (Z.to_nat (wcslen cells)) cells ++ [0]) `prefix_of` cells.
Proof.
  induction cells as [|c rest IH]; simpl; [by intros ?%elem_of_nil |].
  intros Hin. destruct (Z.eqb_spec c 0) as [-> | Hne].
  - simpl. by exists rest.
  - pose proof (wcslen_bounds rest).
    replace (Z.to_nat (1 + wcslen rest)) with (S (Z.to_nat (wcslen rest))) by lia.
    simpl. apply prefix_cons, IH.
    apply elem_of_cons in Hin as [? | ?]; [done | done].
Qed.

Lemma combine_small (h l : Z) :
  0 ≤ h < 2 ^ 32 → 0 ≤ l < 2 ^ 32 →
  to_ulong (combine h l) = h * 2 ^ 32 + l.
Proof.
  intros Hh Hl. unfold combine, to_ulong, ULONG_BITS.
  rewrite (Z.mod_small h), (Z.mod_small l) by lia.
  rewrite (Z.mod_small (Z.shiftl h 32)) by (rewrite Z.shiftl_mul_pow2; lia).
  rewrite shiftl_lor_disjoint by lia. apply Z.mod_small. lia.
Qed.

(** X23: a decoded header has the twelve keys of the source, and redir_name
    when the redirection-size field is positive, and no other key; filename
    is the text before the first zero cell of the name buffer; pack_size and
    unpack_size are the 64-bit numbers high * 2^32 + low of their two 32-bit
    halves. *)
Theorem header_to_python_fields `{Headers} (fh : RARHeaderDataEx)
    (v : PyObject) (w w' : World) :
  header_to_python fh w = Some (Some v, w') →
  0 ∈ FileNameW fh →
  0 ≤ PackSizeHigh fh < 2 ^ 32 → 0 ≤ PackSize fh < 2 ^ 32 →
  0 ≤ UnpSizeHigh fh < 2 ^ 32 → 0 ≤ UnpSize fh < 2 ^ 32 →
  ∃ d name,
    v = Py_Dict d ∧
    (∀ k, is_Some (d !! k)
          ↔ k ∈ header_keys ∨ (k = "redir_name" ∧ 0 < RedirNameSize fh)) ∧
    d !! "filename" = Some (Py_Unicode name) ∧
    (0 ∉ name) ∧
    ((name ++ [0]) `prefix_of` FileNameW fh) ∧
    d !! "pack_size"
    = Some (Py_Long (PackSizeHigh fh * 2 ^ 32 + PackSize fh)) ∧
    d !! "unpack_size"
    = Some (Py_Long (UnpSizeHigh fh * 2 ^ 32 + UnpSize fh)).
Proof.
  intros Hdec Hnul Hph Hpl Huh Hul. unfold header_to_python in Hdec.
  apply bind_Some in Hdec as ([filename|] & w1 & Hname & Hdec); [| done].
  apply wchar_to_unicode_Some in Hname as (-> & cells & [= <-] & -> & _ & _).
  unfold AVAL, Py_BuildValue_N, Py_BuildValue_k in Hdec.
  rewrite !combine_small in Hdec by done.
  assert (Hkeys : ∀ (d : gmap string PyObject) (extra : list string),
             dom d = list_to_set (extra ++ header_keys) →
             ∀ k, is_Some (d !! k) ↔ k ∈ header_keys ∨ k ∈ extra).
  { intros d extra Hdom k. rewrite <- elem_of_dom, Hdom, elem_of_list_to_set.
    rewrite elem_of_app. tauto. }
  exists (default ∅ (match v with Py_Dict d => Some d | _ => None end)),
         (take (Z.to_nat (wcslen (FileNameW fh))) (FileNameW fh)).
  destruct (Z.ltb_spec 0 (RedirNameSize fh)) as [Hpos | Hle].
  - apply bind_Some in Hdec as ([text|] & w2 & _ & Hdec); [| done].
    injection Hdec as <- <-. simpl.
    split; [done |]. split.
    { intros k. rewrite (Hkeys _ ["redir_name"]).
      - rewrite list_elem_of_singleton. tauto.
      - rewrite !dom_insert_L, dom_empty_L. simpl. set_solver. }
    split; [by simplify_map_eq |].
    split; [apply wcslen_no_nul |].
    split; [by apply wcslen_terminator |].
    split; by simplify_map_eq.
  - injection Hdec as <- <-. simpl.
    split; [done |]. split.
    { intros k. rewrite (Hkeys _ []).
      - rewrite elem_of_nil. intuition lia.
      - rewrite !dom_insert_L, dom_empty_L. simpl. set_solver. }
    split; [by simplify_map_eq |].
    split; [apply wcslen_no_nul |].
    split; [by apply wcslen_terminator |].
    split; by simplify_map_eq.
Qed.

Lemma header_to_python_fields_witness :
  ∃ d,
    header_to_python header_large_file (opened_world (CallReturn Py_None))
    = Some (Some (Py_Dict d), opened_world (CallReturn Py_None)) ∧
    d !! "filename" = Some (Py_Unicode [97]) ∧
    d !! "pack_size" = Some (Py_Long (2 ^ 32 + 5)) ∧
    d !! "unpack_size" = Some (Py_Long 7) ∧
    d !! "atime" = None.
Proof.
  destruct (header_to_python_succeeds header_large_file
              (opened_world (CallReturn Py_None))) as [d0 Hrun].
  { split; [done |]. intros Hpos. by vm_compute in Hpos. }
  destruct (header_to_python_fields header_large_file (Py_Dict d0)
              (opened_world (CallReturn Py_None))
              (opened_world (CallReturn Py_None)) Hrun)
    as (d & name & [= <-] & Hkeys & Hname & _ & _ & Hpack & Hunp);
    [by apply list_elem_of_further, list_elem_of_here
    | by vm_compute | by vm_compute | by vm_compute | by vm_compute |].
  exists d0. split; [done |].
  split.
  { transitivity (match header_to_python header_large_file
                          (opened_world (CallReturn Py_None)) with
                  | Some (Some (Py_Dict d), _) => d !! "filename"
                  | _ => None
                  end); [by rewrite Hrun | by vm_compute]. }
  split; [done |]. split; [done |].
  destruct (d0 !! "atime") as [x|] eqn:Hx; [| done].
  destruct (proj1 (Hkeys "atime") ltac:(by rewrite Hx)) as [Hin | [? _]];
    [| done].
  by vm_compute in Hin; repeat (apply elem_of_cons in Hin as [? | Hin]; [done |]);
    apply elem_of_nil in Hin.
Defined.
